(** * SNTPv4: a shallow embedding of the SNTP client and its message transport

    The development follows the two translation units of the library:
    [NTPMessageTransport] (MessageTransport.h / MessageTransport.cpp: timestamp
    codec, kiss-code table, datagram exchange) and [NTPClient] (ntpclient.h /
    ntpclient.cpp: the on-wire exchange and [time]).

    Conventions.
    - A C unsigned integer of width w is a [Z] in [0, 2^w); every place where
      the C code converts or wraps is written out ([mod], [Z.land]).
    - A [double] is a binary64 [float]; [time] computes with the primitive
      operations, which round as the hardware does.  The timestamp codec only
      scales a fraction by 2^16 / 2^32 and truncates, which binary64 does
      without rounding; there the value of the double is written as the exact
      rational ([Q]) it is.
    - [errno], the UDP socket, the WiFi status, the millisecond clock, the
      serial port and the address space are fields of an explicit [World]
      that every effectful function threads through.
    - An address is mapped or not: a read through a pointer to an address
      that is not mapped faults, and the call never returns. *)

From Stdlib Require Import Floats Uint63 ZArith QArith Qabs Qround Bool String Ascii List Lia Lqa.
Import ListNotations.
Local Open Scope Z_scope.

(** ** Bytes and byte order *)

Inductive byte_order : Type := LittleEndian | BigEndian.

(** The [n] bytes of [x] as they lie in memory on a little-endian host. *)
Fixpoint bytes_le (n : nat) (x : Z) : list Z :=
  match n with
  | O => []
  | S k => x mod 256 :: bytes_le k (x / 256)
  end.

(** The unsigned integer whose little-endian memory image is [bs]. *)
Fixpoint value_le (bs : list Z) : Z :=
  match bs with
  | [] => 0
  | b :: rest => b + 256 * value_le rest
  end.

Definition value_be (bs : list Z) : Z := value_le (rev bs).
Definition bytes_be (n : nat) (x : Z) : list Z := rev (bytes_le n x).

(** Store and load of an [n]-byte unsigned field in host order, as done by
    the struct overlay on the datagram buffer. *)
Definition store (h : byte_order) (n : nat) (x : Z) : list Z :=
  match h with LittleEndian => bytes_le n x | BigEndian => bytes_be n x end.

Definition load (h : byte_order) (bs : list Z) : Z :=
  match h with LittleEndian => value_le bs | BigEndian => value_be bs end.

(** [htons]/[ntohs]/[htonl]/[ntohl] come from the platform headers, not from
    this library.  On the little-endian hosts on which the code calls them
    they reverse the bytes of their argument. *)
Definition bswap (n : nat) (x : Z) : Z := value_le (rev (bytes_le n x)).
Definition htons : Z -> Z := bswap 2.
Definition ntohs : Z -> Z := bswap 2.
Definition htonl : Z -> Z := bswap 4.
Definition ntohl : Z -> Z := bswap 4.

(** Conversion of a double to an unsigned integer of [w] bits: the value is
    truncated toward zero.  C leaves the conversion undefined when the
    truncated value does not fit; the model wraps there. *)
Definition Qtrunc (q : Q) : Z := Z.quot (Qnum q) (Zpos (Qden q)).
Definition double_to_uint (w : Z) (q : Q) : Z := Qtrunc q mod 2 ^ w.

(** *** binary64 *)

(** Conversion of an integer to [double]; exact below 2^53, as are all the
    integers [time] converts (32-bit seconds, milliseconds, [time_t]
    constants). *)
Definition double_of_Z (z : Z) : float :=
  match z with
  | Z0 => 0%float
  | Zpos _ => of_uint63 (Uint63.of_Z z)
  | Zneg p => (- of_uint63 (Uint63.of_Z (Zpos p)))%float
  end.

(** The quotient of two integers in binary64: for a value of [getFraction],
    which is [frac # 2^32], this is the source's [(double)frac / FRAC]. *)
Definition double_of_Q (q : Q) : float :=
  (double_of_Z (Qnum q) / double_of_Z (Zpos (Qden q)))%float.


(** Conversion of a double to an integer type truncates toward zero (C
    leaves it undefined for NaN, the infinities and values that do not fit). *)
Definition double_to_Z (x : float) : Z :=
  match Prim2SF x with
  | S754_finite s m e =>
      let v := if 0 <=? e then Zpos m * 2 ^ e else Zpos m / 2 ^ (- e) in
      if s then - v else v
  | _ => 0
  end.

Definition double_to_uint32 (x : float) : Z := double_to_Z x mod 2 ^ 32.

(** [modf(x, &intpart)]: the fractional part, which is returned, and the
    integral part, both with the sign of [x] (the sign of a zero integral
    part apart, which no caller observes). *)
Definition modf (x : float) : float * float :=
  match Prim2SF x with
  | S754_finite s m e =>
      if 0 <=? e then ((if s then - 0 else 0)%float, x)
      else let intpart := double_of_Z (double_to_Z x) in ((x - intpart)%float, intpart)
  | S754_infinity s => ((if s then - 0 else 0)%float, x)
  | _ => (x, x)
  end.

(** ** The environment: errno, WiFi, the UDP socket, clock, serial port *)

Inductive Errno : Type :=
  | EINVAL | ENETDOWN | EISCONN | EADDRNOTAVAIL | EOVERFLOW | EIO
  | EPROTONOSUPPORT | EOPNOTSUPP | ENODATA | EPFNOSUPPORT | EAGAIN | EBADMSG.

(** What is handed to [Serial.print] / [Serial.println]. *)
Inductive serial_text : Type :=
  | TStr (s : string)              (* a literal or a String *)
  | TCStr (bs : list Z)            (* a C string read from memory, NUL excluded *)
  | TDouble (x : float)
  | TULong (n : Z)
  | TStrerror (e : option Errno).  (* strerror(errno) *)

Inductive serial_out : Type :=
  | Print (t : serial_text)
  | Println (t : serial_text).

(** A pointer argument is either null or the address of the one object of
    its type that the caller owns; that object is a field of [World]. *)
Inductive ptr : Type := NULL | PTR.

(** struct ntp_packet (MessageTransport.h); 48 bytes, no padding. *)
Record ntp_packet : Type := mk_packet {
  li_vn_mode : Z;   (* uint8_t *)
  stratum : Z;      (* uint8_t *)
  ppoll : Z;        (* int8_t *)
  precision : Z;    (* int8_t *)
  rootdelay : Z;    (* tstamp32_t *)
  rootdisp : Z;     (* tstamp32_t *)
  refid : Z;        (* uint32_t *)
  reftime : Z;      (* tstamp64_t *)
  org : Z;          (* tstamp64_t *)
  rec : Z;          (* tstamp64_t *)
  xmt : Z           (* tstamp64_t *)
}.

Definition sizeof_ntp_packet : Z := 48.

Definition set_li_vn_mode (v : Z) (p : ntp_packet) : ntp_packet :=
  mk_packet v (stratum p) (ppoll p) (precision p) (rootdelay p) (rootdisp p)
            (refid p) (reftime p) (org p) (rec p) (xmt p).

Definition set_xmt (v : Z) (p : ntp_packet) : ntp_packet :=
  mk_packet (li_vn_mode p) (stratum p) (ppoll p) (precision p) (rootdelay p)
            (rootdisp p) (refid p) (reftime p) (org p) (rec p) v.

Definition slice (off n : nat) (bs : list Z) : list Z := firstn n (skipn off bs).

Definition int8_of_byte (b : Z) : Z := if 128 <=? b then b - 256 else b.

(** The memory image of a packet and the packet a memory image denotes. *)
Definition packet_bytes (h : byte_order) (p : ntp_packet) : list Z :=
  [li_vn_mode p mod 256; stratum p mod 256; ppoll p mod 256; precision p mod 256]
  ++ store h 4 (rootdelay p) ++ store h 4 (rootdisp p) ++ store h 4 (refid p)
  ++ store h 8 (reftime p) ++ store h 8 (org p) ++ store h 8 (rec p)
  ++ store h 8 (xmt p).

Definition packet_of_bytes (h : byte_order) (bs : list Z) : ntp_packet :=
  {| li_vn_mode := load h (slice 0 1 bs);
     stratum := load h (slice 1 1 bs);
     ppoll := int8_of_byte (load h (slice 2 1 bs));
     precision := int8_of_byte (load h (slice 3 1 bs));
     rootdelay := load h (slice 4 4 bs);
     rootdisp := load h (slice 8 4 bs);
     refid := load h (slice 12 4 bs);
     reftime := load h (slice 16 8 bs);
     org := load h (slice 24 8 bs);
     rec := load h (slice 32 8 bs);
     xmt := load h (slice 40 8 bs) |}.

(** memset(packet, c, sizeof(ntp_packet)) *)
Definition memset_packet (h : byte_order) (c : Z) : ntp_packet :=
  packet_of_bytes h (repeat (c mod 256) (Z.to_nat sizeof_ntp_packet)).

(** The first bytes of the object are overwritten by [bs], the rest stays. *)
Definition overlay (h : byte_order) (p : ntp_packet) (bs : list Z) : ntp_packet :=
  packet_of_bytes h (bs ++ skipn (length bs) (packet_bytes h p)).

(** An arriving datagram: the size [parsePacket] reports for it and the
    bytes [read] can deliver. *)
Record Datagram : Type := { dg_size : Z; dg_payload : list Z }.

(** The WiFiUDP object [_datagram].  [udp_arrivals] is the schedule of the
    coming polls: [None] when nothing has arrived at that poll; an exhausted
    schedule means that nothing arrives any more.  [udp_polls] and
    [udp_reads] count the calls of [parsePacket] and [read]. *)
Record WiFiUDP : Type := mk_udp {
  udp_local_port : Z;
  udp_begin_ok : bool;
  udp_resolves : bool;
  udp_tx_room : nat;
  udp_send_ok : bool;
  udp_tx_dest : string * Z;
  udp_tx : list Z;
  udp_sent : list ((string * Z) * list Z);
  udp_arrivals : list (option Datagram);
  udp_rx : list Z;
  udp_polls : Z;
  udp_reads : Z
}.

Record World : Type := mk_world {
  wifi_connected : bool;        (* WiFi.status() == WL_CONNECTED *)
  datagram : WiFiUDP;           (* NTPMessageTransport::_datagram *)
  server_name_str : string;     (* NTPMessageTransport::_server_name_str *)
  clock_ms : Z;                 (* the millisecond counter behind millis() *)
  errno : option Errno;         (* None: no error recorded *)
  serial : list serial_out;     (* everything printed so far *)
  memory : Z -> option Z;       (* the byte at each mapped address *)
  packet : ntp_packet;          (* the caller's ntp_packet object *)
  tloc_obj : Z;                 (* the caller's time_t object *)
  error_obj : option Errno      (* the caller's String object, by the errno it renders *)
}.

Definition with_datagram (u : WiFiUDP) (w : World) : World :=
  mk_world (wifi_connected w) u (server_name_str w) (clock_ms w) (errno w)
           (serial w) (memory w) (packet w) (tloc_obj w) (error_obj w).
Definition with_server_name (s : string) (w : World) : World :=
  mk_world (wifi_connected w) (datagram w) s (clock_ms w) (errno w)
           (serial w) (memory w) (packet w) (tloc_obj w) (error_obj w).
Definition with_clock (c : Z) (w : World) : World :=
  mk_world (wifi_connected w) (datagram w) (server_name_str w) c (errno w)
           (serial w) (memory w) (packet w) (tloc_obj w) (error_obj w).
Definition with_errno (e : option Errno) (w : World) : World :=
  mk_world (wifi_connected w) (datagram w) (server_name_str w) (clock_ms w) e
           (serial w) (memory w) (packet w) (tloc_obj w) (error_obj w).
Definition with_serial (s : list serial_out) (w : World) : World :=
  mk_world (wifi_connected w) (datagram w) (server_name_str w) (clock_ms w)
           (errno w) s (memory w) (packet w) (tloc_obj w) (error_obj w).
Definition with_packet (p : ntp_packet) (w : World) : World :=
  mk_world (wifi_connected w) (datagram w) (server_name_str w) (clock_ms w)
           (errno w) (serial w) (memory w) p (tloc_obj w) (error_obj w).
Definition with_tloc (t : Z) (w : World) : World :=
  mk_world (wifi_connected w) (datagram w) (server_name_str w) (clock_ms w)
           (errno w) (serial w) (memory w) (packet w) t (error_obj w).
Definition with_error_obj (e : option Errno) (w : World) : World :=
  mk_world (wifi_connected w) (datagram w) (server_name_str w) (clock_ms w)
           (errno w) (serial w) (memory w) (packet w) (tloc_obj w) e.

(** ** State monad of the calls.  [None] means that the call does not
    return: the fuel given to the poll loop did not suffice, or a read went
    to an address that is not mapped and the program has faulted. *)

Definition M (A : Type) : Type := World -> option (A * World).

Definition ret {A : Type} (a : A) : M A := fun w => Some (a, w).

Definition bind {A B : Type} (c : M A) (k : A -> M B) : M B :=
  fun w => match c w with
           | Some (a, w') => k a w'
           | None => None
           end.

Notation "x <- c ;; k" := (bind c (fun x => k))
  (at level 61, c at next level, right associativity).
Notation "c ;; k" := (bind c (fun _ => k))
  (at level 61, right associativity).

Definition gets {A : Type} (f : World -> A) : M A := fun w => Some (f w, w).

(** The result of reads from memory, when they have all succeeded. *)
Definition reading {A : Type} (r : option A) : M A :=
  fun w => match r with
           | Some a => Some (a, w)
           | None => None
           end.
Definition modify (f : World -> World) : M unit := fun w => Some (tt, f w).

Definition set_errno (e : Errno) : M unit := modify (with_errno (Some e)).
Definition Serial_print (t : serial_text) : M unit :=
  modify (fun w => with_serial (serial w ++ [Print t]) w).
Definition Serial_println (t : serial_text) : M unit :=
  modify (fun w => with_serial (serial w ++ [Println t]) w).

(** unsigned long is 32 bits wide on the target. *)
Definition ULONG_MOD : Z := 2 ^ 32.
Definition millis : M Z := gets (fun w => clock_ms w mod ULONG_MOD).
Definition delay (ms : Z) : M unit := modify (fun w => with_clock (clock_ms w + ms) w).

(** *** The WiFiUDP interface, as far as the transport uses it *)

Definition udp_localPort : M Z := gets (fun w => udp_local_port (datagram w)).

Definition udp_begin (port : Z) : M bool := fun w =>
  let u := datagram w in
  if udp_begin_ok u
  then Some (true, with_datagram
        (mk_udp port (udp_begin_ok u) (udp_resolves u) (udp_tx_room u)
                (udp_send_ok u) (udp_tx_dest u) (udp_tx u) (udp_sent u)
                (udp_arrivals u) (udp_rx u) (udp_polls u) (udp_reads u)) w)
  else Some (false, w).

Definition udp_beginPacket (host : string) (port : Z) : M bool := fun w =>
  let u := datagram w in
  if udp_resolves u
  then Some (true, with_datagram
        (mk_udp (udp_local_port u) (udp_begin_ok u) (udp_resolves u)
                (udp_tx_room u) (udp_send_ok u) (host, port) [] (udp_sent u)
                (udp_arrivals u) (udp_rx u) (udp_polls u) (udp_reads u)) w)
  else Some (false, w).

Definition udp_write (bs : list Z) : M Z := fun w =>
  let u := datagram w in
  let accepted := firstn (udp_tx_room u - length (udp_tx u)) bs in
  Some (Z.of_nat (length accepted), with_datagram
        (mk_udp (udp_local_port u) (udp_begin_ok u) (udp_resolves u)
                (udp_tx_room u) (udp_send_ok u) (udp_tx_dest u)
                (udp_tx u ++ accepted) (udp_sent u)
                (udp_arrivals u) (udp_rx u) (udp_polls u) (udp_reads u)) w).

Definition udp_endPacket : M bool := fun w =>
  let u := datagram w in
  if udp_send_ok u
  then Some (true, with_datagram
        (mk_udp (udp_local_port u) (udp_begin_ok u) (udp_resolves u)
                (udp_tx_room u) (udp_send_ok u) (udp_tx_dest u) []
                (udp_sent u ++ [(udp_tx_dest u, udp_tx u)])
                (udp_arrivals u) (udp_rx u) (udp_polls u) (udp_reads u)) w)
  else Some (false, w).

Definition udp_parsePacket : M Z := fun w =>
  let u := datagram w in
  match udp_arrivals u with
  | Some dg :: rest =>
      Some (dg_size dg, with_datagram
        (mk_udp (udp_local_port u) (udp_begin_ok u) (udp_resolves u)
                (udp_tx_room u) (udp_send_ok u) (udp_tx_dest u) (udp_tx u)
                (udp_sent u) rest (dg_payload dg) (udp_polls u + 1)
                (udp_reads u)) w)
  | _ =>
      Some (0, with_datagram
        (mk_udp (udp_local_port u) (udp_begin_ok u) (udp_resolves u)
                (udp_tx_room u) (udp_send_ok u) (udp_tx_dest u) (udp_tx u)
                (udp_sent u) (tl (udp_arrivals u)) (udp_rx u) (udp_polls u + 1)
                (udp_reads u)) w)
  end.

(** [read(buf, len)]: up to [len] bytes of the current datagram. *)
Definition udp_read (len : nat) : M (list Z) := fun w =>
  let u := datagram w in
  Some (firstn len (udp_rx u), with_datagram
        (mk_udp (udp_local_port u) (udp_begin_ok u) (udp_resolves u)
                (udp_tx_room u) (udp_send_ok u) (udp_tx_dest u) (udp_tx u)
                (udp_sent u) (udp_arrivals u) (skipn len (udp_rx u))
                (udp_polls u) (udp_reads u + 1)) w).

Definition udp_flush : M unit := fun w =>
  let u := datagram w in
  Some (tt, with_datagram
        (mk_udp (udp_local_port u) (udp_begin_ok u) (udp_resolves u)
                (udp_tx_room u) (udp_send_ok u) (udp_tx_dest u) (udp_tx u)
                (udp_sent u) (udp_arrivals u) [] (udp_polls u) (udp_reads u)) w).

(** *** C strings in memory *)

Definition bytes_of_string (s : string) : list Z :=
  map (fun c => Z.of_nat (nat_of_ascii c)) (list_ascii_of_string s).

(** A string literal as the array it initialises: its characters and the NUL. *)
Definition c_str (s : string) : list Z := bytes_of_string s ++ [0].

(** strcmp(s1, s2) with [s1] an address and [s2] a NUL-terminated array.
    The bytes at [s1] are read one by one, up to the first that differs or
    the NUL; [None] when one of them is not mapped. *)
Fixpoint strcmp (mem : Z -> option Z) (s1 : Z) (s2 : list Z) : option Z :=
  match s2 with
  | [] => mem s1
  | c :: rest =>
      match mem s1 with
      | None => None
      | Some b =>
          if b =? c
          then if c =? 0 then Some 0 else strcmp mem (s1 + 1) rest
          else Some (b - c)
      end
  end.

(** strncpy(dst, src, n): the [n] bytes written to [dst]; the source is read
    up to its NUL or [n] bytes; [None] when one of them is not mapped. *)
Fixpoint strncpy (mem : Z -> option Z) (src : Z) (n : nat) : option (list Z) :=
  match n with
  | O => Some []
  | S k =>
      match mem src with
      | None => None
      | Some b =>
          if b =? 0 then Some (repeat 0 (S k))
          else option_map (cons b) (strncpy mem (src + 1) k)
      end
  end.

(** The characters of a char array up to its first NUL. *)
Fixpoint upto_nul (bs : list Z) : list Z :=
  match bs with
  | [] => []
  | b :: rest => if b =? 0 then [] else b :: upto_nul rest
  end.

Module NTPMessageTransport.

(** *** Timestamp formats (MessageTransport.h) *)

Definition tstamp32_t := Z.
Definition tstamp64_t := Z.

Definition NTP_SERVER_PORT : Z := 123.
Definition UDP_LOCAL_PORT : Z := 8123.
Definition FRIC : Q := inject_Z 65536.
Definition FRAC : Q := inject_Z 4294967296.

(** *** Timestamp handling.  The [byte_order] argument selects the branch
    of [#if __BYTE_ORDER__ == __ORDER_LITTLE_ENDIAN__]. *)

Definition getFraction32 (h : byte_order) (ts : tstamp32_t) : Q :=
  let fric :=
    match h with
    | LittleEndian => ntohs (Z.land (Z.shiftr ts 16) 0xffff)
    | BigEndian => Z.land ts 0xffff
    end in
  (inject_Z fric / FRIC)%Q.

Definition getFraction64 (h : byte_order) (ts : tstamp64_t) : Q :=
  let frac :=
    match h with
    | LittleEndian => ntohl (Z.land (Z.shiftr ts 32) 0xffffffff)
    | BigEndian => Z.land ts 0xffffffff
    end in
  (inject_Z frac / FRAC)%Q.

Definition getSeconds32 (h : byte_order) (ts : tstamp32_t) : Z :=
  match h with
  | LittleEndian => ntohs (Z.land (Z.shiftr ts 0) 0xffff)
  | BigEndian => Z.land ts 0xffff
  end.

Definition getSeconds64 (h : byte_order) (ts : tstamp64_t) : Z :=
  match h with
  | LittleEndian => ntohl (Z.land (Z.shiftr ts 0) 0xffffffff)
  | BigEndian => Z.land ts 0xffffffff
  end.

Definition generateTstamp32 (h : byte_order) (secs : Z) (fric : Q) : tstamp32_t :=
  let raw := double_to_uint 16 (fric * FRIC)%Q in
  match h with
  | LittleEndian => Z.lor (htons secs) (Z.shiftl (htons raw) 16)
  | BigEndian => Z.lor (Z.shiftl secs 16) raw
  end.

Definition generateTstamp64 (h : byte_order) (secs : Z) (frac : Q) : tstamp64_t :=
  let raw := double_to_uint 32 (frac * FRAC)%Q in
  match h with
  | LittleEndian => Z.lor (htonl secs) (Z.shiftl (htonl raw) 32)
  | BigEndian => Z.lor (Z.shiftl secs 32) raw
  end.

(** *** The kiss-code table and [printKissCode] *)

Definition TABLE_SIZE : nat := 14.

Definition kod_table : list (string * string) :=
  [ ("ACST", "The association belongs to a anycast server.");
    ("AUTH", "Server authentication failed.");
    ("AUTO", "Autokey sequence failed.");
    ("BCST", "The association belongs to a broadcast server.");
    ("CRYP", "Cryptographic authentication or identification failed.");
    ("DENY", "Access denied by remote server.");
    ("DROP", "Lost peer in symmetric mode.");
    ("RSTR", "Access denied due to local policy.");
    ("INIT", "The association has not yet synchronized for the first time.");
    ("MCST", "The association belongs to a manycast server.");
    ("NKEY", "No key found.  Either the key was never installed or is not trusted.");
    ("RATE", "Rate exceeded.  The server has temporarily denied access because the client exceeded the rate threshold.");
    ("RMOT", "Somebody is tinkering with the association from a remote host running ntpdc.  Not to worry unless some rascal has stolen your keys.");
    ("STEP", "A step change in system time has occurred, but the association has not yet resynchronized.") ]%string.

(** The [for] loop with its [break]: the first entry, among the first
    [TABLE_SIZE], whose code [strcmp] finds equal to the string at [code];
    [None] when a read of [strcmp] faults. *)
Fixpoint kod_search (mem : Z -> option Z) (code : Z) (table : list (string * string))
  : option (option (string * string)) :=
  match table with
  | [] => Some None
  | entry :: rest =>
      match strcmp mem code (c_str (fst entry)) with
      | None => None
      | Some d => if d =? 0 then Some (Some entry) else kod_search mem code rest
      end
  end.

Definition printKissCode (code : Z) : M bool :=
  mem <- gets memory ;;
  found <- reading (kod_search mem code (firstn TABLE_SIZE kod_table)) ;;
  match found with
  | Some (kod_code, kod_msg) =>
      Serial_println (TStr "Your SNTP client has received a Kiss-o'-Death (KoD) packet from its server.") ;;
      Serial_print (TStr "-- Code: ") ;;
      Serial_println (TStr kod_code) ;;
      Serial_print (TStr "-- Message: ") ;;
      Serial_println (TStr kod_msg) ;;
      ret true
  | None =>
      Serial_println (TStr "Your SNTP client has received a Kiss-o'-Death (KoD) packet from its server, but the code is unknown.") ;;
      copied <- reading (strncpy mem code 4) ;;
      let code_s := copied ++ [0] in
      Serial_print (TStr "-- Unknown code: ") ;;
      Serial_println (TCStr (upto_nul code_s)) ;;
      ret false
  end.

(** *** Transport *)

Definition serverName : M string := gets server_name_str.

Definition setServerName (ntp_server_name : string) : M unit :=
  modify (with_server_name ntp_server_name).

Definition net_provider : M bool :=
  connected <- gets wifi_connected ;;
  if negb connected then
    set_errno ENETDOWN ;; ret false
  else
    port <- udp_localPort ;;
    if port =? UDP_LOCAL_PORT then ret true
    else
      port <- udp_localPort ;;
      if port =? 0 then
        began <- udp_begin UDP_LOCAL_PORT ;;
        if began then ret true
        else set_errno EISCONN ;; ret false
      else set_errno EISCONN ;; ret false.

Definition send_server_request (h : byte_order) (ntp_request : ptr) : M bool :=
  match ntp_request with
  | NULL => set_errno EINVAL ;; ret false
  | PTR =>
      name <- gets server_name_str ;;
      resolved <- udp_beginPacket name NTP_SERVER_PORT ;;
      if negb resolved then
        set_errno EADDRNOTAVAIL ;; ret false
      else
        request <- gets packet ;;
        written <- udp_write (packet_bytes h request) ;;
        if negb (written =? sizeof_ntp_packet) then
          set_errno EOVERFLOW ;; ret false
        else
          sent <- udp_endPacket ;;
          if negb sent then set_errno EIO ;; ret false
          else ret true
  end.

(** The polling loop of [receive_server_reply]:
    do { rply_size = parsePacket(); if (rply_size != 0) break; delay(1); }
    while (++ms_cycles < timeout);
    [fuel] bounds the number of iterations of the model. *)
Fixpoint poll_loop (fuel : nat) (timeout ms_cycles : Z) : M Z :=
  match fuel with
  | O => fun _ => None
  | S fuel' =>
      rply_size <- udp_parsePacket ;;
      if negb (rply_size =? 0) then ret rply_size
      else
        delay 1 ;;
        let ms_cycles := (ms_cycles + 1) mod ULONG_MOD in
        if ms_cycles <? timeout then poll_loop fuel' timeout ms_cycles
        else ret rply_size
  end.

Definition receive_server_reply (h : byte_order) (fuel : nat)
    (ntp_reply : ptr) (timeout : Z) : M bool :=
  match ntp_reply with
  | NULL => set_errno EINVAL ;; ret false
  | PTR =>
      if timeout =? 0 then set_errno EINVAL ;; ret false
      else
        rply_size <- poll_loop fuel timeout 0 ;;
        if rply_size <? sizeof_ntp_packet then
          set_errno EPROTONOSUPPORT ;; ret false
        else
          bs <- udp_read (Z.to_nat sizeof_ntp_packet) ;;
          modify (fun w => with_packet (overlay h (packet w) bs) w) ;;
          if negb (Z.of_nat (length bs) =? sizeof_ntp_packet) then
            set_errno EOVERFLOW ;; ret false
          else
            udp_flush ;; ret true
  end.

Definition packetExchange (h : byte_order) (fuel : nat)
    (packet : ptr) (timeout : Z) : M bool :=
  match packet with
  | NULL => set_errno EINVAL ;; ret false
  | PTR =>
      if timeout =? 0 then set_errno EINVAL ;; ret false
      else
        up <- net_provider ;;
        if negb up then ret false
        else
          sent <- send_server_request h packet ;;
          if negb sent then ret false
          else
            received <- receive_server_reply h fuel packet timeout ;;
            if negb received then ret false
            else ret true
  end.

End NTPMessageTransport.

Module NTPClient.

Import NTPMessageTransport.

Definition DEFAULT_NTP_SERVER : string := "europe.pool.ntp.org".
Definition ERA_OFFSET0_1_JAN_1970 : Z := 2208988800.

(** A [const char *] argument: [None] is the null pointer. *)
Definition begin (ntp_server_name : option string) : M unit :=
  match ntp_server_name with
  | Some name => NTPMessageTransport.setServerName name
  | None => NTPMessageTransport.setServerName DEFAULT_NTP_SERVER
  end.

Definition serverName : M string := NTPMessageTransport.serverName.

Definition setServerName (ntp_server_name : option string) : M unit :=
  match ntp_server_name with
  | None => set_errno EINVAL
  | Some name => NTPMessageTransport.setServerName name
  end.

Definition lastErrorString (error : ptr) : M unit :=
  error_str <- gets errno ;;
  match error with
  | NULL =>
      Serial_print (TStr (String (ascii_of_nat 10) EmptyString)) ;;
      Serial_print (TStr "Last error: ") ;;
      Serial_println (TStrerror error_str)
  | PTR => modify (with_error_obj error_str)
  end.

(** Constants of [on_wire_exchange]. *)
Definition LEAP_NO_WARNING : Z := 0x00.      (* 0b00'000000 *)
Definition NTP_VERSION_4 : Z := 0x20.        (* 0b00'100'000 *)
Definition MODE_CLIENT : Z := 0x03.          (* 0b00000'011 *)
Definition TIMEOUT : Z := 1024.
Definition MODE_MASK : Z := 0x07.            (* 0b00000'111 *)
Definition MODE_SERVER : Z := 0x04.          (* 0b00000'100 *)
Definition PROTOCOL_MASK : Z := 0x38.        (* 0b00'111'000 *)
Definition LEAP_MASK : Z := 0xC0.            (* 0b11'000000 *)
Definition LEAP_ALARM_CONDITION : Z := 0xC0. (* 0b11'000000 *)

(** The request assembled at the start of [on_wire_exchange]. *)
Definition assemble_request (h : byte_order) (p : ntp_packet) : ntp_packet :=
  let xmt_bak := xmt p in
  let p := memset_packet h 0 in
  let p := set_li_vn_mode (Z.lor (Z.lor LEAP_NO_WARNING NTP_VERSION_4) MODE_CLIENT) p in
  set_xmt xmt_bak p.

(** The checks [on_wire_exchange] makes on the server's reply.  The call
    [printKissCode((const char * )packet->refid)] passes the value of the
    field as the address of the string. *)
Definition check_reply (xmt_bak : Z) : M bool :=
  p <- gets packet ;;
  if negb (Z.land (li_vn_mode p) MODE_MASK =? MODE_SERVER) then
    set_errno EOPNOTSUPP ;; ret false
  else if negb (Z.land (li_vn_mode p) PROTOCOL_MASK =? NTP_VERSION_4) then
    set_errno EPROTONOSUPPORT ;; ret false
  else if Z.land (li_vn_mode p) LEAP_MASK =? LEAP_ALARM_CONDITION then
    set_errno ENODATA ;; ret false
  else if 15 <? stratum p then
    set_errno EPFNOSUPPORT ;; ret false
  else if stratum p =? 0 then
    printKissCode (refid p) ;;
    set_errno EAGAIN ;; ret false
  else if negb (xmt_bak =? org p) then
    set_errno EBADMSG ;; ret false
  else ret true.

Definition on_wire_exchange (h : byte_order) (fuel : nat) (packet_ptr : ptr) : M bool :=
  match packet_ptr with
  | NULL => set_errno EINVAL ;; ret false
  | PTR =>
      p <- gets packet ;;
      let xmt_bak := xmt p in
      modify (with_packet (assemble_request h p)) ;;
      exchanged <- packetExchange h fuel packet_ptr TIMEOUT ;;
      if negb exchanged then ret false
      else check_reply xmt_bak
  end.

(** The on-wire algorithm on the four timestamps in seconds, in the
    arithmetic of [double]. *)
Definition roundtrip_delay (t1d t2d t3d t4d : float) : float :=
  ((t4d - t1d) - (t3d - t2d))%float.
Definition clock_offset (t1d t2d t3d t4d : float) : float :=
  (((t2d - t1d) + (t3d - t4d)) / 2)%float.

(** A timestamp in seconds: [getSeconds(ts) + getFraction(ts)]. *)
Definition seconds_of_tstamp64 (h : byte_order) (ts : tstamp64_t) : float :=
  (double_of_Z (getSeconds64 h ts) + double_of_Q (getFraction64 h ts))%float.

(** time(tloc).  The local [ntp_packet] is the caller's packet object of
    the world: whatever it holds on entry is the uninitialised content. *)
Definition time (h : byte_order) (fuel : nat) (tloc : ptr) : M Z :=
  let ntp_time := ERA_OFFSET0_1_JAN_1970 + 1637244065 in
  let t1 := generateTstamp64 h (ntp_time mod 2 ^ 32) 0 in
  modify (fun w => with_packet (set_xmt t1 (packet w)) w) ;;
  millis_start <- millis ;;
  ok <- on_wire_exchange h fuel PTR ;;
  if negb ok then
    lastErrorString NULL ;; ret (-1)
  else
    now <- millis ;;
    let millis_delta := (now - millis_start) mod ULONG_MOD in
    millis_start <- millis ;;
    ntp_packet <- gets packet ;;
    let t2 := rec ntp_packet in
    let t3 := xmt ntp_packet in
    let t1d := (double_of_Z (getSeconds64 h t1) + 0)%float in
    let t4d := (t1d + double_of_Z millis_delta / 1000)%float in
    let t2d := seconds_of_tstamp64 h t2 in
    let t3d := seconds_of_tstamp64 h t3 in
    let roundtrip_delay := roundtrip_delay t1d t2d t3d t4d in
    let clock_offset := clock_offset t1d t2d t3d t4d in
    Serial_print (TStr "--> T1: ") ;; Serial_println (TDouble t1d) ;;
    Serial_print (TStr "--> T2: ") ;; Serial_println (TDouble t2d) ;;
    Serial_print (TStr "--> T3: ") ;; Serial_println (TDouble t3d) ;;
    Serial_print (TStr "--> T4: ") ;; Serial_println (TDouble t4d) ;;
    Serial_print (TStr "--> Clock offset: ") ;; Serial_println (TDouble clock_offset) ;;
    Serial_print (TStr "--> Round-trip delay: ") ;;
    Serial_print (TDouble roundtrip_delay) ;; Serial_println (TStr " ms") ;;
    now <- millis ;;
    let unix_time_d :=
      (1 + clock_offset + double_of_Z ntp_time - double_of_Z ERA_OFFSET0_1_JAN_1970
       + double_of_Z ((now - millis_start) mod ULONG_MOD) / 1000)%float in
    Serial_print (TStr "--> unix_time_d: ") ;; Serial_println (TDouble unix_time_d) ;;
    let unix_time_d_intpart := snd (modf unix_time_d) in
    let sync_ms_delay :=
      double_to_uint32 (1000 - fst (modf unix_time_d) * 1000)%float in
    Serial_print (TStr "--> delta time: ") ;;
    now <- millis ;;
    Serial_print (TULong ((now - millis_start) mod ULONG_MOD)) ;;
    Serial_println (TStr " ms") ;;
    delay sync_ms_delay ;;
    let unix_time := double_to_Z unix_time_d_intpart in
    match tloc with
    | PTR => modify (with_tloc unix_time)
    | NULL => ret tt
    end ;;
    ret unix_time.

End NTPClient.

(** ** The reply validation as the specification words it: a list of checks
    in priority order, each with its failure reason; the reported failure is
    that of the first check that fails. *)
Module Spec.

(** The three fields packed into [li_vn_mode] (2 + 3 + 3 bits). *)
Definition leap_indicator (b : Z) : Z := (b / 64) mod 4.
Definition version (b : Z) : Z := (b / 8) mod 8.
Definition mode (b : Z) : Z := b mod 8.

Definition mode_server : Z := 4.
Definition version_sent : Z := 4.
Definition leap_alarm : Z := 3.

(** Each entry: the condition under which the check fails, and the reason. *)
Definition validation_checks (t1 : Z) : list ((ntp_packet -> bool) * Errno) :=
  [ (fun r => negb (mode (li_vn_mode r) =? mode_server), EOPNOTSUPP);
    (fun r => negb (version (li_vn_mode r) =? version_sent), EPROTONOSUPPORT);
    (fun r => leap_indicator (li_vn_mode r) =? leap_alarm, ENODATA);
    (fun r => 15 <? stratum r, EPFNOSUPPORT);
    (fun r => stratum r =? 0, EAGAIN);
    (fun r => negb (org r =? t1), EBADMSG) ].

Fixpoint first_failure (checks : list ((ntp_packet -> bool) * Errno)) (r : ntp_packet)
  : option Errno :=
  match checks with
  | [] => None
  | (fails, reason) :: rest => if fails r then Some reason else first_failure rest r
  end.

Definition first_failing_check (t1 : Z) (reply : ntp_packet) : option Errno :=
  first_failure (validation_checks t1) reply.

End Spec.

(** ** Situations of the environment that the statements below refer to *)

(** No datagram ever arrives: every coming poll finds nothing. *)
Definition never_arrives (w : World) : Prop :=
  Forall (fun a => a = None) (udp_arrivals (datagram w)).

(** The network is up, the local port is bound or can be bound, the server
    name resolves and the socket takes and sends a whole packet. *)
Definition ready_to_send (w : World) : Prop :=
  wifi_connected w = true
  /\ (udp_local_port (datagram w) = NTPMessageTransport.UDP_LOCAL_PORT
      \/ (udp_local_port (datagram w) = 0 /\ udp_begin_ok (datagram w) = true))
  /\ udp_resolves (datagram w) = true
  /\ (Z.to_nat sizeof_ntp_packet <= udp_tx_room (datagram w))%nat
  /\ udp_send_ok (datagram w) = true.

(** The [n] bytes of memory from address [p] on, when all are mapped. *)
Fixpoint read_bytes (mem : Z -> option Z) (p : Z) (n : nat) : option (list Z) :=
  match n with
  | O => Some []
  | S k =>
      match mem p, read_bytes mem (p + 1) k with
      | Some b, Some rest => Some (b :: rest)
      | _, _ => None
      end
  end.

(** The reads [printKissCode] makes at [code] all succeed. *)
Definition kiss_code_readable (mem : Z -> option Z) (code : Z) : bool :=
  match NTPMessageTransport.kod_search mem code NTPMessageTransport.kod_table with
  | None => false
  | Some (Some _) => true
  | Some None => match strncpy mem code 4 with
                 | Some _ => true
                 | None => false
                 end
  end.

(** A reply that passes the checks before the stratum-0 branch and has
    stratum 0: [check_reply] hands its reference id to [printKissCode]. *)
Definition reaches_kiss_code (p : ntp_packet) : bool :=
  (Z.land (li_vn_mode p) NTPClient.MODE_MASK =? NTPClient.MODE_SERVER)
  && (Z.land (li_vn_mode p) NTPClient.PROTOCOL_MASK =? NTPClient.NTP_VERSION_4)
  && negb (Z.land (li_vn_mode p) NTPClient.LEAP_MASK =? NTPClient.LEAP_ALARM_CONDITION)
  && negb (15 <? stratum p)
  && (stratum p =? 0).

(** The caller's packet holds such a reply and a read at the address its
    reference id is taken for is not mapped. *)
Definition kiss_code_read_faults (w : World) : bool :=
  reaches_kiss_code (packet w)
  && negb (kiss_code_readable (memory w) (refid (packet w))).

(** The transport delivers a reply on which the checks fault in this way. *)
Definition exchange_faults (h : byte_order) (fuel : nat) (w : World) : Prop :=
  exists wr,
    NTPMessageTransport.packetExchange h fuel PTR NTPClient.TIMEOUT
      (with_packet (NTPClient.assemble_request h (packet w)) w) = Some (true, wr)
    /\ kiss_code_read_faults wr = true.

(** ** Concrete situations used to exercise the statements *)
Module Examples.

Import NTPMessageTransport NTPClient.

(** The transmit timestamp [time] builds: 1637244065 s after the Unix epoch. *)
Definition T1 : Z := generateTstamp64 LittleEndian 3846232865 0.
Definition T2 : Z := generateTstamp64 LittleEndian 3846232865 (1 # 2).
Definition T3 : Z := generateTstamp64 LittleEndian 3846232865 (5 # 8).


(** A memory in which only the bytes [bs] from [base] on are mapped. *)
Definition memory_with (base : Z) (bs : list Z) : Z -> option Z :=
  fun a => if (base <=? a) && (a <? base + Z.of_nat (length bs))
           then nth_error bs (Z.to_nat (a - base)) else None.

(** A memory mapped everywhere and holding zeros, and one in which the data
    RAM of the ESP8266 (0x3FFE8000 to 0x3FFFFFFF) is all that is mapped. *)
Definition zero_memory : Z -> option Z := fun _ => Some 0.
Definition data_ram : Z -> option Z :=
  fun a => if (0x3FFE8000 <=? a) && (a <? 0x40000000) then Some 0 else None.

Definition socket (arrivals : list (option Datagram)) : WiFiUDP :=
  mk_udp 0 true true 1472 true (EmptyString, 0) [] [] arrivals [] 0 0.

(** What the caller's packet holds before the exchange: leftovers, and the
    transmit timestamp. *)
Definition stale_packet : ntp_packet :=
  mk_packet 0xE4 9 10 (-6) 0x1234 0x5678 0x9abc 0xdef0 1 2 T1.

Definition world (mem : Z -> option Z) (arrivals : list (option Datagram)) : World :=
  mk_world true (socket arrivals) "europe.pool.ntp.org" 5000 None [] mem
           stale_packet 777 None.

Definition datagram_of (p : ntp_packet) : Datagram :=
  {| dg_size := 48; dg_payload := packet_bytes LittleEndian p |}.

Definition server_reply (li_vn_mode stratum refid org : Z) : ntp_packet :=
  mk_packet li_vn_mode stratum 6 (-20) 0 0 refid T1 org T2 T3.

(** The state in which the transport hands the reply to the checks. *)
Definition after_transport (w : World) : World :=
  match packetExchange LittleEndian 1024 PTR TIMEOUT
          (with_packet (assemble_request LittleEndian (packet w)) w) with
  | Some (_, w1) => w1
  | None => w
  end.

(** The state in which [on_wire_exchange], called by [time], ends. *)
Definition after_exchange (w : World) : World :=
  match on_wire_exchange LittleEndian 1024 PTR
          (with_packet (set_xmt T1 (packet w)) w) with
  | Some (_, w1) => w1
  | None => w
  end.

(** The reference id of a kiss-o'-death packet with code "DENY". *)
Definition refid_DENY : Z := load LittleEndian (bytes_of_string "DENY").

(** A well-formed reply, and replies that fail one or several checks. *)
Definition good_reply : ntp_packet := server_reply 0x24 2 0x0A000001 T1.
Definition kiss_of_death : ntp_packet := server_reply 0x24 0 refid_DENY T1.
Definition wrong_origin : ntp_packet := server_reply 0x24 2 0x0A000001 (T1 + 1).

(** A reply whose receive and transmit timestamps are the last fraction
    (1 - 2^-32) of the second before the one [time] sends. *)
Definition T_last : Z :=
  generateTstamp64 LittleEndian 3846232864 (4294967295 # 4294967296).
Definition reply_at_the_last_fraction : ntp_packet :=
  mk_packet 0x24 2 6 (-20) 0 0 0x0A000001 T1 T1 T_last T_last.

(** A datagram one byte short of a packet. *)
Definition short_datagram : Datagram :=
  {| dg_size := 47; dg_payload := firstn 47 (packet_bytes LittleEndian good_reply) |}.

(** Memory holding the characters D E N Y followed by a byte that is not NUL,
    as the reference id is followed by the reference timestamp in a packet. *)
Definition DENY_then_E5 : Z -> option Z := memory_with 0x3FFE9000 [68; 69; 78; 89; 0xE5].
Definition DENY_then_NUL : Z -> option Z := memory_with 0x3FFE9000 [68; 69; 78; 89; 0].

End Examples.

(** ** Packets whose fields are within the range of their C types *)

Definition fits_packet (p : ntp_packet) : Prop :=
  0 <= li_vn_mode p < 2 ^ 8 /\ 0 <= stratum p < 2 ^ 8
  /\ - 2 ^ 7 <= ppoll p < 2 ^ 7 /\ - 2 ^ 7 <= precision p < 2 ^ 7
  /\ 0 <= rootdelay p < 2 ^ 32 /\ 0 <= rootdisp p < 2 ^ 32
  /\ 0 <= refid p < 2 ^ 32
  /\ 0 <= reftime p < 2 ^ 64 /\ 0 <= org p < 2 ^ 64
  /\ 0 <= rec p < 2 ^ 64 /\ 0 <= xmt p < 2 ^ 64.

(** ** Further notions and situations *)

(** How a function that reports success by its result treats [errno]:
    untouched on success, set on failure. *)
Definition errno_discipline (c : M bool) : Prop :=
  forall w b w', c w = Some (b, w') ->
                 if b then errno w' = errno w else exists e, errno w' = Some e.

Module Scenarios.

Import NTPMessageTransport NTPClient.

(** The state in which [receive_server_reply], given 1024 polls, ends. *)
Definition after_receive (w : World) : World :=
  match receive_server_reply LittleEndian 1024 PTR 1024 w with
  | Some (_, w') => w'
  | None => w
  end.

(** The state in which [time] ends. *)
Definition after_time (tloc : ptr) (w : World) : World :=
  match time LittleEndian 1024 tloc w with
  | Some (_, w') => w'
  | None => w
  end.

(** The state in which [printKissCode] ends. *)
Definition after_kiss_code (code : Z) (w : World) : World :=
  match printKissCode code w with
  | Some (_, w') => w'
  | None => w
  end.

(** A reply that arrives at the third poll. *)
Definition reply_at_third_poll : World :=
  Examples.world Examples.zero_memory
    [None; None; Some (Examples.datagram_of Examples.good_reply)].

End Scenarios.

(** ** Notions used to reason about monadic code *)

(** [preserves proj c]: running [c] leaves the component [proj] of the
    world as it was. *)
Definition preserves {A F : Type} (proj : World -> F) (c : M A) : Prop :=
  forall w a w', c w = Some (a, w') -> proj w' = proj w.

(** [total c]: [c] returns from every world. *)
Definition total {A : Type} (c : M A) : Prop :=
  forall w, exists a w', c w = Some (a, w').

(** [returns c Q w]: run from [w], [c] returns, with a result and a world
    that satisfy [Q]. *)
Definition returns {A : Type} (c : M A) (Q : A -> World -> Prop) (w : World) : Prop :=
  exists a w', c w = Some (a, w') /\ Q a w'.

(** ** Magnitudes of binary64 values

    What the proofs about the sleep of [time] say of a double: its value
    as the sign, mantissa and exponent of [Prim2SF], bounded by an integer. *)

(** The real number [m * 2^e] is at most the integer [K]. *)
Definition mag_le (m e K : Z) : Prop :=
  m * 2 ^ Z.max 0 e <= K * 2 ^ Z.max 0 (- e).

(** [b] is [a] shifted right by [k] bits, its flags telling whether a bit
    was lost. *)
Definition shr_rel (k : Z) (a b : shr_record) : Prop :=
  shr_m b = shr_m a / 2 ^ k
  /\ (shr_r b || shr_s b = false
      <-> (shr_r a || shr_s a = false /\ shr_m a mod 2 ^ k = 0)).

(** A value of magnitude at most [K] and of sign [s], or a zero. *)
Definition SF_le (K : Z) (s : bool) (x : spec_float) : Prop :=
  match x with
  | S754_zero _ => True
  | S754_finite s' m e => s' = s /\ mag_le (Zpos m) e K
  | _ => False
  end.

(** The second half of [binary_round_aux]: the rounded mantissa is shifted
    once more if the rounding has carried, and packed. *)
Definition pack_rounded (sx : bool) (m e : Z) : spec_float :=
  let '(mrs, e') := shr_fexp prec emax m e loc_Exact in
  match shr_m mrs with
  | Z0 => S754_zero sx
  | Zpos m' => if e' <=? emax - prec then S754_finite sx m' e' else S754_infinity sx
  | Zneg _ => S754_nan
  end.

(** A NaN, a zero, or a finite value of magnitude at most [K]. *)
Definition SF_within (K : Z) (x : spec_float) : Prop :=
  match x with
  | S754_nan => True
  | S754_zero _ => True
  | S754_finite _ m e => mag_le (Zpos m) e K
  | S754_infinity _ => False
  end.

(** The same, and not negative. *)
Definition SF_nonneg_within (K : Z) (x : spec_float) : Prop :=
  match x with
  | S754_nan => True
  | S754_zero _ => True
  | S754_finite s m e => s = false /\ mag_le (Zpos m) e K
  | S754_infinity _ => False
  end.

(** ** Lemmas on bytes *)

Definition is_byte (b : Z) : Prop := 0 <= b < 256.

Lemma bytes_le_length (n : nat) (x : Z) : length (bytes_le n x) = n.
Proof. revert x; induction n; intros; simpl; auto. Qed.

Lemma bytes_le_are_bytes (n : nat) (x : Z) : Forall is_byte (bytes_le n x).
Proof.
  revert x; induction n; intros; simpl; constructor; auto.
  unfold is_byte. apply Z.mod_pos_bound. lia.
Qed.

Lemma value_le_bytes_le (n : nat) (x : Z) :
  value_le (bytes_le n x) = x mod 256 ^ Z.of_nat n.
Proof.
  revert x; induction n; intros x.
  - simpl. now rewrite Z.mod_1_r.
  - cbn [bytes_le value_le]. rewrite IHn, Nat2Z.inj_succ, Z.pow_succ_r by lia.
    rewrite Z.rem_mul_r by lia. lia.
Qed.

Lemma bytes_le_value_le (bs : list Z) :
  Forall is_byte bs -> bytes_le (length bs) (value_le bs) = bs.
Proof.
  induction 1 as [|b rest Hb _ IH]; cbn [bytes_le value_le length]; trivial.
  unfold is_byte in Hb.
  replace ((b + 256 * value_le rest) mod 256) with b
    by (Z.div_mod_to_equations; lia).
  replace ((b + 256 * value_le rest) / 256) with (value_le rest)
    by (Z.div_mod_to_equations; lia).
  now rewrite IH.
Qed.

Lemma value_le_range (bs : list Z) :
  Forall is_byte bs -> 0 <= value_le bs < 256 ^ Z.of_nat (length bs).
Proof.
  induction 1 as [|b rest Hb _ IH].
  - simpl; lia.
  - cbn [value_le length]. rewrite Nat2Z.inj_succ, Z.pow_succ_r by lia.
    unfold is_byte in Hb. lia.
Qed.

Lemma Forall_is_byte_rev (bs : list Z) : Forall is_byte bs -> Forall is_byte (rev bs).
Proof. intros H. apply Forall_forall. intros x Hx. apply In_rev in Hx.
  rewrite Forall_forall in H. auto. Qed.

Lemma bswap_range (n : nat) (x : Z) : 0 <= bswap n x < 256 ^ Z.of_nat n.
Proof.
  unfold bswap.
  pose proof (value_le_range (rev (bytes_le n x))
                (Forall_is_byte_rev _ (bytes_le_are_bytes n x))) as H.
  now rewrite length_rev, bytes_le_length in H.
Qed.

Lemma bswap_involutive (n : nat) (x : Z) :
  0 <= x < 256 ^ Z.of_nat n -> bswap n (bswap n x) = x.
Proof.
  intros Hx. unfold bswap.
  assert (E : bytes_le n (value_le (rev (bytes_le n x))) = rev (bytes_le n x)).
  { rewrite <- (bytes_le_length n x) at 1. rewrite <- length_rev.
    apply bytes_le_value_le, Forall_is_byte_rev, bytes_le_are_bytes. }
  rewrite E, rev_involutive, value_le_bytes_le. apply Z.mod_small; lia.
Qed.

(** ** Lemmas on the two halves of a timestamp *)

Lemma land_shiftl_disjoint (a b n : Z) :
  0 <= n -> 0 <= a < 2 ^ n -> Z.land a (Z.shiftl b n) = 0.
Proof.
  intros Hn Ha. apply Z.bits_inj'. intros i Hi.
  rewrite Z.land_spec, Z.bits_0.
  destruct (Z.ltb_spec i n).
  - rewrite (Z.shiftl_spec_low b n i) by lia. apply andb_false_r.
  - destruct (Z.eq_dec a 0) as [->|Hnz].
    + now rewrite Z.bits_0.
    + assert (Z.log2 a < n) by (apply Z.log2_lt_pow2; lia).
      rewrite (Z.bits_above_log2 a i) by lia. reflexivity.
Qed.

Lemma lor_shiftl_add (a b n : Z) :
  0 <= n -> 0 <= a < 2 ^ n -> Z.lor a (Z.shiftl b n) = a + b * 2 ^ n.
Proof.
  intros Hn Ha.
  rewrite <- Z.lxor_lor by (apply land_shiftl_disjoint; trivial).
  rewrite <- Z.add_nocarry_lxor by (apply land_shiftl_disjoint; trivial).
  now rewrite Z.shiftl_mul_pow2.
Qed.

Lemma low_half (a b n : Z) :
  0 <= n -> 0 <= a < 2 ^ n -> 0 <= b ->
  Z.land (Z.shiftr (Z.lor a (Z.shiftl b n)) 0) (Z.ones n) = a.
Proof.
  intros Hn Ha Hb. rewrite Z.shiftr_0_r, Z.land_ones, lor_shiftl_add by trivial.
  rewrite Z.mod_add by lia. apply Z.mod_small; lia.
Qed.

Lemma high_half (a b n : Z) :
  0 <= n -> 0 <= a < 2 ^ n -> 0 <= b < 2 ^ n ->
  Z.land (Z.shiftr (Z.lor a (Z.shiftl b n)) n) (Z.ones n) = b.
Proof.
  intros Hn Ha Hb. rewrite Z.land_ones, lor_shiftl_add, Z.shiftr_div_pow2 by trivial.
  rewrite Z.div_add, Z.div_small by lia. apply Z.mod_small; lia.
Qed.

(** ** Lemmas on the conversion of a fraction to its fixed-point field *)

Lemma Qtrunc_nonneg (q : Q) : (0 <= q)%Q -> Qtrunc q = Qfloor q.
Proof.
  destruct q as [n d]. unfold Qle, Qtrunc, Qfloor. simpl. intros H.
  apply Z.quot_div_nonneg; lia.
Qed.

Lemma quantize_bounds (f : Q) (k : Z) :
  0 < k -> (0 <= f)%Q -> (f < 1)%Q ->
  let raw := Qtrunc (f * inject_Z k) in
  0 <= raw < k /\
  (0 <= f - inject_Z raw / inject_Z k)%Q /\
  (f - inject_Z raw / inject_Z k < 1 / inject_Z k)%Q.
Proof.
  intros Hk H0 H1 raw.
  assert (HkQ : (0 < inject_Z k)%Q) by (rewrite <- (Zlt_Qlt 0); trivial).
  assert (Hnn : (0 <= f * inject_Z k)%Q)
    by (apply Qmult_le_0_compat; trivial; now apply Qlt_le_weak).
  assert (Hraw : raw = Qfloor (f * inject_Z k)) by (apply Qtrunc_nonneg; trivial).
  pose proof (Qfloor_le (f * inject_Z k)) as Hlo.
  pose proof (Qlt_floor (f * inject_Z k)) as Hhi.
  rewrite <- Hraw in Hlo, Hhi. rewrite inject_Z_plus in Hhi.
  assert (Hfk : (f * inject_Z k < inject_Z k)%Q).
  { rewrite <- (Qmult_1_l (inject_Z k)) at 2. apply Qmult_lt_compat_r; trivial. }
  split; [|split].
  - split.
    + rewrite Hraw. change 0 with (Qfloor 0). now apply Qfloor_resp_le.
    + rewrite Zlt_Qlt. eapply Qle_lt_trans; eauto.
  - assert (Hx : (inject_Z raw / inject_Z k <= f)%Q)
      by (apply Qle_shift_div_r; trivial).
    lra.
  - assert (Hx : (f < (inject_Z raw + 1) / inject_Z k)%Q)
      by (apply Qlt_shift_div_l; trivial).
    assert (E : ((inject_Z raw + 1) / inject_Z k
                 == inject_Z raw / inject_Z k + 1 / inject_Z k)%Q).
    { field. intro E; rewrite E in HkQ; discriminate HkQ. }
    rewrite E in Hx. lra.
Qed.

Section Codec.

Import NTPMessageTransport.

(** The fixed-point field that [generateTstamp] derives from a fraction. *)
Lemma raw16_is_truncation (f : Q) :
  (0 <= f)%Q -> (f < 1)%Q ->
  double_to_uint 16 (f * FRIC) = Qtrunc (f * FRIC)
  /\ 0 <= Qtrunc (f * FRIC) < 2 ^ 16.
Proof.
  intros H0 H1. destruct (quantize_bounds f 65536 eq_refl H0 H1) as [Hr _].
  unfold double_to_uint, FRIC. split; [apply Z.mod_small|]; exact Hr.
Qed.

Lemma raw32_is_truncation (f : Q) :
  (0 <= f)%Q -> (f < 1)%Q ->
  double_to_uint 32 (f * FRAC) = Qtrunc (f * FRAC)
  /\ 0 <= Qtrunc (f * FRAC) < 2 ^ 32.
Proof.
  intros H0 H1. destruct (quantize_bounds f 4294967296 eq_refl H0 H1) as [Hr _].
  unfold double_to_uint, FRAC. split; [apply Z.mod_small|]; exact Hr.
Qed.

Lemma getSeconds32_generateTstamp32 (s : Z) (f : Q) :
  0 <= s < 2 ^ 16 ->
  getSeconds32 LittleEndian (generateTstamp32 LittleEndian s f) = s.
Proof.
  intros Hs. unfold getSeconds32, generateTstamp32, ntohs, htons.
  change 0xffff with (Z.ones 16).
  rewrite low_half.
  - apply bswap_involutive. exact Hs.
  - lia.
  - apply (bswap_range 2).
  - apply (bswap_range 2).
Qed.

Lemma getSeconds64_generateTstamp64 (s : Z) (f : Q) :
  0 <= s < 2 ^ 32 ->
  getSeconds64 LittleEndian (generateTstamp64 LittleEndian s f) = s.
Proof.
  intros Hs. unfold getSeconds64, generateTstamp64, ntohl, htonl.
  change 0xffffffff with (Z.ones 32).
  rewrite low_half.
  - apply bswap_involutive. exact Hs.
  - lia.
  - apply (bswap_range 4).
  - apply (bswap_range 4).
Qed.

Lemma getFraction32_generateTstamp32 (s : Z) (f : Q) :
  (0 <= f)%Q -> (f < 1)%Q ->
  getFraction32 LittleEndian (generateTstamp32 LittleEndian s f)
  = (inject_Z (Qtrunc (f * FRIC)) / FRIC)%Q.
Proof.
  intros H0 H1. destruct (raw16_is_truncation f H0 H1) as [E Hr].
  unfold getFraction32, generateTstamp32, ntohs, htons. rewrite E.
  change 0xffff with (Z.ones 16).
  rewrite high_half.
  - rewrite bswap_involutive by exact Hr. reflexivity.
  - lia.
  - apply (bswap_range 2).
  - apply (bswap_range 2).
Qed.

Lemma getFraction64_generateTstamp64 (s : Z) (f : Q) :
  (0 <= f)%Q -> (f < 1)%Q ->
  getFraction64 LittleEndian (generateTstamp64 LittleEndian s f)
  = (inject_Z (Qtrunc (f * FRAC)) / FRAC)%Q.
Proof.
  intros H0 H1. destruct (raw32_is_truncation f H0 H1) as [E Hr].
  unfold getFraction64, generateTstamp64, ntohl, htonl. rewrite E.
  change 0xffffffff with (Z.ones 32).
  rewrite high_half.
  - rewrite bswap_involutive by exact Hr. reflexivity.
  - lia.
  - apply (bswap_range 4).
  - apply (bswap_range 4).
Qed.

End Codec.

(** ** Reasoning about monadic code *)

Lemma bind_Some {A B : Type} (c : M A) (k : A -> M B) (w : World) (b : B) (w' : World) :
  bind c k w = Some (b, w') ->
  exists a w1, c w = Some (a, w1) /\ k a w1 = Some (b, w').
Proof.
  unfold bind. destruct (c w) as [[a w1]|]; [|discriminate].
  intros H. now exists a, w1.
Qed.

Lemma bind_run {A B : Type} (c : M A) (k : A -> M B) (w : World) (a : A) (w1 : World) :
  c w = Some (a, w1) -> bind c k w = k a w1.
Proof. unfold bind. now intros ->. Qed.

Section Frames.

Context {F : Type} (proj : World -> F).

Lemma preserves_ret {A : Type} (a : A) : preserves proj (ret a).
Proof. intros w a' w' H. inversion H. reflexivity. Qed.

Lemma preserves_gets {A : Type} (f : World -> A) : preserves proj (gets f).
Proof. intros w a' w' H. inversion H. reflexivity. Qed.

Lemma preserves_reading {A : Type} (r : option A) : preserves proj (reading r).
Proof. intros w a' w' H. unfold reading in H. destruct r; inversion H. reflexivity. Qed.

Lemma preserves_modify (f : World -> World) :
  (forall w, proj (f w) = proj w) -> preserves proj (modify f).
Proof. intros Hf w a' w' H. inversion H. apply Hf. Qed.

Lemma preserves_bind {A B : Type} (c : M A) (k : A -> M B) :
  preserves proj c -> (forall a, preserves proj (k a)) -> preserves proj (bind c k).
Proof.
  intros Hc Hk w b w' H. apply bind_Some in H as (a & w1 & H1 & H2).
  rewrite (Hk a _ _ _ H2). exact (Hc _ _ _ H1).
Qed.

Lemma preserves_if {A : Type} (b : bool) (c1 c2 : M A) :
  preserves proj c1 -> preserves proj c2 -> preserves proj (if b then c1 else c2).
Proof. now destruct b. Qed.

End Frames.

(** One step of a frame proof: split the monadic structure, close the
    leaves with the lemmas of the [frame] database. *)
Create HintDb frame discriminated.

(** A primitive of the environment: unfold it and look at each outcome. *)
Ltac frame_primitive :=
  let H := fresh "H" in
  intros ? ? ? H; cbv beta zeta delta [udp_begin udp_beginPacket udp_write udp_endPacket
    udp_parsePacket udp_read udp_flush udp_localPort millis delay set_errno Serial_print
    Serial_println gets modify] in H;
  repeat match type of H with
         | context [if ?c then _ else _] => destruct c
         | context [match ?x with _ => _ end] => destruct x
         end;
  inversion H; subst; reflexivity.

Ltac frame_step :=
  first
    [ apply preserves_ret
    | apply preserves_gets
    | apply preserves_reading
    | apply preserves_bind; [|intros ?]
    | apply preserves_if
    | (apply preserves_modify; intros ?; reflexivity)
    | solve [auto with frame]
    | solve [frame_primitive]
    | match goal with
      | |- preserves _ (match ?x with Some _ => _ | None => _ end) => destruct x as [[? ?]|]
      end ].

Ltac frame := repeat frame_step.

Section TransportFrames.

Import NTPMessageTransport NTPClient.

Lemma printKissCode_tloc (code : Z) : preserves tloc_obj (printKissCode code).
Proof.
  unfold printKissCode. frame.
Qed.

Lemma printKissCode_packet (code : Z) : preserves packet (printKissCode code).
Proof.
  unfold printKissCode. frame.
Qed.

Lemma printKissCode_errno (code : Z) : preserves errno (printKissCode code).
Proof.
  unfold printKissCode. frame.
Qed.

Lemma printKissCode_datagram (code : Z) : preserves datagram (printKissCode code).
Proof.
  unfold printKissCode. frame.
Qed.

Lemma net_provider_tloc : preserves tloc_obj net_provider.
Proof. unfold net_provider. frame. Qed.

Lemma net_provider_packet : preserves packet net_provider.
Proof. unfold net_provider. frame. Qed.

Lemma net_provider_sent : preserves (fun w => udp_sent (datagram w)) net_provider.
Proof. unfold net_provider. frame. Qed.

Lemma net_provider_server_name : preserves server_name_str net_provider.
Proof. unfold net_provider. frame. Qed.

Lemma send_server_request_tloc (h : byte_order) (p : ptr) :
  preserves tloc_obj (send_server_request h p).
Proof. unfold send_server_request. destruct p; frame. Qed.

Lemma send_server_request_packet (h : byte_order) (p : ptr) :
  preserves packet (send_server_request h p).
Proof. unfold send_server_request. destruct p; frame. Qed.

Lemma poll_loop_tloc (fuel : nat) (timeout ms_cycles : Z) :
  preserves tloc_obj (poll_loop fuel timeout ms_cycles).
Proof.
  revert ms_cycles. induction fuel as [|fuel IH]; intros ms_cycles; simpl.
  - intros w a w' H. discriminate H.
  - frame; try apply IH.
Qed.

Lemma poll_loop_packet (fuel : nat) (timeout ms_cycles : Z) :
  preserves packet (poll_loop fuel timeout ms_cycles).
Proof.
  revert ms_cycles. induction fuel as [|fuel IH]; intros ms_cycles; simpl.
  - intros w a w' H. discriminate H.
  - frame; try apply IH.
Qed.

Lemma poll_loop_sent (fuel : nat) (timeout ms_cycles : Z) :
  preserves (fun w => udp_sent (datagram w)) (poll_loop fuel timeout ms_cycles).
Proof.
  revert ms_cycles. induction fuel as [|fuel IH]; intros ms_cycles; simpl.
  - intros w a w' H. discriminate H.
  - frame; try apply IH.
Qed.

Lemma poll_loop_errno (fuel : nat) (timeout ms_cycles : Z) :
  preserves errno (poll_loop fuel timeout ms_cycles).
Proof.
  revert ms_cycles. induction fuel as [|fuel IH]; intros ms_cycles; simpl.
  - intros w a w' H. discriminate H.
  - frame; try apply IH.
Qed.

Lemma poll_loop_reads (fuel : nat) (timeout ms_cycles : Z) :
  preserves (fun w => udp_reads (datagram w)) (poll_loop fuel timeout ms_cycles).
Proof.
  revert ms_cycles. induction fuel as [|fuel IH]; intros ms_cycles; simpl.
  - intros w a w' H. discriminate H.
  - frame; try apply IH.
Qed.

#[local] Hint Resolve printKissCode_tloc printKissCode_packet printKissCode_errno
  printKissCode_datagram net_provider_tloc net_provider_packet net_provider_sent
  send_server_request_tloc send_server_request_packet poll_loop_tloc
  poll_loop_packet poll_loop_sent poll_loop_errno poll_loop_reads : frame.

Lemma receive_server_reply_tloc (h : byte_order) (fuel : nat) (p : ptr) (timeout : Z) :
  preserves tloc_obj (receive_server_reply h fuel p timeout).
Proof. unfold receive_server_reply. destruct p; frame. Qed.

Lemma receive_server_reply_sent (h : byte_order) (fuel : nat) (p : ptr) (timeout : Z) :
  preserves (fun w => udp_sent (datagram w)) (receive_server_reply h fuel p timeout).
Proof. unfold receive_server_reply. destruct p; frame. Qed.

#[local] Hint Resolve receive_server_reply_tloc receive_server_reply_sent : frame.

Lemma packetExchange_tloc (h : byte_order) (fuel : nat) (p : ptr) (timeout : Z) :
  preserves tloc_obj (packetExchange h fuel p timeout).
Proof. unfold packetExchange. destruct p; frame. Qed.

Lemma check_reply_tloc (xmt_bak : Z) : preserves tloc_obj (check_reply xmt_bak).
Proof. unfold check_reply. frame. Qed.

Lemma check_reply_packet (xmt_bak : Z) : preserves packet (check_reply xmt_bak).
Proof. unfold check_reply. frame. Qed.

Lemma check_reply_datagram (xmt_bak : Z) : preserves datagram (check_reply xmt_bak).
Proof. unfold check_reply. frame. Qed.

#[local] Hint Resolve packetExchange_tloc check_reply_tloc : frame.


End TransportFrames.

(** ** The bit fields of [li_vn_mode] *)

Lemma land_shifted_ones (b k n : Z) :
  0 <= k -> 0 <= n ->
  Z.land b (Z.shiftl (Z.ones n) k) = (b / 2 ^ k) mod 2 ^ n * 2 ^ k.
Proof.
  intros Hk Hn.
  rewrite <- Z.shiftr_div_pow2, <- Z.land_ones, <- Z.shiftl_mul_pow2 by trivial.
  apply Z.bits_inj'. intros i Hi.
  rewrite Z.land_spec.
  destruct (Z.ltb_spec i k).
  - rewrite !Z.shiftl_spec_low by trivial. apply andb_false_r.
  - rewrite !Z.shiftl_spec, Z.land_spec, Z.shiftr_spec by lia.
    now replace (i - k + k) with i by lia.
Qed.

Lemma mode_field (b : Z) :
  Z.land b NTPClient.MODE_MASK = Spec.mode b.
Proof. exact (Z.land_ones b 3 ltac:(lia)). Qed.

Lemma version_field (b : Z) :
  (Z.land b NTPClient.PROTOCOL_MASK =? NTPClient.NTP_VERSION_4)
  = (Spec.version b =? Spec.version_sent).
Proof.
  change NTPClient.PROTOCOL_MASK with (Z.shiftl (Z.ones 3) 3).
  rewrite land_shifted_ones by lia. unfold Spec.version, Spec.version_sent.
  change NTPClient.NTP_VERSION_4 with 32. change (2 ^ 3) with 8.
  destruct (Z.eqb_spec ((b / 8) mod 8) 4) as [E|E].
  - rewrite E. reflexivity.
  - apply Z.eqb_neq. lia.
Qed.

Lemma leap_field (b : Z) :
  (Z.land b NTPClient.LEAP_MASK =? NTPClient.LEAP_ALARM_CONDITION)
  = (Spec.leap_indicator b =? Spec.leap_alarm).
Proof.
  change NTPClient.LEAP_MASK with (Z.shiftl (Z.ones 2) 6).
  rewrite land_shifted_ones by lia. unfold Spec.leap_indicator, Spec.leap_alarm.
  change NTPClient.LEAP_ALARM_CONDITION with 192.
  change (2 ^ 6) with 64. change (2 ^ 2) with 4.
  destruct (Z.eqb_spec ((b / 64) mod 4) 3) as [E|E].
  - rewrite E. reflexivity.
  - apply Z.eqb_neq. lia.
Qed.

(** ** The kiss-code printer returns exactly when its reads succeed, and
    only writes to the serial port *)

Lemma printKissCode_returns (code : Z) (w : World) :
  if kiss_code_readable (memory w) code
  then exists b w', NTPMessageTransport.printKissCode code w = Some (b, w')
                    /\ errno w' = errno w /\ packet w' = packet w
                    /\ datagram w' = datagram w /\ tloc_obj w' = tloc_obj w
  else NTPMessageTransport.printKissCode code w = None.
Proof.
  unfold NTPMessageTransport.printKissCode, kiss_code_readable, bind, gets, reading.
  change (firstn NTPMessageTransport.TABLE_SIZE NTPMessageTransport.kod_table)
    with NTPMessageTransport.kod_table.
  destruct (NTPMessageTransport.kod_search _ _ _) as [[[c m]|]|]; [| |reflexivity].
  - eexists; eexists; (split; [reflexivity|]); repeat split.
  - cbn [Serial_println modify with_serial memory].
    destruct (strncpy (memory w) code 4); [|reflexivity].
    eexists; eexists; (split; [reflexivity|]); repeat split.
Qed.

Lemma reaches_kiss_code_first_failure (xmt_bak : Z) (p : ntp_packet) :
  reaches_kiss_code p = true <-> Spec.first_failing_check xmt_bak p = Some EAGAIN.
Proof.
  unfold reaches_kiss_code, Spec.first_failing_check, Spec.validation_checks.
  cbn [Spec.first_failure].
  rewrite mode_field, version_field, leap_field.
  destruct (Spec.mode _ =? _); cbn [negb andb]; [|split; discriminate].
  destruct (Spec.version _ =? _); cbn [negb andb]; [|split; discriminate].
  destruct (Spec.leap_indicator _ =? _); cbn [negb andb]; [split; discriminate|].
  destruct (15 <? stratum p); cbn [negb andb]; [split; discriminate|].
  destruct (stratum p =? 0); [split; reflexivity|].
  destruct (org p =? xmt_bak); cbn [negb]; split; discriminate.
Qed.

Lemma valid_reply_does_not_fault (xmt_bak : Z) (w : World) :
  Spec.first_failing_check xmt_bak (packet w) <> Some EAGAIN ->
  kiss_code_read_faults w = false.
Proof.
  intros H. unfold kiss_code_read_faults.
  destruct (reaches_kiss_code (packet w)) eqn:E; [|reflexivity].
  apply (reaches_kiss_code_first_failure xmt_bak) in E. contradiction.
Qed.

(** ** The reply checks are the first failing check of the priority list *)

Lemma check_reply_faults (xmt_bak : Z) (w : World) :
  kiss_code_read_faults w = true -> NTPClient.check_reply xmt_bak w = None.
Proof.
  unfold kiss_code_read_faults, reaches_kiss_code. intros H.
  apply andb_prop in H as [H Hread].
  apply andb_prop in H as [H Hzero]. apply andb_prop in H as [H Hrange].
  apply andb_prop in H as [H Hleap]. apply andb_prop in H as [Hmode Hver].
  apply negb_true_iff in Hread, Hrange, Hleap.
  pose proof (printKissCode_returns (refid (packet w)) w) as Hk.
  rewrite Hread in Hk.
  unfold NTPClient.check_reply. unfold bind at 1. unfold gets at 1.
  rewrite Hmode, Hver, Hleap, Hrange, Hzero. cbn [negb].
  unfold bind. now rewrite Hk.
Qed.

Lemma check_reply_first_failure (xmt_bak : Z) (w : World) :
  kiss_code_read_faults w = false ->
  exists w',
    NTPClient.check_reply xmt_bak w
    = Some (match Spec.first_failing_check xmt_bak (packet w) with
            | None => true
            | Some _ => false
            end, w')
    /\ match Spec.first_failing_check xmt_bak (packet w) with
       | None => w' = w
       | Some e => errno w' = Some e
       end
    /\ packet w' = packet w /\ datagram w' = datagram w
    /\ tloc_obj w' = tloc_obj w.
Proof.
  unfold kiss_code_read_faults, reaches_kiss_code. intros Hfault.
  unfold NTPClient.check_reply, Spec.first_failing_check, Spec.validation_checks.
  cbn [Spec.first_failure].
  unfold bind at 1. unfold gets at 1.
  rewrite mode_field, version_field, leap_field, (Z.eqb_sym xmt_bak).
  rewrite mode_field, version_field, leap_field in Hfault.
  destruct (Spec.mode _ =? _); cbn [negb];
    [|eexists; split; [reflexivity|repeat split]].
  destruct (Spec.version _ =? _); cbn [negb];
    [|eexists; split; [reflexivity|repeat split]].
  destruct (Spec.leap_indicator _ =? _);
    [eexists; split; [reflexivity|repeat split]|].
  destruct (15 <? stratum (packet w));
    [eexists; split; [reflexivity|repeat split]|].
  destruct (stratum (packet w) =? 0).
  - cbn [negb andb] in Hfault. apply negb_false_iff in Hfault.
    pose proof (printKissCode_returns (refid (packet w)) w) as Hk.
    rewrite Hfault in Hk. destruct Hk as (b & w1 & Hrun & He & Hp & Hd & Ht).
    unfold bind. rewrite Hrun. unfold set_errno, modify, ret.
    eexists; split; [reflexivity|]. cbn. auto.
  - destruct (org (packet w) =? xmt_bak); cbn [negb];
      eexists; (split; [reflexivity|repeat split]).
Qed.

(** ** The polling loop *)

Section Polling.

Import NTPMessageTransport.

(** A poll that finds nothing: the schedule advances, the call is counted. *)
Lemma parsePacket_nothing (w : World) :
  never_arrives w ->
  exists w', udp_parsePacket w = Some (0, w')
    /\ never_arrives w'
    /\ udp_polls (datagram w') = udp_polls (datagram w) + 1
    /\ clock_ms w' = clock_ms w.
Proof.
  unfold never_arrives, udp_parsePacket. intros H.
  destruct (udp_arrivals (datagram w)) as [|[dg|] rest] eqn:E.
  - eexists; split; [reflexivity|]. cbn. auto.
  - inversion H as [|? ? Hd _]. discriminate Hd.
  - eexists; split; [reflexivity|]. cbn. inversion H; auto.
Qed.

Lemma poll_loop_silent (fuel : nat) (timeout : Z) :
  timeout < ULONG_MOD ->
  forall (ms_cycles : Z) (w : World),
    0 <= ms_cycles < timeout ->
    (Z.to_nat (timeout - ms_cycles) <= fuel)%nat ->
    never_arrives w ->
    exists w', poll_loop fuel timeout ms_cycles w = Some (0, w')
      /\ udp_polls (datagram w') = udp_polls (datagram w) + (timeout - ms_cycles)
      /\ clock_ms w' = clock_ms w + (timeout - ms_cycles).
Proof.
  intros Hmax. induction fuel as [|fuel IH]; intros ms w Hms Hfuel Hsilent.
  - lia.
  - destruct (parsePacket_nothing w Hsilent) as (w1 & Hp & Hs1 & Hpolls & Hclock).
    cbn [poll_loop]. rewrite (bind_run _ _ _ _ _ Hp). cbn [Z.eqb negb].
    unfold bind at 1. unfold delay at 1. unfold modify.
    replace ((ms + 1) mod ULONG_MOD) with (ms + 1) by (symmetry; apply Z.mod_small; lia).
    destruct (Z.ltb_spec (ms + 1) timeout) as [Hlt|Hge].
    + destruct (IH (ms + 1) (with_clock (clock_ms w1 + 1) w1)) as (w' & Hrun & Hp' & Hc');
        [lia | lia | exact Hs1 |].
      exists w'. split; [exact Hrun|]. cbn in Hp', Hc'. lia.
    + eexists. split; [reflexivity|]. cbn. lia.
Qed.

(** [k] polls find nothing, the next one finds the datagram [dg]. *)
Lemma poll_loop_arrival (timeout : Z) (dg : Datagram) (rest : list (option Datagram)) :
  timeout < ULONG_MOD -> dg_size dg <> 0 ->
  forall (k fuel : nat) (ms_cycles : Z) (w : World),
    0 <= ms_cycles -> ms_cycles + Z.of_nat k < timeout ->
    (k < fuel)%nat ->
    udp_arrivals (datagram w) = repeat None k ++ Some dg :: rest ->
    exists w', poll_loop fuel timeout ms_cycles w = Some (dg_size dg, w')
      /\ udp_rx (datagram w') = dg_payload dg
      /\ udp_arrivals (datagram w') = rest
      /\ udp_polls (datagram w') = udp_polls (datagram w) + Z.of_nat k + 1
      /\ clock_ms w' = clock_ms w + Z.of_nat k.
Proof.
  intros Hmax Hsize. induction k as [|k IH]; intros fuel ms w Hms Hk Hfuel Harr.
  - destruct fuel as [|fuel]; [lia|]. cbn [poll_loop].
    unfold bind at 1. unfold udp_parsePacket. rewrite Harr. cbn [repeat app].
    destruct (Z.eqb_spec (dg_size dg) 0) as [E|_]; [contradiction|]. cbn [negb].
    eexists. split; [reflexivity|]. cbn. repeat split; lia.
  - destruct fuel as [|fuel]; [lia|]. cbn [poll_loop].
    unfold bind at 1. unfold udp_parsePacket at 1. rewrite Harr. cbn [repeat app].
    cbn [Z.eqb negb]. unfold bind at 1. unfold delay at 1. unfold modify.
    replace ((ms + 1) mod ULONG_MOD) with (ms + 1) by (symmetry; apply Z.mod_small; lia).
    destruct (Z.ltb_spec (ms + 1) timeout) as [_|Hge]; [|lia].
    match goal with |- context [poll_loop fuel timeout (ms + 1) ?w1] =>
      destruct (IH fuel (ms + 1) w1) as (w' & Hrun & Hrx & Hrest & Hp' & Hc');
        [lia | lia | lia | reflexivity |]
    end.
    exists w'. split; [exact Hrun|]. cbn in Hp', Hc'. repeat split; trivial; lia.
Qed.

End Polling.

(** ** Receiving *)

Section Receiving.

Import NTPMessageTransport.

(** The budget runs out: the reply is rejected as too small. *)
Lemma receive_times_out (h : byte_order) (fuel : nat) (timeout : Z) (w : World) :
  0 < timeout < ULONG_MOD ->
  (Z.to_nat timeout <= fuel)%nat ->
  never_arrives w ->
  exists w', receive_server_reply h fuel PTR timeout w = Some (false, w')
    /\ errno w' = Some EPROTONOSUPPORT
    /\ udp_polls (datagram w') = udp_polls (datagram w) + timeout
    /\ clock_ms w' = clock_ms w + timeout
    /\ packet w' = packet w
    /\ udp_reads (datagram w') = udp_reads (datagram w).
Proof.
  intros Ht Hfuel Hsilent.
  destruct (poll_loop_silent fuel timeout (proj2 Ht) 0 w) as (w1 & Hrun & Hp & Hc);
    [lia | now rewrite Z.sub_0_r | exact Hsilent |].
  unfold receive_server_reply.
  destruct (Z.eqb_spec timeout 0) as [E|_]; [lia|].
  rewrite (bind_run _ _ _ _ _ Hrun). cbn [Z.ltb Z.compare sizeof_ntp_packet].
  eexists. split; [reflexivity|]. cbn.
  rewrite (poll_loop_packet _ _ _ _ _ _ Hrun).
  pose proof (poll_loop_reads _ _ _ _ _ _ Hrun) as Hr. cbn in Hr.
  repeat split; trivial; lia.
Qed.

(** A datagram smaller than the packet arrives within the budget: it is
    rejected before [read] is called. *)
Lemma receive_short_datagram (h : byte_order) (fuel k : nat) (timeout : Z)
    (dg : Datagram) (rest : list (option Datagram)) (w : World) :
  0 < timeout < ULONG_MOD ->
  Z.of_nat k < timeout -> (k < fuel)%nat ->
  udp_arrivals (datagram w) = repeat None k ++ Some dg :: rest ->
  dg_size dg <> 0 -> dg_size dg < sizeof_ntp_packet ->
  exists w', receive_server_reply h fuel PTR timeout w = Some (false, w')
    /\ errno w' = Some EPROTONOSUPPORT
    /\ packet w' = packet w
    /\ udp_reads (datagram w') = udp_reads (datagram w)
    /\ udp_rx (datagram w') = dg_payload dg.
Proof.
  intros Ht Hk Hfuel Harr Hnz Hsmall.
  destruct (poll_loop_arrival timeout dg rest (proj2 Ht) Hnz k fuel 0 w)
    as (w1 & Hrun & Hrx & _ & _ & _); [lia | lia | exact Hfuel | exact Harr |].
  unfold receive_server_reply.
  destruct (Z.eqb_spec timeout 0) as [E|_]; [lia|].
  rewrite (bind_run _ _ _ _ _ Hrun).
  destruct (Z.ltb_spec (dg_size dg) sizeof_ntp_packet) as [_|Hge]; [|lia].
  eexists. split; [reflexivity|]. cbn.
  rewrite (poll_loop_packet _ _ _ _ _ _ Hrun).
  pose proof (poll_loop_reads _ _ _ _ _ _ Hrun) as Hr. cbn in Hr.
  repeat split; trivial.
Qed.

End Receiving.

(** ** Sending *)

Section Sending.

Import NTPMessageTransport.

Lemma store_length (h : byte_order) (n : nat) (x : Z) : length (store h n x) = n.
Proof.
  destruct h; unfold store, bytes_be; rewrite ?length_rev; apply bytes_le_length.
Qed.

Lemma packet_bytes_length (h : byte_order) (p : ntp_packet) :
  length (packet_bytes h p) = Z.to_nat sizeof_ntp_packet.
Proof.
  unfold packet_bytes. rewrite !length_app, !store_length. reflexivity.
Qed.

Lemma firstn_whole {A : Type} (n : nat) (l : list A) :
  length (firstn n l) = length l -> firstn n l = l.
Proof.
  intros H. rewrite length_firstn in H. apply firstn_all2. lia.
Qed.

(** Whatever [send_server_request] puts on the wire is the whole memory
    image of the caller's packet, addressed to the configured server. *)
Lemma send_server_request_sent (h : byte_order) (w : World) (b : bool) (w' : World) :
  send_server_request h PTR w = Some (b, w') ->
  udp_sent (datagram w') = udp_sent (datagram w)
  \/ udp_sent (datagram w')
     = udp_sent (datagram w)
       ++ [((server_name_str w, NTP_SERVER_PORT), packet_bytes h (packet w))].
Proof.
  unfold send_server_request, bind, gets, udp_beginPacket, udp_write, udp_endPacket,
    set_errno, modify, ret.
  destruct (udp_resolves (datagram w)); cbn -[packet_bytes].
  2: { intros H; inversion H; subst; left; reflexivity. }
  rewrite Nat.sub_0_r.
  destruct (Z.eqb_spec
              (Z.of_nat (length (firstn (udp_tx_room (datagram w))
                                        (packet_bytes h (packet w)))))
              sizeof_ntp_packet) as [E|_]; cbn -[packet_bytes].
  2: { intros H; inversion H; subst; left; reflexivity. }
  destruct (udp_send_ok (datagram w)); cbn -[packet_bytes];
    intros H; inversion H; subst; cbn -[packet_bytes].
  - right. rewrite firstn_whole; [reflexivity|].
    rewrite packet_bytes_length. unfold sizeof_ntp_packet in *. lia.
  - left; reflexivity.
Qed.

(** With the network ready, the request goes out and nothing else of the
    world changes. *)
Lemma request_goes_out (h : byte_order) (w : World) :
  ready_to_send w ->
  exists wn ws,
    net_provider w = Some (true, wn)
    /\ send_server_request h PTR wn = Some (true, ws)
    /\ udp_arrivals (datagram ws) = udp_arrivals (datagram w)
    /\ udp_polls (datagram ws) = udp_polls (datagram w)
    /\ udp_reads (datagram ws) = udp_reads (datagram w)
    /\ clock_ms ws = clock_ms w
    /\ packet ws = packet w
    /\ udp_sent (datagram ws)
       = udp_sent (datagram w)
         ++ [((server_name_str w, NTP_SERVER_PORT), packet_bytes h (packet w))].
Proof.
  intros (Hwifi & Hport & Hres & Hroom & Hsend).
  assert (Hlen : Z.of_nat (length (firstn (udp_tx_room (datagram w))
                                          (packet_bytes h (packet w))))
                 = sizeof_ntp_packet).
  { rewrite length_firstn, packet_bytes_length, Nat.min_r by exact Hroom.
    reflexivity. }
  assert (Hall : firstn (udp_tx_room (datagram w)) (packet_bytes h (packet w))
                 = packet_bytes h (packet w)).
  { apply firstn_all2. rewrite packet_bytes_length. exact Hroom. }
  destruct Hport as [Hport|[Hport Hbegin]].
  - exists w. eexists. split; [|split].
    + unfold net_provider, bind, gets, udp_localPort. rewrite Hwifi.
      cbn -[packet_bytes]. unfold gets. now rewrite Hport.
    + unfold send_server_request, bind, gets, udp_beginPacket, udp_write,
        udp_endPacket, ret. rewrite Hres. cbn -[packet_bytes].
      rewrite Nat.sub_0_r, Hlen. cbn -[packet_bytes].
      rewrite Hsend. reflexivity.
    + cbn -[packet_bytes]. rewrite Hall. repeat split.
  - eexists. eexists. split; [|split].
    + unfold net_provider, bind, gets, udp_localPort, udp_begin. rewrite Hwifi.
      cbn -[packet_bytes]. unfold gets.
      repeat first [rewrite Hport | rewrite Hbegin | progress cbn -[packet_bytes]].
      reflexivity.
    + unfold send_server_request, bind, gets, udp_beginPacket, udp_write,
        udp_endPacket, ret. cbn -[packet_bytes]. rewrite Hres. cbn -[packet_bytes].
      rewrite Nat.sub_0_r, Hlen. cbn -[packet_bytes].
      rewrite Hsend. reflexivity.
    + cbn -[packet_bytes]. rewrite Hall. repeat split.
Qed.

End Sending.

(** ** The exchange as a whole *)

Section Exchange.

Import NTPMessageTransport NTPClient.

(** [on_wire_exchange] is: assemble the request, run the transport, and, if
    that succeeded, check the reply against the transmit timestamp saved
    before the packet was cleared. *)
Lemma on_wire_exchange_phases (h : byte_order) (fuel : nat) (w : World) :
  on_wire_exchange h fuel PTR w
  = match packetExchange h fuel PTR TIMEOUT
            (with_packet (assemble_request h (packet w)) w) with
    | Some (true, w1) => check_reply (xmt (packet w)) w1
    | Some (false, w1) => Some (false, w1)
    | None => None
    end.
Proof.
  unfold on_wire_exchange, bind, gets, modify.
  destruct (packetExchange _ _ _ _ _) as [[[|] w1]|]; reflexivity.
Qed.

(** With the network ready, the transport's outcome is that of the receive
    phase, run after the request has gone out. *)
Lemma packetExchange_when_ready (h : byte_order) (fuel : nat) (timeout : Z) (w : World) :
  ready_to_send w -> timeout <> 0 ->
  exists ws,
    packetExchange h fuel PTR timeout w
    = match receive_server_reply h fuel PTR timeout ws with
      | Some (b, w') => Some (b, w')
      | None => None
      end
    /\ udp_arrivals (datagram ws) = udp_arrivals (datagram w)
    /\ udp_polls (datagram ws) = udp_polls (datagram w)
    /\ udp_reads (datagram ws) = udp_reads (datagram w)
    /\ clock_ms ws = clock_ms w
    /\ packet ws = packet w.
Proof.
  intros Hready Ht.
  destruct (request_goes_out h w Hready) as (wn & ws & Hn & Hs & Ha & Hp & Hr & Hc & Hk & _).
  exists ws. split; [|auto].
  unfold packetExchange.
  destruct (Z.eqb_spec timeout 0) as [E|_]; [contradiction|].
  rewrite (bind_run _ _ _ _ _ Hn). cbn [negb].
  rewrite (bind_run _ _ _ _ _ Hs). cbn [negb].
  unfold bind. destruct (receive_server_reply _ _ _ _ _) as [[[|] w']|]; reflexivity.
Qed.

Lemma packetExchange_sent (h : byte_order) (fuel : nat) (timeout : Z)
    (w : World) (b : bool) (w' : World) :
  packetExchange h fuel PTR timeout w = Some (b, w') ->
  udp_sent (datagram w') = udp_sent (datagram w)
  \/ udp_sent (datagram w')
     = udp_sent (datagram w)
       ++ [((server_name_str w, NTP_SERVER_PORT), packet_bytes h (packet w))].
Proof.
  unfold packetExchange.
  destruct (timeout =? 0).
  { intros H. inversion H; subst. left; reflexivity. }
  intros H. apply bind_Some in H as ([|] & wn & Hn & H); cbn [negb] in H.
  2: { inversion H; subst. left. exact (net_provider_sent _ _ _ Hn). }
  pose proof (net_provider_server_name _ _ _ Hn) as Hname.
  pose proof (net_provider_sent _ _ _ Hn) as Hsent. cbn in Hsent.
  pose proof (net_provider_packet _ _ _ Hn) as Hpkt.
  apply bind_Some in H as (sent & ws & Hs & H).
  apply send_server_request_sent in Hs. rewrite Hname, Hsent, Hpkt in Hs.
  assert (Hfinal : udp_sent (datagram w') = udp_sent (datagram ws)).
  { destruct sent; cbn [negb] in H.
    - apply bind_Some in H as (r & wr & Hr & H).
      pose proof (receive_server_reply_sent _ _ _ _ _ _ _ Hr) as Hrs. cbn in Hrs.
      destruct r; inversion H; subst; exact Hrs.
    - inversion H; subst. reflexivity. }
  rewrite Hfinal. exact Hs.
Qed.

End Exchange.

(** ** With enough fuel the transport returns, and the exchange returns
    unless the read of a kiss code faults *)

Section Totality.

Import NTPMessageTransport NTPClient.

Lemma total_ret {A : Type} (a : A) : total (ret a).
Proof. intros w. now exists a, w. Qed.

Lemma total_gets {A : Type} (f : World -> A) : total (gets f).
Proof. intros w. now exists (f w), w. Qed.

Lemma total_modify (f : World -> World) : total (modify f).
Proof. intros w. now exists tt, (f w). Qed.

Lemma total_bind {A B : Type} (c : M A) (k : A -> M B) :
  total c -> (forall a, total (k a)) -> total (bind c k).
Proof.
  intros Hc Hk w. destruct (Hc w) as (a & w1 & H1).
  destruct (Hk a w1) as (b & w2 & H2).
  exists b, w2. now rewrite (bind_run _ _ _ _ _ H1).
Qed.

Lemma total_if {A : Type} (b : bool) (c1 c2 : M A) :
  total c1 -> total c2 -> total (if b then c1 else c2).
Proof. now destruct b. Qed.

Ltac total_primitive :=
  intros ?; cbv beta zeta delta [udp_begin udp_beginPacket udp_write udp_endPacket
    udp_parsePacket udp_read udp_flush udp_localPort millis delay set_errno Serial_print
    Serial_println gets modify];
  repeat match goal with
         | |- context [if ?c then _ else _] => destruct c
         | |- context [match ?x with _ => _ end] => destruct x
         end;
  eexists; eexists; reflexivity.

Ltac total_step :=
  first
    [ assumption
    | apply total_ret
    | apply total_gets
    | apply total_modify
    | apply total_bind; [|intros ?]
    | apply total_if
    | solve [total_primitive] ].

Ltac totality := repeat total_step.

Lemma net_provider_total : total net_provider.
Proof. unfold net_provider. totality. Qed.

Lemma send_server_request_total (h : byte_order) (p : ptr) :
  total (send_server_request h p).
Proof. unfold send_server_request. destruct p; totality. Qed.

Lemma poll_loop_total (fuel : nat) (timeout : Z) :
  timeout < ULONG_MOD ->
  forall ms_cycles : Z,
    0 <= ms_cycles < timeout ->
    (Z.to_nat (timeout - ms_cycles) <= fuel)%nat ->
    total (poll_loop fuel timeout ms_cycles).
Proof.
  intros Hmax. induction fuel as [|fuel IH]; intros ms Hms Hfuel; [lia|].
  cbn [poll_loop]. apply total_bind; [total_primitive|]. intros rply_size.
  apply total_if; [apply total_ret|].
  apply total_bind; [total_primitive|]. intros _.
  replace ((ms + 1) mod ULONG_MOD) with (ms + 1) by (symmetry; apply Z.mod_small; lia).
  destruct (Z.ltb_spec (ms + 1) timeout); [apply IH; lia | apply total_ret].
Qed.

Lemma receive_server_reply_total (h : byte_order) (fuel : nat) (p : ptr) (timeout : Z) :
  0 <= timeout < ULONG_MOD -> (Z.to_nat timeout <= fuel)%nat ->
  total (receive_server_reply h fuel p timeout).
Proof.
  intros Ht Hfuel. unfold receive_server_reply. destruct p; [totality|].
  destruct (Z.eqb_spec timeout 0) as [E|E]; [totality|].
  assert (Hloop : total (poll_loop fuel timeout 0))
    by (apply poll_loop_total; [lia | lia | now rewrite Z.sub_0_r]).
  totality.
Qed.

Lemma packetExchange_total (h : byte_order) (fuel : nat) (p : ptr) (timeout : Z) :
  0 <= timeout < ULONG_MOD -> (Z.to_nat timeout <= fuel)%nat ->
  total (packetExchange h fuel p timeout).
Proof.
  intros Ht Hfuel. unfold packetExchange. destruct p; [totality|].
  pose proof net_provider_total.
  pose proof (send_server_request_total h PTR).
  pose proof (receive_server_reply_total h fuel PTR timeout Ht Hfuel).
  totality.
Qed.

(** With fuel for its 1024 polls the exchange returns, unless the reply
    reaches the kiss-code branch and the read of the code faults. *)
Lemma on_wire_exchange_returns_or_faults (h : byte_order) (fuel : nat) (w : World) :
  (1024 <= fuel)%nat ->
  (exists b w', on_wire_exchange h fuel PTR w = Some (b, w'))
  \/ (on_wire_exchange h fuel PTR w = None /\ exchange_faults h fuel w).
Proof.
  intros Hfuel. rewrite on_wire_exchange_phases.
  destruct (packetExchange_total h fuel PTR TIMEOUT
              ltac:(unfold TIMEOUT, ULONG_MOD; lia) Hfuel
              (with_packet (assemble_request h (packet w)) w)) as (ok & w1 & Hx).
  rewrite Hx. destruct ok; [|left; eauto].
  destruct (kiss_code_read_faults w1) eqn:Hf.
  - right. split; [now apply check_reply_faults|]. now exists w1.
  - left. destruct (check_reply_first_failure (xmt (packet w)) w1 Hf) as (w' & Hc & _).
    eauto.
Qed.

End Totality.

(** ** Lemmas for the claims on the reply checks, the time-out and the request *)

Section ExchangeOutcomes.

Import NTPMessageTransport NTPClient.

(** What the checks do with a reply that passes the mode, version and leap
    checks and has stratum 0: the value of its reference id is handed to
    [printKissCode] as the address of the code; when that call returns,
    whatever the lookup has found, the reply is refused with EAGAIN; when
    its read faults, the checks do not return. *)
Lemma check_reply_stratum_zero (xmt_bak : Z) (w : World) :
  Z.land (li_vn_mode (packet w)) MODE_MASK = MODE_SERVER ->
  Z.land (li_vn_mode (packet w)) PROTOCOL_MASK = NTP_VERSION_4 ->
  Z.land (li_vn_mode (packet w)) LEAP_MASK <> LEAP_ALARM_CONDITION ->
  stratum (packet w) = 0 ->
  check_reply xmt_bak w
  = match printKissCode (refid (packet w)) w with
    | Some (known, wk) => Some (false, with_errno (Some EAGAIN) wk)
    | None => None
    end.
Proof.
  intros Hmode Hver Hleap Hstratum.
  unfold check_reply. unfold bind at 1. unfold gets at 1.
  rewrite Hmode, Hver, Hstratum, !Z.eqb_refl.
  apply Z.eqb_neq in Hleap. rewrite Hleap. cbn [negb Z.ltb Z.compare Z.eqb].
  unfold bind. destruct (printKissCode _ _) as [[known wk]|]; reflexivity.
Qed.

(** The engine's exchange over a silent network. *)
Lemma on_wire_exchange_times_out (h : byte_order) (fuel : nat) (w : World) :
  (Z.to_nat TIMEOUT <= fuel)%nat -> ready_to_send w -> never_arrives w ->
  exists w',
    on_wire_exchange h fuel PTR w = Some (false, w')
    /\ errno w' = Some EPROTONOSUPPORT
    /\ udp_polls (datagram w') = udp_polls (datagram w) + TIMEOUT
    /\ clock_ms w' = clock_ms w + TIMEOUT.
Proof.
  intros Hfuel Hready Hsilent.
  destruct (packetExchange_when_ready h fuel TIMEOUT
              (with_packet (assemble_request h (packet w)) w) Hready ltac:(discriminate))
    as (ws & Hx & Ha & Hp & _ & Hc & _).
  assert (Hsilent' : never_arrives ws)
    by (unfold never_arrives; rewrite Ha; exact Hsilent).
  destruct (receive_times_out h fuel TIMEOUT ws
              ltac:(unfold TIMEOUT, ULONG_MOD; lia) Hfuel Hsilent')
    as (w' & Hr & He & Hp' & Hc' & _).
  exists w'. rewrite on_wire_exchange_phases, Hx, Hr.
  cbn in Hp, Hc. repeat split; trivial; lia.
Qed.

Lemma request_image (h : byte_order) (x : Z) :
  packet_bytes h (mk_packet 0x23 0 0 0 0 0 0 0 0 0 x)
  = 0x23 :: repeat 0 39 ++ store h 8 x.
Proof. destruct h; reflexivity. Qed.

End ExchangeOutcomes.

(** ** [time] *)

Section Time.

Import NTPMessageTransport NTPClient.

Lemma returns_bind {A B : Type} (c : M A) (k : A -> M B) Q (w : World) :
  returns c (fun a w' => returns (k a) Q w') w -> returns (bind c k) Q w.
Proof.
  intros (a & w' & Hc & b & w'' & Hk & HQ). exists b, w''. split; [|exact HQ].
  now rewrite (bind_run _ _ _ _ _ Hc).
Qed.

Lemma returns_run {A : Type} (c : M A) Q (w : World) (a : A) (w' : World) :
  c w = Some (a, w') -> Q a w' -> returns c Q w.
Proof. intros Hc HQ. now exists a, w'. Qed.

Lemma returns_ret {A : Type} (a : A) Q (w : World) : Q a w -> returns (ret a) Q w.
Proof. intros HQ. now exists a, w. Qed.

Lemma returns_millis Q (w : World) :
  Q (clock_ms w mod ULONG_MOD) w -> returns millis Q w.
Proof. intros HQ. now exists (clock_ms w mod ULONG_MOD), w. Qed.

Lemma returns_gets {A : Type} (f : World -> A) Q (w : World) :
  Q (f w) w -> returns (gets f) Q w.
Proof. intros HQ. now exists (f w), w. Qed.







Lemma time_when_exchange_faults (h : byte_order) (fuel : nat) (tloc : ptr) (w : World) :
  on_wire_exchange h fuel PTR
    (with_packet
       (set_xmt (generateTstamp64 h ((ERA_OFFSET0_1_JAN_1970 + 1637244065) mod 2 ^ 32) 0)
                (packet w)) w)
  = None ->
  time h fuel tloc w = None.
Proof.
  intros Hx. unfold time. cbv zeta.
  unfold bind at 1. unfold modify at 1.
  unfold bind at 1. unfold millis at 1. unfold gets at 1.
  unfold bind at 1. now rewrite Hx.
Qed.


End Time.

(** ** The kiss-code lookup *)

Section KissCode.

Import NTPMessageTransport NTPClient.

Lemma read_bytes_succ (mem : Z -> option Z) (p : Z) (n : nat) :
  read_bytes mem p (S n)
  = match mem p, read_bytes mem (p + 1) n with
    | Some b, Some rest => Some (b :: rest)
    | _, _ => None
    end.
Proof. reflexivity. Qed.

(** [strcmp] finds the string at [p] equal to a literal exactly when memory
    holds the characters of the literal followed by the NUL. *)
Lemma strcmp_zero_iff (mem : Z -> option Z) (bs : list Z) :
  Forall (fun b => b <> 0) bs ->
  forall p : Z,
    strcmp mem p (bs ++ [0]) = Some 0
    <-> read_bytes mem p (S (length bs)) = Some (bs ++ [0]).
Proof.
  induction 1 as [|c rest Hc _ IH]; intros p.
  - cbn [app strcmp length]. rewrite read_bytes_succ. cbn [read_bytes].
    destruct (mem p) as [b|]; [|split; discriminate].
    destruct (Z.eqb_spec b 0) as [E|E]; cbn [Z.eqb].
    + rewrite E. tauto.
    + split; intros H; inversion H; [lia | contradiction].
  - cbn [app strcmp length]. rewrite read_bytes_succ.
    destruct (mem p) as [b|]; [|split; discriminate].
    destruct (Z.eqb_spec b c) as [E|E].
    + destruct (Z.eqb_spec c 0) as [E0|_]; [contradiction|].
      rewrite (IH (p + 1)), E.
      destruct (read_bytes mem (p + 1) (S (length rest))) as [tail|];
        [|split; discriminate].
      split; intros H; inversion H; reflexivity.
    + split; [intros H; inversion H; lia|].
      destruct (read_bytes mem (p + 1) (S (length rest))); [|discriminate].
      intros H. inversion H. contradiction.
Qed.

(** [strcmp] with a literal reads no further than the literal is long. *)
Lemma strcmp_reads_within (mem : Z -> option Z) (cs : list Z) :
  forall (p : Z) (bs : list Z),
    read_bytes mem p (S (length cs)) = Some bs ->
    exists d, strcmp mem p (cs ++ [0]) = Some d.
Proof.
  induction cs as [|c rest IH]; intros p bs; cbn [app strcmp length];
    rewrite read_bytes_succ.
  - destruct (mem p) as [b|]; [|discriminate]. intros _.
    destruct (b =? 0); cbn [Z.eqb]; eauto.
  - destruct (mem p) as [b|]; [|discriminate].
    destruct (read_bytes mem (p + 1) (S (length rest))) as [tail|] eqn:E; [|discriminate].
    intros _. destruct (b =? c); [|eauto]. destruct (c =? 0); [eauto|].
    exact (IH (p + 1) tail E).
Qed.

Lemma kod_search_Some (mem : Z -> option Z) (code : Z) (table : list (string * string))
    (entry : string * string) :
  kod_search mem code table = Some (Some entry) ->
  In entry table /\ strcmp mem code (c_str (fst entry)) = Some 0.
Proof.
  induction table as [|e rest IH]; cbn [kod_search]; [discriminate|].
  destruct (strcmp mem code (c_str (fst e))) as [d|] eqn:Hd; [|discriminate].
  destruct (Z.eqb_spec d 0) as [E|_].
  - intros H. inversion H; subst. split; [now left | exact Hd].
  - intros H. destruct (IH H). split; [now right | assumption].
Qed.

Lemma kod_search_None (mem : Z -> option Z) (code : Z) (table : list (string * string)) :
  kod_search mem code table = Some None ->
  forall entry, In entry table -> strcmp mem code (c_str (fst entry)) <> Some 0.
Proof.
  induction table as [|e rest IH]; cbn [kod_search]; intros H entry Hin.
  - destruct Hin.
  - destruct (strcmp mem code (c_str (fst e))) as [d|] eqn:Hd; [|discriminate].
    destruct (Z.eqb_spec d 0) as [_|E]; [discriminate|].
    destruct Hin as [<-|Hin]; [congruence | exact (IH H entry Hin)].
Qed.

(** The lookup completes when every comparison does. *)
Lemma kod_search_completes (mem : Z -> option Z) (code : Z)
    (table : list (string * string)) :
  (forall entry, In entry table -> exists d, strcmp mem code (c_str (fst entry)) = Some d) ->
  exists found, kod_search mem code table = Some found.
Proof.
  induction table as [|e rest IH]; cbn [kod_search]; intros H; [eauto|].
  destruct (H e (or_introl eq_refl)) as [d ->].
  destruct (d =? 0); [eauto|].
  apply IH. intros entry Hin. apply H. now right.
Qed.

Lemma kod_table_codes :
  length kod_table = TABLE_SIZE
  /\ Forall (fun entry => length (bytes_of_string (fst entry)) = 4%nat
                          /\ Forall (fun b => b <> 0) (bytes_of_string (fst entry)))
            kod_table.
Proof.
  split; [reflexivity|].
  repeat constructor; discriminate.
Qed.

(** What [printKissCode] recognises: the five bytes at [code] are the four
    characters of a table entry and the terminating NUL. *)
Lemma printKissCode_recognises (code : Z) (w : World) (known : bool) (w' : World) :
  printKissCode code w = Some (known, w') ->
  (known = true <->
   exists entry, In entry kod_table
                 /\ read_bytes (memory w) code 5 = Some (c_str (fst entry))).
Proof.
  destruct kod_table_codes as [_ Hcodes]. rewrite Forall_forall in Hcodes.
  assert (Hiff : forall entry, In entry kod_table ->
            (strcmp (memory w) code (c_str (fst entry)) = Some 0
             <-> read_bytes (memory w) code 5 = Some (c_str (fst entry)))).
  { intros entry Hin. destruct (Hcodes entry Hin) as [Hlen Hnz].
    unfold c_str. rewrite (strcmp_zero_iff _ _ Hnz), Hlen. reflexivity. }
  unfold printKissCode. unfold bind at 1. unfold gets at 1.
  change (firstn TABLE_SIZE kod_table) with kod_table.
  unfold bind at 1. unfold reading at 1.
  destruct (kod_search (memory w) code kod_table) as [[[c m]|]|] eqn:Hs; [| |discriminate].
  - apply kod_search_Some in Hs as [Hin Hcmp].
    unfold bind, Serial_print, Serial_println, modify, ret.
    intros H. injection H as <- _.
    split; [intros _|reflexivity].
    exists (c, m). split; [exact Hin|]. now apply Hiff.
  - unfold bind, Serial_print, Serial_println, modify, ret, reading.
    cbn [memory with_serial].
    destruct (strncpy (memory w) code 4); [|discriminate].
    intros H. injection H as <- _.
    split; [discriminate|]. intros (entry & Hin & Hread). exfalso.
    apply (kod_search_None _ _ _ Hs entry Hin). now apply Hiff.
Qed.

End KissCode.

(** * The claims *)

Section Claims.

Import NTPMessageTransport NTPClient.






(** Rounding is visible in what [time] returns: for a reply stamped 2^-32 s
    before the second sent, received at once, the offset is -2^-32 s in
    exact arithmetic; in binary64 the timestamp rounds up to the full second,
    the offset is 0, and [time] returns 1637244066 after sleeping 1000 ms. *)
Remark time_rounds_as_binary64 :
  seconds_of_tstamp64 LittleEndian Examples.T_last = 3846232865%float
  /\ option_map (fun r => (fst r, clock_ms (snd r)))
       (time LittleEndian 1024 PTR
          (Examples.world Examples.zero_memory
             [Some (Examples.datagram_of Examples.reply_at_the_last_fraction)]))
     = Some (1637244066, 5000 + 1000).
Proof. split; vm_compute; reflexivity. Qed.

(** C3: on the little-endian build, for both widths, the seconds put into a
    timestamp come back unchanged and the fraction comes back rounded down by
    less than one quantization step (2^-16, 2^-32); a fraction that is a
    multiple of the step comes back exactly. *)
Theorem timestamp_codec_round_trip (f : Q) (s16 s32 : Z) :
  (0 <= f)%Q -> (f < 1)%Q -> 0 <= s16 < 2 ^ 16 -> 0 <= s32 < 2 ^ 32 ->
  (getSeconds32 LittleEndian (generateTstamp32 LittleEndian s16 f) = s16
   /\ (0 <= f - getFraction32 LittleEndian (generateTstamp32 LittleEndian s16 f))%Q
   /\ (f - getFraction32 LittleEndian (generateTstamp32 LittleEndian s16 f)
       < 1 # 65536)%Q
   /\ (forall k : Z, (f == inject_Z k / FRIC)%Q ->
       (getFraction32 LittleEndian (generateTstamp32 LittleEndian s16 f) == f)%Q))
  /\ (getSeconds64 LittleEndian (generateTstamp64 LittleEndian s32 f) = s32
      /\ (0 <= f - getFraction64 LittleEndian (generateTstamp64 LittleEndian s32 f))%Q
      /\ (f - getFraction64 LittleEndian (generateTstamp64 LittleEndian s32 f)
          < 1 # 4294967296)%Q
      /\ (forall k : Z, (f == inject_Z k / FRAC)%Q ->
          (getFraction64 LittleEndian (generateTstamp64 LittleEndian s32 f) == f)%Q)).
Proof.
  intros H0 H1 Hs16 Hs32.
  assert (Hexact : forall K : Z, 0 < K -> forall k : Z,
             (f == inject_Z k / inject_Z K)%Q ->
             (inject_Z (Qtrunc (f * inject_Z K)) / inject_Z K == f)%Q).
  { intros K HK k Hf.
    assert (HKQ : ~ (inject_Z K == 0)%Q).
    { intros E. rewrite (Zlt_Qlt 0 K), E in HK. discriminate HK. }
    assert (Hfk : (f * inject_Z K == inject_Z k)%Q) by (rewrite Hf; field; exact HKQ).
    assert (Hnn : (0 <= f * inject_Z K)%Q).
    { apply Qmult_le_0_compat; trivial. rewrite <- (Zle_Qle 0). lia. }
    rewrite (Qtrunc_nonneg _ Hnn), (Qfloor_comp _ _ Hfk), Qfloor_Z, Hf. reflexivity. }
  split.
  - rewrite getFraction32_generateTstamp32 by trivial.
    destruct (quantize_bounds f 65536 eq_refl H0 H1) as (_ & Hlo & Hhi).
    split; [apply getSeconds32_generateTstamp32; exact Hs16|].
    split; [exact Hlo|]. split; [exact Hhi|].
    intros k Hk. exact (Hexact 65536 eq_refl k Hk).
  - rewrite getFraction64_generateTstamp64 by trivial.
    destruct (quantize_bounds f 4294967296 eq_refl H0 H1) as (_ & Hlo & Hhi).
    split; [apply getSeconds64_generateTstamp64; exact Hs32|].
    split; [exact Hlo|]. split; [exact Hhi|].
    intros k Hk. exact (Hexact 4294967296 eq_refl k Hk).
Qed.

Lemma timestamp_codec_round_trip_witness :
  getSeconds32 LittleEndian (generateTstamp32 LittleEndian 0x1234 (1 # 3)) = 0x1234
  /\ ((1 # 3) - getFraction32 LittleEndian (generateTstamp32 LittleEndian 0x1234 (1 # 3))
      < 1 # 65536)%Q
  /\ getSeconds64 LittleEndian (generateTstamp64 LittleEndian 3846232865 (1 # 3))
     = 3846232865
  /\ ((1 # 3) - getFraction64 LittleEndian (generateTstamp64 LittleEndian 3846232865 (1 # 3))
      < 1 # 4294967296)%Q.
Proof.
  destruct (timestamp_codec_round_trip (1 # 3) 0x1234 3846232865
              ltac:(discriminate) ltac:(reflexivity) ltac:(lia) ltac:(lia))
    as [(Hs16 & _ & Hf16 & _) (Hs32 & _ & Hf32 & _)].
  exact (conj Hs16 (conj Hf16 (conj Hs32 Hf32))).
Defined.

(** The [#else] branch of [getSeconds] reads the same half as
    [getFraction]: on a big-endian build the seconds would not come back.
    The library is built for the ESP8266 only, which is little-endian. *)
Remark getSeconds32_big_endian_branch :
  getSeconds32 BigEndian (generateTstamp32 BigEndian 0x1234 (1 # 3)) = 0x5555.
Proof. reflexivity. Qed.

(** C4: a kiss-o'-death reply with the code DENY (mode 4, version 4, no
    alarm, stratum 0) arrives on a host of which only the data RAM is mapped.
    The transport delivers it, it reaches the stratum-0 branch, and there the
    value of its reference id, 0x594E4544, is read as the address of the
    code: the read faults, so neither [on_wire_exchange] nor [time] returns
    and no EAGAIN (TemporarilyUnavailable) is ever reported. *)
Theorem stratum_zero_reply_is_read_at_its_refid :
  refid Examples.kiss_of_death = 0x594E4544
  /\ Examples.data_ram 0x594E4544 = None
  /\ option_map fst
       (packetExchange LittleEndian 1024 PTR TIMEOUT
          (with_packet
             (assemble_request LittleEndian
                (packet (Examples.world Examples.data_ram
                           [Some (Examples.datagram_of Examples.kiss_of_death)])))
             (Examples.world Examples.data_ram
                [Some (Examples.datagram_of Examples.kiss_of_death)])))
     = Some true
  /\ reaches_kiss_code
       (packet (Examples.after_transport
                  (Examples.world Examples.data_ram
                     [Some (Examples.datagram_of Examples.kiss_of_death)])))
     = true
  /\ printKissCode 0x594E4544
       (Examples.after_transport
          (Examples.world Examples.data_ram
             [Some (Examples.datagram_of Examples.kiss_of_death)]))
     = None
  /\ on_wire_exchange LittleEndian 1024 PTR
       (Examples.world Examples.data_ram
          [Some (Examples.datagram_of Examples.kiss_of_death)])
     = None
  /\ time LittleEndian 1024 PTR
       (Examples.world Examples.data_ram
          [Some (Examples.datagram_of Examples.kiss_of_death)])
     = None.
Proof. repeat split; vm_compute; reflexivity. Qed.

(** In general: on a reply with stratum 0 that passes the mode, version and
    leap-alarm checks, the exchange fails with EAGAIN when the read at the
    address its reference id is taken for completes, whatever the lookup
    finds there, and does not return when that read faults. *)
Lemma stratum_zero_outcome (h : byte_order) (fuel : nat) (w w1 : World) :
  packetExchange h fuel PTR TIMEOUT (with_packet (assemble_request h (packet w)) w)
  = Some (true, w1) ->
  Z.land (li_vn_mode (packet w1)) MODE_MASK = MODE_SERVER ->
  Z.land (li_vn_mode (packet w1)) PROTOCOL_MASK = NTP_VERSION_4 ->
  Z.land (li_vn_mode (packet w1)) LEAP_MASK <> LEAP_ALARM_CONDITION ->
  stratum (packet w1) = 0 ->
  on_wire_exchange h fuel PTR w
  = match printKissCode (refid (packet w1)) w1 with
    | Some (known, wk) => Some (false, with_errno (Some EAGAIN) wk)
    | None => None
    end.
Proof.
  intros Hx Hmode Hver Hleap Hstratum.
  rewrite on_wire_exchange_phases, Hx.
  exact (check_reply_stratum_zero (xmt (packet w)) w1 Hmode Hver Hleap Hstratum).
Qed.

(** C5: a reply that passes every other check but whose originate timestamp
    differs from the transmit timestamp the caller put into the request is
    refused with EBADMSG (BadMessage). *)
Theorem origin_mismatch_fails_BadMessage
    (h : byte_order) (fuel : nat) (w w1 : World) :
  packetExchange h fuel PTR TIMEOUT (with_packet (assemble_request h (packet w)) w)
  = Some (true, w1) ->
  Z.land (li_vn_mode (packet w1)) MODE_MASK = MODE_SERVER ->
  Z.land (li_vn_mode (packet w1)) PROTOCOL_MASK = NTP_VERSION_4 ->
  Z.land (li_vn_mode (packet w1)) LEAP_MASK <> LEAP_ALARM_CONDITION ->
  1 <= stratum (packet w1) <= 15 ->
  org (packet w1) <> xmt (packet w) ->
  on_wire_exchange h fuel PTR w = Some (false, with_errno (Some EBADMSG) w1)
  /\ errno (with_errno (Some EBADMSG) w1) = Some EBADMSG.
Proof.
  intros Hx Hmode Hver Hleap Hstratum Horg.
  split; [|reflexivity].
  rewrite on_wire_exchange_phases, Hx.
  unfold check_reply. unfold bind at 1. unfold gets at 1.
  rewrite Hmode, Hver, !Z.eqb_refl.
  apply Z.eqb_neq in Hleap. rewrite Hleap. cbn [negb].
  destruct (Z.ltb_spec 15 (stratum (packet w1))) as [Hgt|_]; [lia|].
  destruct (Z.eqb_spec (stratum (packet w1)) 0) as [E|_]; [lia|].
  destruct (Z.eqb_spec (xmt (packet w)) (org (packet w1))) as [E|_];
    [congruence|reflexivity].
Qed.

(** The client sends T1 = X; the reply carries org = X + 1. *)
Lemma origin_mismatch_fails_BadMessage_witness :
  xmt (packet (Examples.world Examples.zero_memory
                 [Some (Examples.datagram_of Examples.wrong_origin)])) = Examples.T1
  /\ org (packet (Examples.after_transport
                    (Examples.world Examples.zero_memory
                       [Some (Examples.datagram_of Examples.wrong_origin)])))
     = Examples.T1 + 1
  /\ on_wire_exchange LittleEndian 1024 PTR
       (Examples.world Examples.zero_memory
          [Some (Examples.datagram_of Examples.wrong_origin)])
     = Some (false,
             with_errno (Some EBADMSG)
               (Examples.after_transport
                  (Examples.world Examples.zero_memory
                     [Some (Examples.datagram_of Examples.wrong_origin)]))).
Proof.
  split; [reflexivity|]. split; [vm_compute; reflexivity|].
  exact (proj1 (origin_mismatch_fails_BadMessage LittleEndian 1024
           (Examples.world Examples.zero_memory
              [Some (Examples.datagram_of Examples.wrong_origin)])
           (Examples.after_transport
              (Examples.world Examples.zero_memory
                 [Some (Examples.datagram_of Examples.wrong_origin)]))
           ltac:(vm_compute; reflexivity) ltac:(vm_compute; reflexivity)
           ltac:(vm_compute; reflexivity) ltac:(vm_compute; discriminate)
           ltac:(vm_compute; split; discriminate)
           ltac:(vm_compute; discriminate))).
Defined.

(** C6: if no datagram ever arrives, [receive_server_reply] polls exactly
    [timeout] times, one millisecond apart, and then fails with
    EPROTONOSUPPORT (ProtocolMismatch); given enough fuel the model always
    reaches that result, so the loop ends.  With the engine's budget the
    exchange polls 1024 times.  A too-small datagram is refused with the same
    reason. *)
Theorem silent_network_times_out (h : byte_order) :
  (forall (fuel : nat) (timeout : Z) (w : World),
      0 < timeout < ULONG_MOD -> (Z.to_nat timeout <= fuel)%nat -> never_arrives w ->
      exists w',
        receive_server_reply h fuel PTR timeout w = Some (false, w')
        /\ errno w' = Some EPROTONOSUPPORT
        /\ udp_polls (datagram w') = udp_polls (datagram w) + timeout
        /\ clock_ms w' = clock_ms w + timeout)
  /\ (forall (fuel : nat) (w : World),
         (1024 <= fuel)%nat -> ready_to_send w -> never_arrives w ->
         exists w',
           on_wire_exchange h fuel PTR w = Some (false, w')
           /\ errno w' = Some EPROTONOSUPPORT
           /\ udp_polls (datagram w') = udp_polls (datagram w) + 1024
           /\ clock_ms w' = clock_ms w + 1024)
  /\ (forall (fuel k : nat) (timeout : Z) (dg : Datagram)
             (rest : list (option Datagram)) (w : World),
         0 < timeout < ULONG_MOD -> Z.of_nat k < timeout -> (k < fuel)%nat ->
         udp_arrivals (datagram w) = repeat None k ++ Some dg :: rest ->
         dg_size dg <> 0 -> dg_size dg < sizeof_ntp_packet ->
         exists w',
           receive_server_reply h fuel PTR timeout w = Some (false, w')
           /\ errno w' = Some EPROTONOSUPPORT).
Proof.
  split; [|split].
  - intros fuel timeout w Ht Hfuel Hsilent.
    destruct (receive_times_out h fuel timeout w Ht Hfuel Hsilent)
      as (w' & Hr & He & Hp & Hc & _).
    exists w'. auto.
  - intros fuel w Hfuel Hready Hsilent.
    apply on_wire_exchange_times_out; [exact Hfuel | exact Hready | exact Hsilent].
  - intros fuel k timeout dg rest w Ht Hk Hfuel Harr Hnz Hsmall.
    destruct (receive_short_datagram h fuel k timeout dg rest w Ht Hk Hfuel Harr Hnz Hsmall)
      as (w' & Hr & He & _).
    exists w'. auto.
Qed.

Lemma silent_network_times_out_witness :
  exists w',
    on_wire_exchange LittleEndian 1024 PTR (Examples.world Examples.zero_memory [])
    = Some (false, w')
    /\ errno w' = Some EPROTONOSUPPORT
    /\ udp_polls (datagram w') = 1024
    /\ clock_ms w' = 5000 + 1024.
Proof.
  exact (proj1 (proj2 (silent_network_times_out LittleEndian)) 1024%nat
           (Examples.world Examples.zero_memory [])
           ltac:(lia)
           ltac:(vm_compute; repeat split; auto; lia)
           ltac:(constructor)).
Defined.

(** C7: the request [on_wire_exchange] assembles has every field zero except
    [li_vn_mode], which is 0x23 (leap 0, version 4, mode 3), and [xmt], which
    is the caller's; and any datagram the exchange puts on the wire is the
    memory image of that request: 0x23, thirty-nine zero bytes, and the eight
    bytes of the caller's transmit timestamp. *)
Theorem request_is_zero_except_mode_and_xmt (h : byte_order) :
  (forall p : ntp_packet,
      assemble_request h p = mk_packet 0x23 0 0 0 0 0 0 0 0 0 (xmt p))
  /\ (Spec.leap_indicator 0x23 = 0 /\ Spec.version 0x23 = 4 /\ Spec.mode 0x23 = 3)
  /\ (forall (fuel : nat) (w : World) (b : bool) (w' : World),
         on_wire_exchange h fuel PTR w = Some (b, w') ->
         udp_sent (datagram w') = udp_sent (datagram w)
         \/ udp_sent (datagram w')
            = udp_sent (datagram w)
              ++ [((server_name_str w, NTP_SERVER_PORT),
                   0x23 :: repeat 0 39 ++ store h 8 (xmt (packet w)))]).
Proof.
  assert (Hreq : forall p, assemble_request h p
                           = mk_packet 0x23 0 0 0 0 0 0 0 0 0 (xmt p))
    by (intros p; destruct h; reflexivity).
  split; [exact Hreq|]. split; [repeat split|].
  intros fuel w b w' Hrun. rewrite on_wire_exchange_phases in Hrun.
  destruct (packetExchange _ _ _ _ _) as [[ok w1]|] eqn:Hx; [|discriminate].
  apply packetExchange_sent in Hx. cbn [packet with_packet] in Hx.
  rewrite Hreq, request_image in Hx.
  assert (Hd : datagram w' = datagram w1).
  { destruct ok.
    - exact (check_reply_datagram _ _ _ _ Hrun).
    - inversion Hrun; subst. reflexivity. }
  rewrite Hd. exact Hx.
Qed.

(** A reply arrives at the first poll: one datagram has gone out, the image
    of the cleared request, although the caller's packet held leftovers. *)
Lemma request_is_zero_except_mode_and_xmt_witness :
  (udp_sent (datagram (Examples.after_transport
                         (Examples.world Examples.zero_memory
                            [Some (Examples.datagram_of Examples.good_reply)])))
   = []
   \/ udp_sent (datagram (Examples.after_transport
                            (Examples.world Examples.zero_memory
                               [Some (Examples.datagram_of Examples.good_reply)])))
      = [] ++ [(("europe.pool.ntp.org"%string, 123),
                0x23 :: repeat 0 39 ++ store LittleEndian 8 Examples.T1)])
  /\ udp_sent (datagram (Examples.after_transport
                           (Examples.world Examples.zero_memory
                              [Some (Examples.datagram_of Examples.good_reply)])))
     = [(("europe.pool.ntp.org"%string, 123),
         [0x23; 0; 0; 0; 0; 0; 0; 0; 0; 0; 0; 0; 0; 0; 0; 0; 0; 0; 0; 0;
          0; 0; 0; 0; 0; 0; 0; 0; 0; 0; 0; 0; 0; 0; 0; 0; 0; 0; 0; 0;
          0xE5; 0x40; 0xDB; 0x21; 0; 0; 0; 0])].
Proof.
  split; [|vm_compute; reflexivity].
  exact (proj2 (proj2 (request_is_zero_except_mode_and_xmt LittleEndian)) 1024%nat
           (Examples.world Examples.zero_memory
              [Some (Examples.datagram_of Examples.good_reply)])
           true
           (Examples.after_transport
              (Examples.world Examples.zero_memory
                 [Some (Examples.datagram_of Examples.good_reply)]))
           ltac:(vm_compute; reflexivity)).
Defined.

(** C8: the characters D E N Y followed by a byte that is not NUL: the first
    four bytes are the table's code "DENY", yet [printKissCode] returns false
    and prints them as an unknown code; followed by NUL the same four
    characters are recognised. *)
Theorem kiss_code_match_needs_terminator :
  read_bytes Examples.DENY_then_E5 0x3FFE9000 4 = Some (bytes_of_string "DENY")
  /\ In "DENY"%string (map fst kod_table)
  /\ option_map fst
       (printKissCode 0x3FFE9000 (Examples.world Examples.DENY_then_E5 []))
     = Some false
  /\ option_map (fun r => serial (snd r))
       (printKissCode 0x3FFE9000 (Examples.world Examples.DENY_then_E5 []))
     = Some [Println (TStr "Your SNTP client has received a Kiss-o'-Death (KoD) packet from its server, but the code is unknown.");
             Print (TStr "-- Unknown code: ");
             Println (TCStr (bytes_of_string "DENY"))]
  /\ option_map fst
       (printKissCode 0x3FFE9000 (Examples.world Examples.DENY_then_NUL []))
     = Some true.
Proof.
  split; [reflexivity|]. split; [cbn; tauto|].
  repeat split; vm_compute; reflexivity.
Qed.

(** The call in [on_wire_exchange] hands the value of [refid] to
    [printKissCode] as the address of the string: a kiss-o'-death reply whose
    reference id holds the characters "DENY" is looked up at the address
    0x594E4544, not in the packet; here that address holds "RATE". *)
Remark kiss_code_is_read_at_the_address_refid :
  refid Examples.kiss_of_death = 0x594E4544
  /\ option_map (fun r => (fst r, errno (snd r), serial (snd r)))
       (on_wire_exchange LittleEndian 1024 PTR
          (Examples.world (Examples.memory_with 0x594E4544 [82; 65; 84; 69; 0])
             [Some (Examples.datagram_of Examples.kiss_of_death)]))
     = Some (false, Some EAGAIN,
             [Println (TStr "Your SNTP client has received a Kiss-o'-Death (KoD) packet from its server.");
              Print (TStr "-- Code: ");
              Println (TStr "RATE");
              Print (TStr "-- Message: ");
              Println (TStr "Rate exceeded.  The server has temporarily denied access because the client exceeded the rate threshold.")]).
Proof. split; vm_compute; reflexivity. Qed.

(** C9: when the datagram that arrives within the budget carries fewer bytes
    than a packet, [receive_server_reply] fails with EPROTONOSUPPORT
    (ProtocolMismatch) without calling [read]: the caller's packet is what it
    was and the datagram is still unread in the socket. *)
Theorem short_datagram_rejected_unread
    (h : byte_order) (fuel k : nat) (timeout : Z)
    (dg : Datagram) (rest : list (option Datagram)) (w : World) :
  0 < timeout < ULONG_MOD ->
  Z.of_nat k < timeout -> (k < fuel)%nat ->
  udp_arrivals (datagram w) = repeat None k ++ Some dg :: rest ->
  dg_size dg <> 0 -> dg_size dg < sizeof_ntp_packet ->
  exists w',
    receive_server_reply h fuel PTR timeout w = Some (false, w')
    /\ errno w' = Some EPROTONOSUPPORT
    /\ packet w' = packet w
    /\ udp_reads (datagram w') = udp_reads (datagram w)
    /\ udp_rx (datagram w') = dg_payload dg.
Proof. apply receive_short_datagram. Qed.

Lemma short_datagram_rejected_unread_witness :
  exists w',
    receive_server_reply LittleEndian 1024 PTR 1024
      (Examples.world Examples.zero_memory [None; None; Some Examples.short_datagram])
    = Some (false, w')
    /\ errno w' = Some EPROTONOSUPPORT
    /\ packet w' = Examples.stale_packet
    /\ udp_reads (datagram w') = 0
    /\ udp_rx (datagram w') = dg_payload Examples.short_datagram.
Proof.
  exact (short_datagram_rejected_unread LittleEndian 1024 2 1024
           Examples.short_datagram []
           (Examples.world Examples.zero_memory [None; None; Some Examples.short_datagram])
           ltac:(unfold ULONG_MOD; lia) ltac:(lia) ltac:(lia) ltac:(reflexivity)
           ltac:(vm_compute; discriminate) ltac:(vm_compute; reflexivity)).
Defined.



End Claims.

(** * Further properties of the code *)

(** ** The timestamp codec *)

Section CodecProperties.

Import NTPMessageTransport.

Lemma bytes_le_app (n m : nat) (a b : Z) :
  0 <= a < 256 ^ Z.of_nat n ->
  bytes_le (n + m) (a + b * 256 ^ Z.of_nat n) = bytes_le n a ++ bytes_le m b.
Proof.
  revert a. induction n as [|n IH]; intros a Ha.
  - cbn [Nat.add bytes_le app]. change (256 ^ Z.of_nat 0) with 1 in *.
    f_equal. lia.
  - rewrite Nat2Z.inj_succ, Z.pow_succ_r in * by lia.
    cbn [Nat.add bytes_le app].
    replace ((a + b * (256 * 256 ^ Z.of_nat n)) mod 256) with (a mod 256)
      by (rewrite <- (Z.mod_add a (b * 256 ^ Z.of_nat n) 256) by lia; f_equal; lia).
    replace ((a + b * (256 * 256 ^ Z.of_nat n)) / 256)
      with (a / 256 + b * 256 ^ Z.of_nat n)
      by (rewrite <- (Z.div_add a (b * 256 ^ Z.of_nat n) 256) by lia; f_equal; lia).
    rewrite IH; [reflexivity|].
    split; [apply Z.div_pos; lia|]. apply Z.div_lt_upper_bound; lia.
Qed.

Lemma bytes_le_bswap (n : nat) (x : Z) :
  bytes_le n (bswap n x) = rev (bytes_le n x).
Proof.
  unfold bswap. rewrite <- (bytes_le_length n x) at 1. rewrite <- length_rev.
  apply bytes_le_value_le, Forall_is_byte_rev, bytes_le_are_bytes.
Qed.

Lemma double_to_uint_range (w : Z) (q : Q) :
  0 <= w -> 0 <= double_to_uint w q < 2 ^ w.
Proof.
  intros Hw. unfold double_to_uint. apply Z.mod_pos_bound.
  apply Z.pow_pos_nonneg; lia.
Qed.

(** X1: whatever the host's byte order, the memory image of a generated
    timestamp is the seconds in big-endian order followed by the fraction
    field in big-endian order: the wire format does not depend on the host. *)
Theorem generated_timestamp_is_in_network_order
    (h : byte_order) (s16 s32 : Z) (f : Q) :
  0 <= s16 < 2 ^ 16 -> 0 <= s32 < 2 ^ 32 ->
  store h 4 (generateTstamp32 h s16 f)
  = bytes_be 2 s16 ++ bytes_be 2 (double_to_uint 16 (f * FRIC))
  /\ store h 8 (generateTstamp64 h s32 f)
     = bytes_be 4 s32 ++ bytes_be 4 (double_to_uint 32 (f * FRAC)).
Proof.
  intros Hs16 Hs32.
  pose proof (double_to_uint_range 16 (f * FRIC) ltac:(lia)) as Hr16.
  pose proof (double_to_uint_range 32 (f * FRAC) ltac:(lia)) as Hr32.
  unfold generateTstamp32, generateTstamp64, htons, htonl, bytes_be.
  destruct h; unfold store, bytes_be.
  - rewrite !lor_shiftl_add by (try lia; apply (bswap_range 2) || apply (bswap_range 4)).
    split.
    + change (2 ^ 16) with (256 ^ Z.of_nat 2).
      rewrite (bytes_le_app 2 2) by apply bswap_range.
      now rewrite !bytes_le_bswap.
    + change (2 ^ 32) with (256 ^ Z.of_nat 4).
      rewrite (bytes_le_app 4 4) by apply bswap_range.
      now rewrite !bytes_le_bswap.
  - rewrite (Z.lor_comm (Z.shiftl s16 16)), (Z.lor_comm (Z.shiftl s32 32)).
    rewrite !lor_shiftl_add by lia.
    split.
    + change (2 ^ 16) with (256 ^ Z.of_nat 2).
      rewrite (bytes_le_app 2 2) by exact Hr16. now rewrite rev_app_distr.
    + change (2 ^ 32) with (256 ^ Z.of_nat 4).
      rewrite (bytes_le_app 4 4) by exact Hr32. now rewrite rev_app_distr.
Qed.

Lemma generated_timestamp_is_in_network_order_witness :
  store LittleEndian 8 (generateTstamp64 LittleEndian 3846232865 (1 # 2))
  = [0xE5; 0x40; 0xDB; 0x21; 0x80; 0; 0; 0]
  /\ store BigEndian 8 (generateTstamp64 BigEndian 3846232865 (1 # 2))
     = [0xE5; 0x40; 0xDB; 0x21; 0x80; 0; 0; 0].
Proof.
  split.
  - exact (proj2 (generated_timestamp_is_in_network_order LittleEndian 0 3846232865 (1 # 2)
                    ltac:(lia) ltac:(lia))).
  - exact (proj2 (generated_timestamp_is_in_network_order BigEndian 0 3846232865 (1 # 2)
                    ltac:(lia) ltac:(lia))).
Defined.

Lemma fraction_in_unit_interval (k K : Z) :
  0 <= k < K -> (0 <= inject_Z k / inject_Z K)%Q /\ (inject_Z k / inject_Z K < 1)%Q.
Proof.
  intros Hk.
  assert (HK : (0 < inject_Z K)%Q) by (rewrite <- (Zlt_Qlt 0); lia).
  split.
  - apply Qle_shift_div_l; trivial. rewrite Qmult_0_l, <- (Zle_Qle 0). lia.
  - apply Qlt_shift_div_r; trivial. rewrite Qmult_1_l, <- Zlt_Qlt. lia.
Qed.

Lemma land_low_range (x n : Z) : 0 <= n -> 0 <= Z.land x (Z.ones n) < 2 ^ n.
Proof.
  intros Hn. rewrite Z.land_ones by trivial. apply Z.mod_pos_bound.
  apply Z.pow_pos_nonneg; lia.
Qed.

(** X2: whatever 32- or 64-bit pattern is decoded, on either byte order, the
    seconds fit their unsigned field (16 or 32 bits) and the fraction lies
    in [0, 1). *)
Theorem decoded_timestamp_ranges (h : byte_order) (ts : Z) :
  0 <= getSeconds32 h ts < 2 ^ 16
  /\ 0 <= getSeconds64 h ts < 2 ^ 32
  /\ (0 <= getFraction32 h ts)%Q /\ (getFraction32 h ts < 1)%Q
  /\ (0 <= getFraction64 h ts)%Q /\ (getFraction64 h ts < 1)%Q.
Proof.
  unfold getSeconds32, getSeconds64, getFraction32, getFraction64, ntohs, ntohl, FRIC, FRAC.
  change 0xffff with (Z.ones 16). change 0xffffffff with (Z.ones 32).
  destruct h.
  - split; [apply (bswap_range 2)|]. split; [apply (bswap_range 4)|].
    split; [|split; [|split]];
      first [ apply (fraction_in_unit_interval _ 65536), (bswap_range 2)
            | apply (fraction_in_unit_interval _ 4294967296), (bswap_range 4) ].
  - split; [apply land_low_range; lia|]. split; [apply land_low_range; lia|].
    split; [|split; [|split]];
      first [ apply (fraction_in_unit_interval _ 65536), (land_low_range ts 16); lia
            | apply (fraction_in_unit_interval _ 4294967296), (land_low_range ts 32); lia ].
Qed.

Lemma Qtrunc_of_scaled (k K : Z) :
  0 <= k -> 0 < K -> Qtrunc (inject_Z k / inject_Z K * inject_Z K) = k.
Proof.
  intros Hk HK.
  assert (HKQ : ~ (inject_Z K == 0)%Q).
  { intros E. rewrite (Zlt_Qlt 0 K), E in HK. discriminate HK. }
  assert (E : (inject_Z k / inject_Z K * inject_Z K == inject_Z k)%Q)
    by (field; exact HKQ).
  assert (Hnn : (0 <= inject_Z k / inject_Z K * inject_Z K)%Q)
    by (rewrite E, <- (Zle_Qle 0); exact Hk).
  now rewrite (Qtrunc_nonneg _ Hnn), (Qfloor_comp _ _ E), Qfloor_Z.
Qed.

Lemma halves_recombine (ts n : Z) :
  0 <= n -> 0 <= ts < 2 ^ (n + n) ->
  Z.lor (Z.land (Z.shiftr ts 0) (Z.ones n))
        (Z.shiftl (Z.land (Z.shiftr ts n) (Z.ones n)) n) = ts.
Proof.
  intros Hn Hts. rewrite Z.pow_add_r in Hts by trivial.
  assert (Hp : 0 < 2 ^ n) by (apply Z.pow_pos_nonneg; lia).
  rewrite Z.shiftr_0_r, !Z.land_ones, Z.shiftr_div_pow2 by trivial.
  rewrite lor_shiftl_add by (trivial; apply Z.mod_pos_bound; lia).
  rewrite (Z.mod_small (ts / 2 ^ n)).
  - rewrite (Z.div_mod ts (2 ^ n)) at 3 by lia. lia.
  - split; [apply Z.div_pos; lia|]. apply Z.div_lt_upper_bound; lia.
Qed.

(** X3: on the little-endian build, decoding a timestamp and encoding what
    was decoded gives the timestamp back, bit for bit, for both widths. *)
Theorem encode_of_decoded_timestamp (ts32 ts64 : Z) :
  0 <= ts32 < 2 ^ 32 -> 0 <= ts64 < 2 ^ 64 ->
  generateTstamp32 LittleEndian (getSeconds32 LittleEndian ts32)
                   (getFraction32 LittleEndian ts32) = ts32
  /\ generateTstamp64 LittleEndian (getSeconds64 LittleEndian ts64)
                      (getFraction64 LittleEndian ts64) = ts64.
Proof.
  intros H32 H64.
  unfold generateTstamp32, generateTstamp64, getSeconds32, getSeconds64,
    getFraction32, getFraction64, double_to_uint, FRIC, FRAC, htons, ntohs, htonl, ntohl.
  change 0xffff with (Z.ones 16). change 0xffffffff with (Z.ones 32).
  split.
  - pose proof (land_low_range (Z.shiftr ts32 0) 16 ltac:(lia)) as Hlo.
    pose proof (land_low_range (Z.shiftr ts32 16) 16 ltac:(lia)) as Hhi.
    pose proof (bswap_range 2 (Z.land (Z.shiftr ts32 16) (Z.ones 16))) as Hb.
    rewrite Qtrunc_of_scaled by lia.
    rewrite (Z.mod_small _ (2 ^ 16)) by exact Hb.
    rewrite !bswap_involutive by assumption.
    apply (halves_recombine ts32 16); lia.
  - pose proof (land_low_range (Z.shiftr ts64 0) 32 ltac:(lia)) as Hlo.
    pose proof (land_low_range (Z.shiftr ts64 32) 32 ltac:(lia)) as Hhi.
    pose proof (bswap_range 4 (Z.land (Z.shiftr ts64 32) (Z.ones 32))) as Hb.
    rewrite Qtrunc_of_scaled by lia.
    rewrite (Z.mod_small _ (2 ^ 32)) by exact Hb.
    rewrite !bswap_involutive by assumption.
    apply (halves_recombine ts64 32); lia.
Qed.

Lemma encode_of_decoded_timestamp_witness :
  generateTstamp32 LittleEndian (getSeconds32 LittleEndian 0xCAFE1234)
                   (getFraction32 LittleEndian 0xCAFE1234) = 0xCAFE1234
  /\ generateTstamp64 LittleEndian (getSeconds64 LittleEndian 0x0123456789ABCDEF)
                      (getFraction64 LittleEndian 0x0123456789ABCDEF)
     = 0x0123456789ABCDEF.
Proof.
  exact (encode_of_decoded_timestamp 0xCAFE1234 0x0123456789ABCDEF
           ltac:(lia) ltac:(lia)).
Defined.

(** X4: in the big-endian branch [getSeconds] reads the low half of the
    timestamp, where [generateTstamp] has put the fraction field: what comes
    back for the seconds is the fraction field, for both widths. *)
Theorem big_endian_getSeconds_reads_the_fraction (s : Z) (f : Q) :
  getSeconds32 BigEndian (generateTstamp32 BigEndian s f)
  = double_to_uint 16 (f * FRIC)
  /\ getSeconds64 BigEndian (generateTstamp64 BigEndian s f)
     = double_to_uint 32 (f * FRAC).
Proof.
  pose proof (double_to_uint_range 16 (f * FRIC) ltac:(lia)) as Hr16.
  pose proof (double_to_uint_range 32 (f * FRAC) ltac:(lia)) as Hr32.
  unfold getSeconds32, getSeconds64, generateTstamp32, generateTstamp64.
  change 0xffff with (Z.ones 16). change 0xffffffff with (Z.ones 32).
  rewrite (Z.lor_comm (Z.shiftl s 16)), (Z.lor_comm (Z.shiftl s 32)).
  rewrite !lor_shiftl_add, !Z.land_ones, !Z.mod_add by lia.
  split; apply Z.mod_small; assumption.
Qed.

End CodecProperties.

(** ** The memory image of a packet *)

Section PacketImage.

Lemma load_store (h : byte_order) (n : nat) (x : Z) :
  0 <= x < 256 ^ Z.of_nat n -> load h (store h n x) = x.
Proof.
  intros Hx. destruct h; unfold load, store, value_be, bytes_be;
    rewrite ?rev_involutive, value_le_bytes_le; apply Z.mod_small; exact Hx.
Qed.

Lemma store_load (h : byte_order) (bs : list Z) :
  Forall is_byte bs -> store h (length bs) (load h bs) = bs.
Proof.
  intros Hbs. destruct h; unfold load, store, value_be, bytes_be.
  - now apply bytes_le_value_le.
  - rewrite <- (length_rev bs), bytes_le_value_le by now apply Forall_is_byte_rev.
    apply rev_involutive.
Qed.

Lemma store_are_bytes (h : byte_order) (n : nat) (x : Z) : Forall is_byte (store h n x).
Proof.
  destruct h; unfold store, bytes_be;
    [apply bytes_le_are_bytes | apply Forall_is_byte_rev, bytes_le_are_bytes].
Qed.

Lemma int8_of_byte_mod (x : Z) : - 2 ^ 7 <= x < 2 ^ 7 -> int8_of_byte (x mod 256) = x.
Proof.
  intros Hx. unfold int8_of_byte.
  destruct (Z.leb_spec 128 (x mod 256)); Z.div_mod_to_equations; lia.
Qed.

Lemma int8_of_byte_back (b : Z) : is_byte b -> int8_of_byte b mod 256 = b.
Proof.
  unfold is_byte, int8_of_byte. intros Hb.
  destruct (Z.leb_spec 128 b); Z.div_mod_to_equations; lia.
Qed.

Lemma slice_skip (k off n : nat) (a rest : list Z) :
  length a = k -> slice (k + off) n (a ++ rest) = slice off n rest.
Proof.
  intros <-. unfold slice. f_equal.
  rewrite skipn_app, skipn_all2 by lia.
  replace (length a + off - length a)%nat with off by lia. reflexivity.
Qed.

Lemma slice_first (n : nat) (a rest : list Z) :
  length a = n -> slice 0 n (a ++ rest) = a.
Proof.
  intros <-. unfold slice. cbn [skipn].
  rewrite firstn_app, firstn_all, Nat.sub_diag. cbn [firstn]. apply app_nil_r.
Qed.

Lemma packet_bytes_are_bytes (h : byte_order) (p : ntp_packet) :
  Forall is_byte (packet_bytes h p).
Proof.
  unfold packet_bytes.
  repeat (apply Forall_app; split); try apply store_are_bytes.
  repeat (apply Forall_cons; [apply Z.mod_pos_bound; lia|]). apply Forall_nil.
Qed.

Lemma packet_of_bytes_of_image (h : byte_order) (p : ntp_packet) :
  fits_packet p -> packet_of_bytes h (packet_bytes h p) = p.
Proof.
  intros (Hm & Hs & Hpp & Hpr & Hrd & Hrs & Hri & Hrt & Ho & Hr & Hx).
  - assert (L4 : forall x, length (store h 4 x) = 4%nat)
      by (intros x; destruct h; unfold store, bytes_be;
          rewrite ?length_rev; apply bytes_le_length).
    assert (L8 : forall x, length (store h 8 x) = 8%nat)
      by (intros x; destruct h; unfold store, bytes_be;
          rewrite ?length_rev; apply bytes_le_length).
    assert (One : forall b, load h [b] = b)
      by (intros b; destruct h; cbn; lia).
    destruct p as [m st pp pr rd rs ri rt o r x]. cbn [li_vn_mode stratum ppoll precision
      rootdelay rootdisp refid reftime org rec xmt] in *.
    unfold packet_of_bytes, packet_bytes.
    cbn [li_vn_mode stratum ppoll precision rootdelay rootdisp refid reftime org rec xmt].
    set (tail := store h 4 rd ++ store h 4 rs ++ store h 4 ri ++ store h 8 rt
                 ++ store h 8 o ++ store h 8 r ++ store h 8 x).
    change ([m mod 256; st mod 256; pp mod 256; pr mod 256] ++ tail)
      with (m mod 256 :: st mod 256 :: pp mod 256 :: pr mod 256 :: tail).
    assert (F : forall off n, slice (4 + off) n
                (m mod 256 :: st mod 256 :: pp mod 256 :: pr mod 256 :: tail)
                = slice off n tail) by reflexivity.
    change (slice 0 1 (m mod 256 :: st mod 256 :: pp mod 256 :: pr mod 256 :: tail))
      with [m mod 256].
    change (slice 1 1 (m mod 256 :: st mod 256 :: pp mod 256 :: pr mod 256 :: tail))
      with [st mod 256].
    change (slice 2 1 (m mod 256 :: st mod 256 :: pp mod 256 :: pr mod 256 :: tail))
      with [pp mod 256].
    change (slice 3 1 (m mod 256 :: st mod 256 :: pp mod 256 :: pr mod 256 :: tail))
      with [pr mod 256].
    rewrite (F 0%nat), (F 4%nat), (F 8%nat), (F 12%nat), (F 20%nat), (F 28%nat), (F 36%nat).
    subst tail.
    rewrite (slice_first 4) by apply L4.
    rewrite (slice_skip 4 0) by apply L4. rewrite (slice_first 4) by apply L4.
    rewrite (slice_skip 4 4), (slice_skip 4 0) by apply L4.
    rewrite (slice_first 4) by apply L4.
    rewrite (slice_skip 4 8), (slice_skip 4 4), (slice_skip 4 0) by apply L4.
    rewrite (slice_first 8) by apply L8.
    rewrite (slice_skip 4 16), (slice_skip 4 12), (slice_skip 4 8) by apply L4.
    rewrite (slice_skip 8 0) by apply L8. rewrite (slice_first 8) by apply L8.
    rewrite (slice_skip 4 24), (slice_skip 4 20), (slice_skip 4 16) by apply L4.
    rewrite (slice_skip 8 8), (slice_skip 8 0) by apply L8.
    rewrite (slice_first 8) by apply L8.
    rewrite (slice_skip 4 32), (slice_skip 4 28), (slice_skip 4 24) by apply L4.
    rewrite (slice_skip 8 16), (slice_skip 8 8), (slice_skip 8 0) by apply L8.
    rewrite <- (app_nil_r (store h 8 x)), (slice_first 8) by apply L8.
    rewrite !One, !load_store by assumption.
    rewrite !int8_of_byte_mod by assumption.
    rewrite !Z.mod_small by assumption.
    reflexivity.
Qed.

(** X5: a packet whose fields are within their C types is read back
    unchanged from its own 48-byte memory image, on either byte order. *)
Theorem packet_read_back_from_its_image (h : byte_order) (p : ntp_packet) :
  fits_packet p ->
  length (packet_bytes h p) = 48%nat
  /\ Forall is_byte (packet_bytes h p)
  /\ packet_of_bytes h (packet_bytes h p) = p.
Proof.
  intros Hfits. split; [|split].
  - exact (packet_bytes_length h p).
  - apply packet_bytes_are_bytes.
  - exact (packet_of_bytes_of_image h p Hfits).
Qed.

Lemma packet_read_back_from_its_image_witness :
  packet_of_bytes BigEndian (packet_bytes BigEndian Examples.good_reply)
  = Examples.good_reply.
Proof.
  exact (proj2 (proj2 (packet_read_back_from_its_image BigEndian Examples.good_reply
                         ltac:(vm_compute; intuition discriminate)))).
Defined.

End PacketImage.

(** ** What a packet read from 48 bytes looks like in memory *)

Section PacketImageBack.

Lemma packet_bytes_of_bytes (h : byte_order) (bs : list Z) :
  length bs = 48%nat -> Forall is_byte bs ->
  packet_bytes h (packet_of_bytes h bs) = bs.
Proof.
  intros Hlen Hbytes.
  do 48 (destruct bs as [|? bs]; [discriminate Hlen|]).
  destruct bs; [|discriminate Hlen]. clear Hlen.
  repeat match goal with
         | H : Forall is_byte (_ :: _) |- _ =>
             let Hb := fresh "Hb" in
             apply Forall_cons_iff in H; destruct H as [Hb H]
         end.
  assert (One : forall b, load h [b] = b) by (intros b; destruct h; cbn; lia).
  unfold packet_of_bytes, packet_bytes, slice.
  cbn [li_vn_mode stratum ppoll precision rootdelay rootdisp refid reftime org rec xmt
       skipn firstn].
  rewrite !One, !int8_of_byte_back by assumption.
  rewrite !Z.mod_small by assumption.
  rewrite (store_load h [_; _; _; _]), (store_load h [_; _; _; _]),
    (store_load h [_; _; _; _]) by (repeat (apply Forall_cons; [assumption|]); apply Forall_nil).
  rewrite (store_load h [_; _; _; _; _; _; _; _]), (store_load h [_; _; _; _; _; _; _; _]),
    (store_load h [_; _; _; _; _; _; _; _]), (store_load h [_; _; _; _; _; _; _; _])
    by (repeat (apply Forall_cons; [assumption|]); apply Forall_nil).
  reflexivity.
Qed.

(** X6: the packet that 48 bytes denote has those 48 bytes as its memory
    image, on either byte order: reading a datagram into the packet loses
    nothing. *)
Theorem image_of_packet_read_from_bytes (h : byte_order) (bs : list Z) :
  length bs = 48%nat -> Forall is_byte bs ->
  packet_bytes h (packet_of_bytes h bs) = bs.
Proof.
  exact (packet_bytes_of_bytes h bs).
Qed.

Lemma image_of_packet_read_from_bytes_witness :
  packet_bytes BigEndian (packet_of_bytes BigEndian (map Z.of_nat (seq 100 48)))
  = map Z.of_nat (seq 100 48).
Proof.
  exact (image_of_packet_read_from_bytes BigEndian (map Z.of_nat (seq 100 48))
           ltac:(reflexivity)
           ltac:(set (l := map Z.of_nat (seq 100 48)); vm_compute in l; subst l;
                  repeat (apply Forall_cons; [unfold is_byte; lia|]); apply Forall_nil)).
Defined.

End PacketImageBack.

(** ** The transport, phase by phase *)

Section TransportProperties.

Import NTPMessageTransport NTPClient.

(** X7: [net_provider] succeeds exactly when WiFi is connected and the
    socket is bound to the client port or is unbound and can be bound; then
    the socket is bound to the client port and [errno] is untouched.
    Otherwise the binding is left as it was and [errno] is ENETDOWN without
    WiFi, EISCONN with it.  Nothing is sent or polled either way. *)
Theorem net_provider_outcome (w : World) :
  exists w',
    net_provider w
    = Some (wifi_connected w
            && ((udp_local_port (datagram w) =? UDP_LOCAL_PORT)
                || ((udp_local_port (datagram w) =? 0) && udp_begin_ok (datagram w))),
            w')
    /\ (if wifi_connected w
           && ((udp_local_port (datagram w) =? UDP_LOCAL_PORT)
               || ((udp_local_port (datagram w) =? 0) && udp_begin_ok (datagram w)))
        then udp_local_port (datagram w') = UDP_LOCAL_PORT /\ errno w' = errno w
        else udp_local_port (datagram w') = udp_local_port (datagram w)
             /\ errno w' = Some (if wifi_connected w then EISCONN else ENETDOWN))
    /\ udp_sent (datagram w') = udp_sent (datagram w)
    /\ udp_polls (datagram w') = udp_polls (datagram w)
    /\ packet w' = packet w.
Proof.
  unfold net_provider, bind, gets, udp_localPort, udp_begin, set_errno, modify, ret.
  destruct (wifi_connected w); cbn [negb andb].
  2: { eexists; split; [reflexivity|]. cbn. auto. }
  unfold gets.
  destruct (Z.eqb_spec (udp_local_port (datagram w)) UDP_LOCAL_PORT) as [E|E]; cbn [orb].
  { eexists; split; [reflexivity|]. auto. }
  destruct (Z.eqb_spec (udp_local_port (datagram w)) 0) as [E0|E0]; cbn [andb].
  2: { eexists; split; [reflexivity|]. cbn. auto. }
  destruct (udp_begin_ok (datagram w));
    eexists; (split; [reflexivity|]); cbn; auto.
Qed.

(** X8: [send_server_request] succeeds exactly when the name resolves, the
    socket takes all 48 bytes and the datagram can be finalized; then exactly
    one datagram, the memory image of the caller's packet, has gone to the
    configured server at port 123 and [errno] is untouched.  Otherwise
    nothing has been sent and [errno] is EADDRNOTAVAIL, EOVERFLOW or EIO, for
    the first step that failed. *)
Theorem send_server_request_outcome (h : byte_order) (w : World) :
  exists w',
    send_server_request h PTR w
    = Some (udp_resolves (datagram w)
            && (48 <=? Z.of_nat (udp_tx_room (datagram w)))
            && udp_send_ok (datagram w), w')
    /\ (if udp_resolves (datagram w)
           && (48 <=? Z.of_nat (udp_tx_room (datagram w)))
           && udp_send_ok (datagram w)
        then udp_sent (datagram w')
             = udp_sent (datagram w)
               ++ [((server_name_str w, NTP_SERVER_PORT), packet_bytes h (packet w))]
             /\ errno w' = errno w
        else udp_sent (datagram w') = udp_sent (datagram w)
             /\ errno w' = Some (if negb (udp_resolves (datagram w)) then EADDRNOTAVAIL
                                 else if Z.of_nat (udp_tx_room (datagram w)) <? 48
                                      then EOVERFLOW else EIO))
    /\ udp_polls (datagram w') = udp_polls (datagram w)
    /\ packet w' = packet w.
Proof.
  unfold send_server_request, bind, gets, udp_beginPacket, udp_write, udp_endPacket,
    set_errno, modify, ret.
  destruct (udp_resolves (datagram w)); cbn -[packet_bytes Z.of_nat Z.leb Z.ltb].
  2: { eexists; split; [reflexivity|]. auto. }
  rewrite Nat.sub_0_r, length_firstn, packet_bytes_length.
  change (Z.to_nat sizeof_ntp_packet) with 48%nat. unfold sizeof_ntp_packet.
  destruct (Z.leb_spec 48 (Z.of_nat (udp_tx_room (datagram w)))) as [Hroom|Hroom].
  - rewrite Nat.min_r by lia. cbn -[packet_bytes Z.of_nat Z.ltb].
    rewrite firstn_all2 by (rewrite packet_bytes_length; unfold sizeof_ntp_packet; lia).
    destruct (udp_send_ok (datagram w)); cbn -[packet_bytes Z.of_nat Z.ltb].
    + eexists; split; [reflexivity|]. auto.
    + eexists; split; [reflexivity|]. cbn -[packet_bytes Z.of_nat Z.ltb].
      destruct (Z.ltb_spec (Z.of_nat (udp_tx_room (datagram w))) 48); [lia|]. auto.
  - rewrite Nat.min_l by lia.
    destruct (Z.eqb_spec (Z.of_nat (udp_tx_room (datagram w))) 48) as [E|_]; [lia|].
    cbn -[packet_bytes Z.of_nat Z.ltb].
    eexists; split; [reflexivity|]. cbn -[packet_bytes Z.of_nat Z.ltb].
    destruct (Z.ltb_spec (Z.of_nat (udp_tx_room (datagram w))) 48); [|lia]. auto.
Qed.

(** Whatever arrives, the polling loop polls at least once and at most the
    rest of its budget, and sleeps one millisecond after every poll that
    found nothing. *)
Lemma poll_loop_budget (timeout : Z) :
  timeout < ULONG_MOD ->
  forall (fuel : nat) (ms_cycles : Z) (w : World) (r : Z) (w' : World),
    0 <= ms_cycles < timeout ->
    poll_loop fuel timeout ms_cycles w = Some (r, w') ->
    1 <= udp_polls (datagram w') - udp_polls (datagram w) <= timeout - ms_cycles
    /\ udp_polls (datagram w') - udp_polls (datagram w) - 1
       <= clock_ms w' - clock_ms w
       <= udp_polls (datagram w') - udp_polls (datagram w).
Proof.
  intros Hmax. induction fuel as [|fuel IH]; intros ms w r w' Hms Hrun; [discriminate|].
  cbn [poll_loop] in Hrun.
  apply bind_Some in Hrun as (size & w1 & Hp & Hrun).
  assert (Hp1 : udp_polls (datagram w1) = udp_polls (datagram w) + 1
                /\ clock_ms w1 = clock_ms w).
  { unfold udp_parsePacket in Hp.
    destruct (udp_arrivals (datagram w)) as [|[dg|] rest];
      inversion Hp; subst; cbn; auto. }
  destruct Hp1 as [Hp1 Hc1].
  destruct (size =? 0); cbn [negb] in Hrun.
  2: { inversion Hrun; subst. lia. }
  apply bind_Some in Hrun as ([] & w2 & Hd & Hrun).
  inversion Hd; subst w2; clear Hd.
  replace ((ms + 1) mod ULONG_MOD) with (ms + 1) in Hrun
    by (symmetry; apply Z.mod_small; lia).
  destruct (Z.ltb_spec (ms + 1) timeout) as [Hlt|Hge].
  - apply IH in Hrun; [|lia]. cbn in Hrun. lia.
  - inversion Hrun; subst. cbn. lia.
Qed.

Lemma receive_server_reply_budget (h : byte_order) (fuel : nat) (timeout : Z)
    (w : World) (b : bool) (w' : World) :
  0 < timeout < ULONG_MOD ->
  receive_server_reply h fuel PTR timeout w = Some (b, w') ->
  1 <= udp_polls (datagram w') - udp_polls (datagram w) <= timeout
  /\ udp_polls (datagram w') - udp_polls (datagram w) - 1
     <= clock_ms w' - clock_ms w
     <= udp_polls (datagram w') - udp_polls (datagram w).
Proof.
  intros Ht Hrun. unfold receive_server_reply in Hrun.
  destruct (Z.eqb_spec timeout 0) as [E|_]; [lia|].
  apply bind_Some in Hrun as (size & w1 & Hloop & Hrest).
  apply (poll_loop_budget timeout (proj2 Ht)) in Hloop; [|lia].
  assert (Hpolls : udp_polls (datagram w') = udp_polls (datagram w1)).
  { revert Hrest. generalize b, w'. generalize w1.
    change (preserves (fun w => udp_polls (datagram w))
              (if size <? sizeof_ntp_packet
               then set_errno EPROTONOSUPPORT;; ret false
               else bs <- udp_read (Z.to_nat sizeof_ntp_packet);;
                    modify (fun w => with_packet (overlay h (packet w) bs) w);;
                    (if negb (Z.of_nat (length bs) =? sizeof_ntp_packet)
                     then set_errno EOVERFLOW;; ret false
                     else udp_flush;; ret true))).
    frame. }
  assert (Hclock : clock_ms w' = clock_ms w1).
  { revert Hrest. generalize b, w'. generalize w1.
    change (preserves clock_ms
              (if size <? sizeof_ntp_packet
               then set_errno EPROTONOSUPPORT;; ret false
               else bs <- udp_read (Z.to_nat sizeof_ntp_packet);;
                    modify (fun w => with_packet (overlay h (packet w) bs) w);;
                    (if negb (Z.of_nat (length bs) =? sizeof_ntp_packet)
                     then set_errno EOVERFLOW;; ret false
                     else udp_flush;; ret true))).
    frame. }
  rewrite Hpolls, Hclock. rewrite Z.sub_0_r in Hloop. exact Hloop.
Qed.

(** X9: whatever arrives and whenever, [receive_server_reply] polls at
    least once and at most [timeout] times, and the time it sleeps is one
    millisecond per poll that found nothing: never more than [timeout] ms. *)
Theorem receive_keeps_to_its_budget (h : byte_order) (fuel : nat) (timeout : Z)
    (w : World) (b : bool) (w' : World) :
  0 < timeout < ULONG_MOD ->
  receive_server_reply h fuel PTR timeout w = Some (b, w') ->
  1 <= udp_polls (datagram w') - udp_polls (datagram w) <= timeout
  /\ udp_polls (datagram w') - udp_polls (datagram w) - 1
     <= clock_ms w' - clock_ms w
     <= udp_polls (datagram w') - udp_polls (datagram w).
Proof. apply receive_server_reply_budget. Qed.

Lemma net_provider_polls : preserves (fun w => udp_polls (datagram w)) net_provider.
Proof. unfold net_provider. frame. Qed.

Lemma send_server_request_polls (h : byte_order) :
  preserves (fun w => udp_polls (datagram w)) (send_server_request h PTR).
Proof. unfold send_server_request. frame. Qed.

(** A request that [send_server_request] reports as sent has gone out. *)
Lemma send_server_request_true (h : byte_order) (w w' : World) :
  send_server_request h PTR w = Some (true, w') ->
  udp_sent (datagram w')
  = udp_sent (datagram w)
    ++ [((server_name_str w, NTP_SERVER_PORT), packet_bytes h (packet w))].
Proof.
  intros Hrun. destruct (send_server_request_sent h w true w' Hrun) as [Hsame|Hgrew];
    [|exact Hgrew].
  exfalso. revert Hrun Hsame.
  unfold send_server_request, bind, gets, udp_beginPacket, udp_write, udp_endPacket,
    set_errno, modify, ret.
  destruct (udp_resolves (datagram w)); cbn -[packet_bytes]; [|discriminate].
  destruct (_ =? sizeof_ntp_packet); cbn -[packet_bytes]; [|discriminate].
  destruct (udp_send_ok (datagram w)); cbn -[packet_bytes]; [|discriminate].
  intros H; inversion H; subst; cbn -[packet_bytes]. intros Hsame.
  apply (f_equal (@length _)) in Hsame. rewrite length_app in Hsame. cbn in Hsame. lia.
Qed.

Lemma send_server_request_false (h : byte_order) (w w' : World) :
  send_server_request h PTR w = Some (false, w') ->
  udp_sent (datagram w') = udp_sent (datagram w).
Proof.
  unfold send_server_request, bind, gets, udp_beginPacket, udp_write, udp_endPacket,
    set_errno, modify, ret.
  destruct (udp_resolves (datagram w)); cbn -[packet_bytes].
  2: { intros H; inversion H; reflexivity. }
  destruct (_ =? sizeof_ntp_packet); cbn -[packet_bytes].
  2: { intros H; inversion H; reflexivity. }
  destruct (udp_send_ok (datagram w)); cbn -[packet_bytes]; [discriminate|].
  intros H; inversion H; reflexivity.
Qed.

Lemma packetExchange_activity (h : byte_order) (fuel : nat) (p : ptr) (timeout : Z)
    (w : World) (b : bool) (w' : World) :
  0 <= timeout < ULONG_MOD ->
  packetExchange h fuel p timeout w = Some (b, w') ->
  (b = false
   /\ udp_sent (datagram w') = udp_sent (datagram w)
   /\ udp_polls (datagram w') = udp_polls (datagram w))
  \/ (udp_sent (datagram w')
      = udp_sent (datagram w)
        ++ [((server_name_str w, NTP_SERVER_PORT), packet_bytes h (packet w))]
      /\ 1 <= udp_polls (datagram w') - udp_polls (datagram w) <= timeout).
Proof.
  intros Hmax Hrun. unfold packetExchange in Hrun.
  destruct p.
  { inversion Hrun; subst. left. auto. }
  destruct (Z.eqb_spec timeout 0) as [E|Hnz].
  { inversion Hrun; subst. left. auto. }
  apply bind_Some in Hrun as (up & wn & Hn & Hrun).
  pose proof (net_provider_sent _ _ _ Hn) as Hsn. cbn in Hsn.
  pose proof (net_provider_polls _ _ _ Hn) as Hpn. cbn in Hpn.
  pose proof (net_provider_packet _ _ _ Hn) as Hkn.
  pose proof (net_provider_server_name _ _ _ Hn) as Hnn.
  destruct up; cbn [negb] in Hrun.
  2: { inversion Hrun; subst. left. auto. }
  apply bind_Some in Hrun as (sent & ws & Hs & Hrun).
  pose proof (send_server_request_polls h _ _ _ Hs) as Hps. cbn in Hps.
  destruct sent; cbn [negb] in Hrun.
  2: { inversion Hrun; subst. left.
       rewrite (send_server_request_false h _ _ Hs). split; [reflexivity|].
       split; congruence. }
  apply send_server_request_true in Hs.
  apply bind_Some in Hrun as (received & wr & Hr & Hrun).
  assert (Hw : w' = wr) by (destruct received; inversion Hrun; reflexivity).
  subst wr. right.
  pose proof (receive_server_reply_sent _ _ _ _ _ _ _ Hr) as Hsr. cbn in Hsr.
  destruct (receive_server_reply_budget h fuel timeout ws received w' ltac:(lia) Hr)
    as [Hb _].
  split; [congruence|]. lia.
Qed.

(** X10: [packetExchange] never listens without having sent: either it fails
    with nothing sent and nothing polled, or exactly one datagram, the image
    of the caller's packet, has gone to the configured server at port 123
    and between 1 and [timeout] polls were made. *)
Theorem packetExchange_listens_only_after_sending
    (h : byte_order) (fuel : nat) (p : ptr) (timeout : Z)
    (w : World) (b : bool) (w' : World) :
  0 <= timeout < ULONG_MOD ->
  packetExchange h fuel p timeout w = Some (b, w') ->
  (b = false
   /\ udp_sent (datagram w') = udp_sent (datagram w)
   /\ udp_polls (datagram w') = udp_polls (datagram w))
  \/ (udp_sent (datagram w')
      = udp_sent (datagram w)
        ++ [((server_name_str w, NTP_SERVER_PORT), packet_bytes h (packet w))]
      /\ 1 <= udp_polls (datagram w') - udp_polls (datagram w) <= timeout).
Proof. apply packetExchange_activity. Qed.

(** What the read phase does once the loop has found a datagram that is
    large enough. *)
Lemma receive_after_arrival (h : byte_order) (fuel k : nat) (timeout : Z)
    (dg : Datagram) (rest : list (option Datagram)) (w : World) :
  0 < timeout < ULONG_MOD ->
  Z.of_nat k < timeout -> (k < fuel)%nat ->
  udp_arrivals (datagram w) = repeat None k ++ Some dg :: rest ->
  sizeof_ntp_packet <= dg_size dg ->
  exists w',
    receive_server_reply h fuel PTR timeout w
    = Some (Z.of_nat (length (firstn 48 (dg_payload dg))) =? sizeof_ntp_packet, w')
    /\ packet w' = overlay h (packet w) (firstn 48 (dg_payload dg))
    /\ errno w' = (if Z.of_nat (length (firstn 48 (dg_payload dg))) =? sizeof_ntp_packet
                   then errno w else Some EOVERFLOW)
    /\ udp_rx (datagram w')
       = (if Z.of_nat (length (firstn 48 (dg_payload dg))) =? sizeof_ntp_packet
          then [] else skipn 48 (dg_payload dg))
    /\ udp_arrivals (datagram w') = rest
    /\ udp_reads (datagram w') = udp_reads (datagram w) + 1.
Proof.
  intros Ht Hk Hfuel Harr Hsize.
  assert (Hnz : dg_size dg <> 0) by (unfold sizeof_ntp_packet in Hsize; lia).
  destruct (poll_loop_arrival timeout dg rest (proj2 Ht) Hnz k fuel 0 w)
    as (w1 & Hrun & Hrx & Hrest & _ & _); [lia | lia | exact Hfuel | exact Harr |].
  pose proof (poll_loop_packet _ _ _ _ _ _ Hrun) as Hpkt.
  pose proof (poll_loop_errno _ _ _ _ _ _ Hrun) as Herr.
  pose proof (poll_loop_reads _ _ _ _ _ _ Hrun) as Hreads. cbn in Hreads.
  unfold receive_server_reply.
  destruct (Z.eqb_spec timeout 0) as [E|_]; [lia|].
  rewrite (bind_run _ _ _ _ _ Hrun).
  destruct (Z.ltb_spec (dg_size dg) sizeof_ntp_packet) as [Hlt|_]; [lia|].
  unfold bind at 1. unfold udp_read at 1. cbv zeta. rewrite Hrx.
  change (Z.to_nat sizeof_ntp_packet) with 48%nat.
  unfold bind at 1. unfold modify at 1.
  destruct (Z.of_nat (length (firstn 48 (dg_payload dg))) =? sizeof_ntp_packet);
    cbn [negb]; (eexists; split; [reflexivity|]); cbn -[overlay firstn skipn];
    rewrite ?Hpkt, ?Herr, ?Hrest, ?Hreads; repeat split.
Qed.

(** X11: a datagram of at least 48 bytes that arrives within the budget is
    accepted: the caller's packet becomes what its first 48 bytes denote,
    bytes beyond the 48th are discarded with the datagram, [errno] is
    untouched, and later arrivals stay in the socket. *)
Theorem reply_is_read_from_the_first_48_bytes
    (h : byte_order) (fuel k : nat) (timeout : Z)
    (dg : Datagram) (rest : list (option Datagram)) (w : World) :
  0 < timeout < ULONG_MOD ->
  Z.of_nat k < timeout -> (k < fuel)%nat ->
  udp_arrivals (datagram w) = repeat None k ++ Some dg :: rest ->
  sizeof_ntp_packet <= dg_size dg -> (48 <= length (dg_payload dg))%nat ->
  exists w',
    receive_server_reply h fuel PTR timeout w = Some (true, w')
    /\ packet w' = packet_of_bytes h (firstn 48 (dg_payload dg))
    /\ errno w' = errno w
    /\ udp_rx (datagram w') = []
    /\ udp_arrivals (datagram w') = rest.
Proof.
  intros Ht Hk Hfuel Harr Hsize Hlen.
  destruct (receive_after_arrival h fuel k timeout dg rest w Ht Hk Hfuel Harr Hsize)
    as (w' & Hrun & Hpkt & Herr & Hrx & Hrest & _).
  assert (L : length (firstn 48 (dg_payload dg)) = 48%nat)
    by (rewrite length_firstn; lia).
  rewrite L in Hrun, Herr, Hrx. cbn [Z.of_nat Pos.of_succ_nat] in Hrun, Herr, Hrx.
  exists w'. split; [exact Hrun|]. split; [|auto].
  rewrite Hpkt. unfold overlay.
  rewrite L, skipn_all2 by (rewrite packet_bytes_length; cbn; lia).
  now rewrite app_nil_r.
Qed.

Lemma reply_is_read_from_the_first_48_bytes_witness :
  exists w',
    receive_server_reply LittleEndian 1024 PTR 1024
      (Examples.world Examples.zero_memory
         [None; Some {| dg_size := 52;
                        dg_payload := packet_bytes LittleEndian Examples.good_reply
                                      ++ [1; 2; 3; 4] |};
          Some Examples.short_datagram])
    = Some (true, w')
    /\ packet w'
       = packet_of_bytes LittleEndian
           (firstn 48 (packet_bytes LittleEndian Examples.good_reply ++ [1; 2; 3; 4]))
    /\ errno w' = None
    /\ udp_rx (datagram w') = []
    /\ udp_arrivals (datagram w') = [Some Examples.short_datagram].
Proof.
  exact (reply_is_read_from_the_first_48_bytes LittleEndian 1024 1 1024
           {| dg_size := 52;
              dg_payload := packet_bytes LittleEndian Examples.good_reply ++ [1; 2; 3; 4] |}
           [Some Examples.short_datagram]
           (Examples.world Examples.zero_memory
              [None; Some {| dg_size := 52;
                             dg_payload := packet_bytes LittleEndian Examples.good_reply
                                           ++ [1; 2; 3; 4] |};
               Some Examples.short_datagram])
           ltac:(unfold ULONG_MOD; lia) ltac:(lia) ltac:(lia) ltac:(reflexivity)
           ltac:(vm_compute; discriminate) ltac:(vm_compute; lia)).
Defined.

(** X12: when [read] delivers fewer than 48 bytes of a datagram announced
    as large enough, the call fails with EOVERFLOW after the bytes delivered
    have been written over the start of the caller's packet: its memory image
    is those bytes followed by what it held beyond them. *)
Theorem short_read_overwrites_the_start_of_the_packet
    (h : byte_order) (fuel k : nat) (timeout : Z)
    (dg : Datagram) (rest : list (option Datagram)) (w : World) :
  0 < timeout < ULONG_MOD ->
  Z.of_nat k < timeout -> (k < fuel)%nat ->
  udp_arrivals (datagram w) = repeat None k ++ Some dg :: rest ->
  sizeof_ntp_packet <= dg_size dg ->
  (length (dg_payload dg) < 48)%nat -> Forall is_byte (dg_payload dg) ->
  exists w',
    receive_server_reply h fuel PTR timeout w = Some (false, w')
    /\ errno w' = Some EOVERFLOW
    /\ packet_bytes h (packet w')
       = dg_payload dg ++ skipn (length (dg_payload dg)) (packet_bytes h (packet w)).
Proof.
  intros Ht Hk Hfuel Harr Hsize Hlen Hbytes.
  destruct (receive_after_arrival h fuel k timeout dg rest w Ht Hk Hfuel Harr Hsize)
    as (w' & Hrun & Hpkt & Herr & _).
  rewrite firstn_all2 in Hrun, Hpkt, Herr by lia.
  destruct (Z.eqb_spec (Z.of_nat (length (dg_payload dg))) sizeof_ntp_packet) as [E|_];
    [unfold sizeof_ntp_packet in E; lia|].
  exists w'. split; [exact Hrun|]. split; [exact Herr|].
  rewrite Hpkt. unfold overlay. apply packet_bytes_of_bytes.
  - rewrite length_app, length_skipn, packet_bytes_length. cbn. lia.
  - apply Forall_app. split; [exact Hbytes|].
    apply Forall_forall. intros x Hx.
    pose proof (packet_bytes_are_bytes h (packet w)) as Hall.
    rewrite Forall_forall in Hall. apply Hall.
    rewrite <- (firstn_skipn (length (dg_payload dg)) (packet_bytes h (packet w))).
    apply in_or_app. now right.
Qed.

Lemma short_read_overwrites_the_start_of_the_packet_witness :
  exists w',
    receive_server_reply LittleEndian 1024 PTR 1024
      (Examples.world Examples.zero_memory
         [Some {| dg_size := 48; dg_payload := [0x24; 3; 6] |}])
    = Some (false, w')
    /\ errno w' = Some EOVERFLOW
    /\ packet_bytes LittleEndian (packet w')
       = [0x24; 3; 6] ++ skipn 3 (packet_bytes LittleEndian Examples.stale_packet).
Proof.
  exact (short_read_overwrites_the_start_of_the_packet LittleEndian 1024 0 1024
           {| dg_size := 48; dg_payload := [0x24; 3; 6] |} []
           (Examples.world Examples.zero_memory
              [Some {| dg_size := 48; dg_payload := [0x24; 3; 6] |}])
           ltac:(unfold ULONG_MOD; lia) ltac:(lia) ltac:(lia) ltac:(reflexivity)
           ltac:(vm_compute; discriminate) ltac:(cbn; lia)
           ltac:(repeat (apply Forall_cons; [unfold is_byte; lia|]); apply Forall_nil)).
Defined.

Lemma receive_keeps_to_its_budget_witness :
  1 <= udp_polls (datagram (Scenarios.after_receive Scenarios.reply_at_third_poll)) - 0
    <= 1024
  /\ udp_polls (datagram (Scenarios.after_receive Scenarios.reply_at_third_poll)) - 0 - 1
     <= clock_ms (Scenarios.after_receive Scenarios.reply_at_third_poll) - 5000
     <= udp_polls (datagram (Scenarios.after_receive Scenarios.reply_at_third_poll)) - 0.
Proof.
  exact (receive_keeps_to_its_budget LittleEndian 1024 1024
           Scenarios.reply_at_third_poll true
           (Scenarios.after_receive Scenarios.reply_at_third_poll)
           ltac:(unfold ULONG_MOD; lia) ltac:(vm_compute; reflexivity)).
Defined.

Lemma packetExchange_listens_only_after_sending_witness :
  (false = false
   /\ udp_sent (datagram (Examples.after_transport
                            (Examples.world Examples.zero_memory []))) = []
   /\ udp_polls (datagram (Examples.after_transport
                             (Examples.world Examples.zero_memory []))) = 0)
  \/ (udp_sent (datagram (Examples.after_transport
                            (Examples.world Examples.zero_memory [])))
      = [] ++ [(("europe.pool.ntp.org"%string, NTP_SERVER_PORT),
                packet_bytes LittleEndian
                  (assemble_request LittleEndian Examples.stale_packet))]
      /\ 1 <= udp_polls (datagram (Examples.after_transport
                                     (Examples.world Examples.zero_memory []))) - 0
           <= 1024).
Proof.
  exact (packetExchange_listens_only_after_sending LittleEndian 1024 PTR 1024
           (with_packet (assemble_request LittleEndian Examples.stale_packet)
              (Examples.world Examples.zero_memory []))
           false
           (Examples.after_transport (Examples.world Examples.zero_memory []))
           ltac:(unfold ULONG_MOD; lia) ltac:(vm_compute; reflexivity)).
Defined.

End TransportProperties.

(** ** The exchange and [errno] *)

Section ExchangeProperties.

Import NTPMessageTransport NTPClient.

Lemma net_provider_errno : errno_discipline net_provider.
Proof.
  intros w b w'.
  unfold net_provider, bind, gets, udp_localPort, udp_begin, set_errno, modify, ret.
  destruct (wifi_connected w); cbn [negb].
  2: { intros H; inversion H; subst; cbn; eauto. }
  unfold gets. destruct (_ =? UDP_LOCAL_PORT).
  { intros H; inversion H; subst; reflexivity. }
  destruct (_ =? 0); [destruct (udp_begin_ok (datagram w))|];
    intros H; inversion H; subst; cbn; eauto.
Qed.

Lemma send_server_request_errno (h : byte_order) (p : ptr) :
  errno_discipline (send_server_request h p).
Proof.
  intros w b w'.
  unfold send_server_request, bind, gets, udp_beginPacket, udp_write, udp_endPacket,
    set_errno, modify, ret.
  destruct p.
  { intros H; inversion H; subst; cbn; eauto. }
  destruct (udp_resolves (datagram w)); cbn -[packet_bytes].
  2: { intros H; inversion H; subst; cbn; eauto. }
  destruct (_ =? sizeof_ntp_packet); cbn -[packet_bytes].
  2: { intros H; inversion H; subst; cbn; eauto. }
  destruct (udp_send_ok (datagram w)); cbn -[packet_bytes];
    intros H; inversion H; subst; cbn; eauto.
Qed.

Lemma receive_server_reply_errno (h : byte_order) (fuel : nat) (p : ptr) (timeout : Z) :
  errno_discipline (receive_server_reply h fuel p timeout).
Proof.
  intros w b w'. unfold receive_server_reply.
  destruct p.
  { intros H; inversion H; subst; cbn; eauto. }
  destruct (timeout =? 0).
  { intros H; inversion H; subst; cbn; eauto. }
  intros H. apply bind_Some in H as (size & w1 & Hloop & H).
  apply poll_loop_errno in Hloop. rewrite <- Hloop.
  destruct (size <? sizeof_ntp_packet).
  { inversion H; subst; cbn; eauto. }
  revert H. unfold bind, udp_read, modify, set_errno, udp_flush, ret. cbv zeta.
  destruct (negb _); intros H; inversion H; subst; cbn; eauto.
Qed.

Lemma packetExchange_errno (h : byte_order) (fuel : nat) (p : ptr) (timeout : Z) :
  errno_discipline (packetExchange h fuel p timeout).
Proof.
  intros w b w'. unfold packetExchange.
  destruct p.
  { intros H; inversion H; subst; cbn; eauto. }
  destruct (timeout =? 0).
  { intros H; inversion H; subst; cbn; eauto. }
  intros H. apply bind_Some in H as (up & wn & Hn & H).
  apply net_provider_errno in Hn.
  destruct up; cbn [negb] in H.
  2: { inversion H; subst. exact Hn. }
  apply bind_Some in H as (sent & ws & Hs & H).
  apply send_server_request_errno in Hs.
  destruct sent; cbn [negb] in H.
  2: { inversion H; subst. exact Hs. }
  apply bind_Some in H as (received & wr & Hr & H).
  apply receive_server_reply_errno in Hr.
  destruct received; cbn [negb] in H; inversion H; subst.
  - congruence.
  - exact Hr.
Qed.

Lemma check_reply_errno (xmt_bak : Z) : errno_discipline (check_reply xmt_bak).
Proof.
  intros w b w' H.
  destruct (kiss_code_read_faults w) eqn:Hf;
    [rewrite (check_reply_faults _ _ Hf) in H; discriminate|].
  destruct (check_reply_first_failure xmt_bak w Hf) as (w2 & Hrun & Hres & _).
  rewrite H in Hrun. inversion Hrun; subst.
  destruct (Spec.first_failing_check xmt_bak (packet w)) as [e|].
  - eauto.
  - now subst.
Qed.

Lemma on_wire_exchange_errno (h : byte_order) (fuel : nat) (p : ptr) :
  errno_discipline (on_wire_exchange h fuel p).
Proof.
  intros w b w'. destruct p.
  { intros H; inversion H; subst; cbn; eauto. }
  rewrite on_wire_exchange_phases.
  destruct (packetExchange _ _ _ _ _) as [[ok w1]|] eqn:Hx; [|discriminate].
  apply packetExchange_errno in Hx. cbn [errno with_packet] in Hx.
  destruct ok.
  - intros H. apply check_reply_errno in H. destruct b; [congruence | exact H].
  - intros H. inversion H; subst. exact Hx.
Qed.

(** X13: [on_wire_exchange], and with it each transport phase, leaves
    [errno] untouched when it succeeds and has set it when it fails, whatever
    [errno] held before: a caller that sees [false] always finds a reason. *)
Theorem failure_always_sets_errno
    (h : byte_order) (fuel : nat) (p : ptr) (w : World) (b : bool) (w' : World) :
  on_wire_exchange h fuel p w = Some (b, w') ->
  if b then errno w' = errno w else exists e, errno w' = Some e.
Proof. apply on_wire_exchange_errno. Qed.

Lemma failure_always_sets_errno_witness :
  exists e, errno (Examples.after_exchange
                     (Examples.world Examples.zero_memory
                        [Some Examples.short_datagram])) = Some e.
Proof.
  exact (failure_always_sets_errno LittleEndian 1024 PTR
           (with_packet (set_xmt Examples.T1 Examples.stale_packet)
              (Examples.world Examples.zero_memory [Some Examples.short_datagram]))
           false
           (Examples.after_exchange
              (Examples.world Examples.zero_memory [Some Examples.short_datagram]))
           ltac:(vm_compute; reflexivity)).
Defined.

(** What a reply that passes the checks looks like. *)
Lemma check_reply_true (xmt_bak : Z) (w w' : World) :
  check_reply xmt_bak w = Some (true, w') ->
  w' = w
  /\ Z.land (li_vn_mode (packet w)) MODE_MASK = MODE_SERVER
  /\ Z.land (li_vn_mode (packet w)) PROTOCOL_MASK = NTP_VERSION_4
  /\ Z.land (li_vn_mode (packet w)) LEAP_MASK <> LEAP_ALARM_CONDITION
  /\ stratum (packet w) <= 15 /\ stratum (packet w) <> 0
  /\ org (packet w) = xmt_bak.
Proof.
  unfold check_reply, bind, gets.
  destruct (Z.eqb_spec (Z.land (li_vn_mode (packet w)) MODE_MASK) MODE_SERVER);
    cbn [negb]; [|discriminate].
  destruct (Z.eqb_spec (Z.land (li_vn_mode (packet w)) PROTOCOL_MASK) NTP_VERSION_4);
    cbn [negb]; [|discriminate].
  destruct (Z.eqb_spec (Z.land (li_vn_mode (packet w)) LEAP_MASK) LEAP_ALARM_CONDITION);
    [discriminate|].
  destruct (Z.ltb_spec 15 (stratum (packet w))); [discriminate|].
  destruct (Z.eqb_spec (stratum (packet w)) 0).
  { destruct (printKissCode _ _) as [[? ?]|]; discriminate. }
  destruct (Z.eqb_spec xmt_bak (org (packet w))); cbn [negb]; [|discriminate].
  intros Hrun. inversion Hrun; subst. repeat split; trivial; lia.
Qed.

(** X14: when [on_wire_exchange] returns true the caller's packet holds a
    reply from a server (mode 4), of the version sent (4), without the leap
    alarm, of stratum 1 to 15 as an unsigned byte reads, whose originate
    timestamp is the transmit timestamp the caller supplied. *)
Theorem accepted_reply_is_valid (h : byte_order) (fuel : nat) (w w' : World) :
  on_wire_exchange h fuel PTR w = Some (true, w') ->
  Z.land (li_vn_mode (packet w')) MODE_MASK = MODE_SERVER
  /\ Z.land (li_vn_mode (packet w')) PROTOCOL_MASK = NTP_VERSION_4
  /\ Z.land (li_vn_mode (packet w')) LEAP_MASK <> LEAP_ALARM_CONDITION
  /\ stratum (packet w') <= 15 /\ stratum (packet w') <> 0
  /\ org (packet w') = xmt (packet w).
Proof.
  rewrite on_wire_exchange_phases.
  destruct (packetExchange _ _ _ _ _) as [[[|] w1]|]; [|discriminate..].
  intros H. apply check_reply_true in H as (-> & H). exact H.
Qed.

Lemma accepted_reply_is_valid_witness :
  Z.land (li_vn_mode (packet (Examples.after_transport Scenarios.reply_at_third_poll)))
         MODE_MASK = MODE_SERVER
  /\ Z.land (li_vn_mode (packet (Examples.after_transport Scenarios.reply_at_third_poll)))
            PROTOCOL_MASK = NTP_VERSION_4
  /\ Z.land (li_vn_mode (packet (Examples.after_transport Scenarios.reply_at_third_poll)))
            LEAP_MASK <> LEAP_ALARM_CONDITION
  /\ stratum (packet (Examples.after_transport Scenarios.reply_at_third_poll)) <= 15
  /\ stratum (packet (Examples.after_transport Scenarios.reply_at_third_poll)) <> 0
  /\ org (packet (Examples.after_transport Scenarios.reply_at_third_poll))
     = xmt (packet Scenarios.reply_at_third_poll).
Proof.
  exact (accepted_reply_is_valid LittleEndian 1024 Scenarios.reply_at_third_poll
           (Examples.after_transport Scenarios.reply_at_third_poll)
           ltac:(vm_compute; reflexivity)).
Defined.

End ExchangeProperties.

(** ** What [printKissCode] prints for a code of its table *)

Section KnownKissCodes.

Import NTPMessageTransport NTPClient.

Lemma kod_table_codes_differ (e1 e2 : string * string) :
  In e1 kod_table -> In e2 kod_table -> c_str (fst e1) = c_str (fst e2) -> e1 = e2.
Proof.
  unfold kod_table. cbn [In]. intros H1 H2 Hc.
  repeat (destruct H1 as [<-|H1]); try contradiction;
    repeat (destruct H2 as [<-|H2]); try contradiction;
    try reflexivity; vm_compute in Hc; discriminate Hc.
Qed.

(** X15: when memory at [code] holds the four characters of a table entry
    and the terminating NUL, [printKissCode] returns true and prints that
    entry's code and message; nothing but the serial port changes. *)
Theorem known_kiss_code_prints_its_message
    (code : Z) (w : World) (entry : string * string) :
  In entry kod_table ->
  read_bytes (memory w) code 5 = Some (c_str (fst entry)) ->
  exists w',
    printKissCode code w = Some (true, w')
    /\ serial w'
       = serial w
         ++ [Println (TStr "Your SNTP client has received a Kiss-o'-Death (KoD) packet from its server.");
             Print (TStr "-- Code: ");
             Println (TStr (fst entry));
             Print (TStr "-- Message: ");
             Println (TStr (snd entry))]
    /\ errno w' = errno w /\ packet w' = packet w /\ datagram w' = datagram w.
Proof.
  intros Hin Hread.
  destruct kod_table_codes as [_ Hcodes]. rewrite Forall_forall in Hcodes.
  assert (Hiff : forall e, In e kod_table ->
            (strcmp (memory w) code (c_str (fst e)) = Some 0
             <-> read_bytes (memory w) code 5 = Some (c_str (fst e)))).
  { intros e He. destruct (Hcodes e He) as [Hlen Hnz].
    unfold c_str. rewrite (strcmp_zero_iff _ _ Hnz), Hlen. reflexivity. }
  assert (Hall : forall e, In e kod_table ->
            exists d, strcmp (memory w) code (c_str (fst e)) = Some d).
  { intros e He. destruct (Hcodes e He) as [Hlen _].
    apply (strcmp_reads_within _ _ _ (c_str (fst entry))). now rewrite Hlen. }
  destruct (kod_search_completes _ _ _ Hall) as [found Hs].
  unfold printKissCode. unfold bind at 1. unfold gets at 1.
  change (firstn TABLE_SIZE kod_table) with kod_table.
  unfold bind at 1. unfold reading at 1. rewrite Hs.
  destruct found as [[c m]|].
  - apply kod_search_Some in Hs as [Hin' Hcmp].
    apply (Hiff _ Hin') in Hcmp. rewrite Hread in Hcmp.
    injection Hcmp as Hcmp.
    pose proof (kod_table_codes_differ _ _ Hin Hin' Hcmp) as ->.
    eexists. split; [reflexivity|].
    cbn [serial with_serial errno packet datagram fst snd].
    rewrite <- !app_assoc. cbn [app]. repeat split; reflexivity.
  - exfalso. apply (kod_search_None _ _ _ Hs entry Hin). now apply Hiff.
Qed.

Lemma known_kiss_code_prints_its_message_witness :
  exists w',
    printKissCode 0x3FFE9000 (Examples.world Examples.DENY_then_NUL []) = Some (true, w')
    /\ serial w'
       = serial (Examples.world Examples.DENY_then_NUL [])
         ++ [Println (TStr "Your SNTP client has received a Kiss-o'-Death (KoD) packet from its server.");
             Print (TStr "-- Code: ");
             Println (TStr (fst ("DENY", "Access denied by remote server.")%string));
             Print (TStr "-- Message: ");
             Println (TStr (snd ("DENY", "Access denied by remote server.")%string))]
    /\ errno w' = errno (Examples.world Examples.DENY_then_NUL [])
    /\ packet w' = packet (Examples.world Examples.DENY_then_NUL [])
    /\ datagram w' = datagram (Examples.world Examples.DENY_then_NUL []).
Proof.
  exact (known_kiss_code_prints_its_message 0x3FFE9000
           (Examples.world Examples.DENY_then_NUL [])
           ("DENY", "Access denied by remote server.")%string
           ltac:(do 5 right; left; reflexivity) ltac:(reflexivity)).
Defined.

End KnownKissCodes.

(** ** What [printKissCode] prints for a code it does not know *)

Section KissCodeProperties.

Import NTPMessageTransport NTPClient.

(** What [strncpy] has copied, read as a C string: the bytes at [p] up to
    the first NUL, [n] of them at most. *)
Lemma strncpy_copies (mem : Z -> option Z) (n : nat) :
  forall (p : Z) (out cs : list Z),
    strncpy mem p n = Some out ->
    cs = upto_nul (out ++ [0]) ->
    read_bytes mem p (length cs) = Some cs
    /\ (length cs <= n)%nat
    /\ Forall (fun b => b <> 0) cs
    /\ (length cs = n \/ mem (p + Z.of_nat (length cs)) = Some 0).
Proof.
  induction n as [|n IH]; intros p out cs; cbn [strncpy].
  - intros H ->. injection H as <-. cbn. repeat split; auto.
  - destruct (mem p) as [b|] eqn:Hb; [|discriminate].
    destruct (Z.eqb_spec b 0) as [E|E].
    + intros H ->. injection H as <-.
      cbn [repeat app upto_nul Z.eqb length read_bytes].
      repeat split; [lia | constructor |]. right.
      rewrite Z.add_0_r, Hb, E. reflexivity.
    + destruct (strncpy mem (p + 1) n) as [out'|] eqn:Hs; [|discriminate].
      cbn [option_map]. intros H ->. injection H as <-.
      destruct (IH (p + 1) out' _ Hs eq_refl) as (Hread & Hlen & Hnz & Hend).
      cbn [app upto_nul]. destruct (Z.eqb_spec b 0); [contradiction|].
      cbn [length]. rewrite read_bytes_succ, Hb, Hread.
      repeat split; [lia | now constructor |].
      destruct Hend as [Hend|Hend]; [left; lia|]. right.
      rewrite <- Hend. f_equal. lia.
Qed.

(** X16: for a code it does not recognise, [printKissCode] prints the
    characters at [code] up to the first NUL and never more than four of
    them, even when no NUL follows; it writes to the serial port only. *)
Theorem unknown_kiss_code_prints_at_most_four_characters
    (code : Z) (w w' : World) :
  printKissCode code w = Some (false, w') ->
  exists cs,
    serial w'
    = serial w
      ++ [Println (TStr "Your SNTP client has received a Kiss-o'-Death (KoD) packet from its server, but the code is unknown.");
          Print (TStr "-- Unknown code: ");
          Println (TCStr cs)]
    /\ read_bytes (memory w) code (length cs) = Some cs
    /\ (length cs <= 4)%nat /\ Forall (fun b => b <> 0) cs
    /\ (length cs = 4%nat \/ memory w (code + Z.of_nat (length cs)) = Some 0)
    /\ errno w' = errno w /\ packet w' = packet w /\ datagram w' = datagram w.
Proof.
  unfold printKissCode. unfold bind at 1. unfold gets at 1.
  unfold bind at 1. unfold reading at 1.
  destruct (kod_search _ _ _) as [[[c m]|]|]; [| |discriminate].
  - unfold bind, Serial_print, Serial_println, modify, ret. discriminate.
  - unfold bind at 1. unfold Serial_println at 1. unfold modify at 1.
    unfold bind at 1. unfold reading at 1. cbn [memory with_serial].
    destruct (strncpy (memory w) code 4) as [out|] eqn:Hs; [|discriminate].
    cbv zeta.
    remember (upto_nul (out ++ [0])) as cs eqn:Ecs.
    destruct (strncpy_copies _ _ _ _ _ Hs Ecs) as (Hread & Hlen & Hnz & Hend).
    unfold bind, Serial_print, Serial_println, modify, ret.
    intros H. injection H as Hw. subst w'.
    cbn [serial with_serial errno packet datagram].
    exists cs. rewrite <- !app_assoc. cbn [app].
    repeat split; assumption.
Qed.

Lemma unknown_kiss_code_prints_at_most_four_characters_witness :
  exists cs,
    serial (Scenarios.after_kiss_code 0x3FFE9000
              (Examples.world Examples.DENY_then_E5 []))
    = serial (Examples.world Examples.DENY_then_E5 [])
      ++ [Println (TStr "Your SNTP client has received a Kiss-o'-Death (KoD) packet from its server, but the code is unknown.");
          Print (TStr "-- Unknown code: ");
          Println (TCStr cs)]
    /\ read_bytes (memory (Examples.world Examples.DENY_then_E5 []))
                  0x3FFE9000 (length cs) = Some cs
    /\ (length cs <= 4)%nat /\ Forall (fun b => b <> 0) cs
    /\ (length cs = 4%nat
        \/ memory (Examples.world Examples.DENY_then_E5 [])
                  (0x3FFE9000 + Z.of_nat (length cs)) = Some 0)
    /\ errno (Scenarios.after_kiss_code 0x3FFE9000
                (Examples.world Examples.DENY_then_E5 []))
       = errno (Examples.world Examples.DENY_then_E5 [])
    /\ packet (Scenarios.after_kiss_code 0x3FFE9000
                 (Examples.world Examples.DENY_then_E5 []))
       = packet (Examples.world Examples.DENY_then_E5 [])
    /\ datagram (Scenarios.after_kiss_code 0x3FFE9000
                   (Examples.world Examples.DENY_then_E5 []))
       = datagram (Examples.world Examples.DENY_then_E5 []).
Proof.
  exact (unknown_kiss_code_prints_at_most_four_characters 0x3FFE9000
           (Examples.world Examples.DENY_then_E5 [])
           (Scenarios.after_kiss_code 0x3FFE9000
              (Examples.world Examples.DENY_then_E5 []))
           ltac:(reflexivity)).
Defined.

End KissCodeProperties.

(** ** Rounding in binary64: the sleep of [time] *)

Section Binary64.

Lemma digits2_pos_bounds (m : positive) :
  2 ^ (Zpos (digits2_pos m) - 1) <= Zpos m < 2 ^ Zpos (digits2_pos m).
Proof.
  assert (Hsucc : forall d : positive,
             2 ^ (Zpos (Pos.succ d) - 1) = 2 * 2 ^ (Zpos d - 1)
             /\ 2 ^ Zpos (Pos.succ d) = 2 * 2 ^ Zpos d).
  { intros d. rewrite Pos2Z.inj_succ. split.
    - replace (Z.succ (Zpos d) - 1) with (Z.succ (Zpos d - 1)) by lia.
      apply Z.pow_succ_r. lia.
    - apply Z.pow_succ_r. lia. }
  induction m as [p IH|p IH|]; cbn [digits2_pos].
  - destruct (Hsucc (digits2_pos p)) as [-> ->]. change (Zpos p~1) with (2 * Zpos p + 1).
    revert IH. generalize (2 ^ (Z.pos (digits2_pos p) - 1)) (2 ^ Z.pos (digits2_pos p)).
    intros; lia.
  - destruct (Hsucc (digits2_pos p)) as [-> ->]. change (Zpos p~0) with (2 * Zpos p).
    revert IH. generalize (2 ^ (Z.pos (digits2_pos p) - 1)) (2 ^ Z.pos (digits2_pos p)).
    intros; lia.
  - split; [apply Z.leb_le | apply Z.ltb_lt]; reflexivity.
Qed.

Lemma shr_1_spec (m : Z) (r s : bool) :
  0 <= m ->
  shr_1 {| shr_m := m; shr_r := r; shr_s := s |}
  = {| shr_m := m / 2; shr_r := Z.odd m; shr_s := r || s |}.
Proof.
  intros Hm. destruct m as [|[p|p|]|]; cbn [shr_1]; try lia.
  - reflexivity.
  - f_equal. change (Zpos p~1) with (2 * Zpos p + 1). apply (Z.div_unique _ _ _ 1); lia.
  - f_equal. change (Zpos p~0) with (2 * Zpos p). apply (Z.div_unique _ _ _ 0); lia.
  - reflexivity.
Qed.

Lemma shr_rel_one (a : shr_record) : 0 <= shr_m a -> shr_rel 1 a (shr_1 a).
Proof.
  destruct a as [m r s]. cbn [shr_m]. intros Hm. rewrite (shr_1_spec m r s Hm).
  unfold shr_rel. cbn [shr_m shr_r shr_s]. change (2 ^ 1) with 2. split; [reflexivity|].
  split.
  - intros H. apply orb_false_iff in H as [Ho Hrs]. split; [exact Hrs|].
    rewrite Zmod_odd, Ho. reflexivity.
  - intros [Hrs H0]. rewrite Zmod_odd in H0.
    destruct (Z.odd m); [discriminate|]. exact Hrs.
Qed.

Lemma shr_rel_trans (j k : Z) (a b c : shr_record) :
  0 < j -> 0 < k -> 0 <= shr_m a ->
  shr_rel j a b -> shr_rel k b c -> shr_rel (j + k) a c.
Proof.
  intros Hj Hk Ha [Hm1 Hf1] [Hm2 Hf2]. unfold shr_rel.
  rewrite Z.pow_add_r by lia. split.
  - rewrite Hm2, Hm1, Z.div_div by (try apply Z.pow_pos_nonneg; lia). reflexivity.
  - rewrite Hf2, Hf1, Hm1.
    rewrite (Z.rem_mul_r (shr_m a) (2 ^ j) (2 ^ k))
      by (try apply Z.pow_pos_nonneg; try (apply Z.pow_nonzero); lia).
    pose proof (Z.mod_pos_bound (shr_m a) (2 ^ j) ltac:(apply Z.pow_pos_nonneg; lia)) as B1.
    pose proof (Z.mod_pos_bound (shr_m a / 2 ^ j) (2 ^ k) ltac:(apply Z.pow_pos_nonneg; lia))
      as B2.
    pose proof (Z.pow_pos_nonneg 2 j ltac:(lia) ltac:(lia)) as B3.
    split.
    + intros [[Hrs E0] E1]. split; [exact Hrs|]. rewrite E0, E1. lia.
    + intros [Hrs E0]. repeat split; [exact Hrs | nia | nia].
Qed.

Lemma shr_rel_nonneg (k : Z) (a b : shr_record) :
  0 <= k -> 0 <= shr_m a -> shr_rel k a b -> 0 <= shr_m b.
Proof.
  intros Hk Ha [Hm _]. rewrite Hm. apply Z.div_pos; [exact Ha|].
  apply Z.pow_pos_nonneg; lia.
Qed.

Lemma iter_pos_shr (p : positive) :
  forall a, 0 <= shr_m a -> shr_rel (Zpos p) a (SpecFloat.iter_pos shr_1 p a).
Proof.
  induction p as [p IH|p IH|]; intros a Ha; cbn [SpecFloat.iter_pos].
  - pose proof (shr_rel_one a Ha) as H1.
    assert (Hb : 0 <= shr_m (shr_1 a)) by (apply (shr_rel_nonneg 1 a); [lia | exact Ha | exact H1]).
    pose proof (IH _ Hb) as H2.
    assert (Hc : 0 <= shr_m (SpecFloat.iter_pos shr_1 p (shr_1 a)))
      by (apply (shr_rel_nonneg (Zpos p) (shr_1 a)); [lia | exact Hb | exact H2]).
    pose proof (IH _ Hc) as H3.
    replace (Zpos p~1) with (1 + (Zpos p + Zpos p)) by lia.
    apply (shr_rel_trans 1 (Zpos p + Zpos p) a (shr_1 a)); [lia | lia | exact Ha | exact H1 |].
    apply (shr_rel_trans (Zpos p) (Zpos p) (shr_1 a) (SpecFloat.iter_pos shr_1 p (shr_1 a)));
      [lia | lia | exact Hb | exact H2 | exact H3].
  - pose proof (IH _ Ha) as H2.
    assert (Hc : 0 <= shr_m (SpecFloat.iter_pos shr_1 p a))
      by (apply (shr_rel_nonneg (Zpos p) a); [lia | exact Ha | exact H2]).
    pose proof (IH _ Hc) as H3.
    replace (Zpos p~0) with (Zpos p + Zpos p) by lia.
    apply (shr_rel_trans (Zpos p) (Zpos p) a (SpecFloat.iter_pos shr_1 p a));
      [lia | lia | exact Ha | exact H2 | exact H3].
  - exact (shr_rel_one a Ha).
Qed.

Lemma binary_round_aux_unfold (sx : bool) (mx ex : Z) (lx : location) :
  binary_round_aux prec emax sx mx ex lx
  = pack_rounded sx
      (round_nearest_even (shr_m (fst (shr_fexp prec emax mx ex lx)))
                          (loc_of_shr_record (fst (shr_fexp prec emax mx ex lx))))
      (snd (shr_fexp prec emax mx ex lx)).
Proof.
  unfold binary_round_aux, pack_rounded.
  destruct (shr_fexp prec emax mx ex lx) as [mrs e]. reflexivity.
Qed.

Lemma fexp_value (e : Z) : fexp prec emax e = Z.max (e - 53) (-1074).
Proof. reflexivity. Qed.

Lemma pow2_pos (n : Z) : 0 <= n -> 0 < 2 ^ n.
Proof. intros. apply Z.pow_pos_nonneg; lia. Qed.

Lemma mag_digits (m : positive) (e K : Z) :
  0 < K < 2 ^ 53 -> mag_le (Zpos m) e K -> Zpos (digits2_pos m) + e <= 53.
Proof.
  intros HK Hle. destruct (digits2_pos_bounds m) as [Hd _].
  set (d := Zpos (digits2_pos m)) in *.
  destruct (Z.le_gt_cases (d + e) 53) as [|Hbig]; [assumption|exfalso].
  unfold mag_le in Hle.
  destruct (Z.le_gt_cases 0 e) as [He|He].
  - rewrite (Z.max_r 0 e), (Z.max_l 0 (- e)) in Hle by lia.
    change (2 ^ 0) with 1 in Hle.
    assert (2 ^ 53 <= 2 ^ (d - 1) * 2 ^ e).
    { rewrite <- Z.pow_add_r by lia. apply Z.pow_le_mono_r; lia. }
    pose proof (pow2_pos e He). nia.
  - rewrite (Z.max_l 0 e), (Z.max_r 0 (- e)) in Hle by lia.
    change (2 ^ 0) with 1 in Hle.
    assert (2 ^ 53 * 2 ^ (- e) <= 2 ^ (d - 1)).
    { rewrite <- Z.pow_add_r by lia. apply Z.pow_le_mono_r; lia. }
    pose proof (pow2_pos (- e) ltac:(lia)). nia.
Qed.

Lemma pack_rounded_le (K : Z) (sx : bool) (r e : Z) :
  0 < K < 2 ^ 53 -> 0 <= r -> -1074 <= e -> mag_le r e K ->
  SF_le K sx (pack_rounded sx r e).
Proof.
  intros HK Hr He Hle. unfold pack_rounded, shr_fexp.
  cbn [shr_record_of_loc]. rewrite fexp_value.
  destruct r as [|q|q]; [| |lia].
  - cbn [Zdigits2]. unfold shr.
    destruct (Z.max (0 + e - 53) (-1074) - e) as [|p|p] eqn:Hn; [exact I|lia|exact I].
  - cbn [Zdigits2].
    pose proof (mag_digits q e K HK Hle) as Hd.
    set (d := Zpos (digits2_pos q)) in *.
    unfold shr.
    destruct (Z.max (d + e - 53) (-1074) - e) as [|p|p] eqn:Hn.
    + cbn [shr_m]. destruct (Z.leb_spec e (emax - prec)) as [_|Hbig];
        [|unfold emax, prec in Hbig; pose proof (Pos2Z.is_pos (digits2_pos q)); lia].
      split; [reflexivity | exact Hle].
    + pose proof (iter_pos_shr p {| shr_m := Zpos q; shr_r := false; shr_s := false |}
                    ltac:(cbn; lia)) as [Hm _].
      cbn [shr_m] in Hm.
      destruct (SpecFloat.iter_pos shr_1 p _) as [m2 r2 s2]. cbn [shr_m] in *.
      assert (He2 : e + Zpos p <= 0) by lia.
      assert (Hneg : e < 0) by lia.
      unfold mag_le in Hle.
      rewrite (Z.max_l 0 e), (Z.max_r 0 (- e)) in Hle by lia.
      change (2 ^ 0) with 1 in Hle.
      assert (Hm2 : 0 <= m2 <= K * 2 ^ (- (e + Zpos p))).
      { rewrite Hm. split; [apply Z.div_pos; [lia | apply pow2_pos; lia]|].
        apply Z.div_le_upper_bound; [apply pow2_pos; lia|].
        replace (2 ^ Zpos p * (K * 2 ^ (- (e + Zpos p)))) with (K * 2 ^ (- e)); [lia|].
        replace (- e) with (Zpos p + - (e + Zpos p)) at 1 by lia.
        rewrite Z.pow_add_r by lia. ring. }
      destruct m2 as [|m|m]; [exact I| |lia].
      destruct (Z.leb_spec (e + Zpos p) (emax - prec)) as [_|Hbig];
        [|unfold emax, prec in Hbig; lia].
      split; [reflexivity|]. unfold mag_le.
      rewrite (Z.max_l 0 (e + Zpos p)), (Z.max_r 0 (- (e + Zpos p))) by lia.
      change (2 ^ 0) with 1. lia.
    + cbn [shr_m]. destruct (Z.leb_spec e (emax - prec)) as [_|Hbig];
        [|unfold emax, prec in Hbig; pose proof (Pos2Z.is_pos (digits2_pos q)); lia].
      split; [reflexivity | exact Hle].
Qed.

Lemma round_nearest_even_bound (m1 mx Kb : Z) (p : positive) (r s : bool) :
  0 <= mx <= Kb * 2 ^ Zpos p ->
  m1 = mx / 2 ^ Zpos p ->
  (r || s = false <-> (false || false = false /\ mx mod 2 ^ Zpos p = 0)) ->
  0 <= round_nearest_even m1
         (loc_of_shr_record {| shr_m := m1; shr_r := r; shr_s := s |}) <= Kb.
Proof.
  intros Hmx Hm1 Hflags.
  pose proof (pow2_pos (Zpos p) ltac:(lia)) as Hp.
  pose proof (Z.div_mod mx (2 ^ Zpos p) ltac:(lia)) as Hdm.
  pose proof (Z.mod_pos_bound mx (2 ^ Zpos p) Hp) as Hrem.
  rewrite <- Hm1 in Hdm.
  assert (H0 : 0 <= m1) by (rewrite Hm1; apply Z.div_pos; lia).
  assert (Hle : m1 <= Kb) by nia.
  assert (Hlt : r || s = true -> m1 < Kb).
  { intros Hrs. destruct (Z.eq_dec (mx mod 2 ^ Zpos p) 0) as [E|E].
    - rewrite (proj2 Hflags (conj eq_refl E)) in Hrs. discriminate.
    - nia. }
  destruct r, s; cbn [loc_of_shr_record round_nearest_even orb] in *;
    try destruct (Z.even m1); try specialize (Hlt eq_refl); lia.
Qed.

(** Rounding a positive value of magnitude at most [K] gives a value of
    magnitude at most [K], of the same sign, or a zero. *)
Lemma binary_round_aux_le (K : Z) (sx : bool) (mx : positive) (ex : Z) :
  0 < K < 2 ^ 53 -> mag_le (Zpos mx) ex K ->
  SF_le K sx (binary_round_aux prec emax sx (Zpos mx) ex loc_Exact).
Proof.
  intros HK Hle. rewrite binary_round_aux_unfold.
  unfold shr_fexp. cbn [shr_record_of_loc Zdigits2]. rewrite fexp_value.
  pose proof (mag_digits mx ex K HK Hle) as Hd.
  set (d := Zpos (digits2_pos mx)) in *.
  unfold shr.
  destruct (Z.max (d + ex - 53) (-1074) - ex) as [|p|p] eqn:Hn.
  - cbn [fst snd shr_m loc_of_shr_record round_nearest_even].
    apply pack_rounded_le; [exact HK | lia | lia | exact Hle].
  - cbn [fst snd].
    pose proof (iter_pos_shr p {| shr_m := Zpos mx; shr_r := false; shr_s := false |}
                  ltac:(cbn; lia)) as [Hm Hf].
    cbn [shr_m shr_r shr_s] in Hm, Hf.
    destruct (SpecFloat.iter_pos shr_1 p _) as [m1 r1 s1]. cbn [shr_m shr_r shr_s] in *.
    assert (He1 : ex + Zpos p <= 0) by lia.
    assert (Hneg : ex < 0) by lia.
    unfold mag_le in Hle.
    rewrite (Z.max_l 0 ex), (Z.max_r 0 (- ex)) in Hle by lia.
    change (2 ^ 0) with 1 in Hle.
    assert (Hmx : 0 <= Zpos mx <= K * 2 ^ (- (ex + Zpos p)) * 2 ^ Zpos p).
    { split; [lia|].
      replace (K * 2 ^ (- (ex + Zpos p)) * 2 ^ Zpos p) with (K * 2 ^ (- ex)); [lia|].
      replace (- ex) with (- (ex + Zpos p) + Zpos p) at 1 by lia.
      rewrite Z.pow_add_r by lia. ring. }
    pose proof (round_nearest_even_bound m1 (Zpos mx) _ p r1 s1 Hmx Hm Hf) as Hr.
    apply pack_rounded_le; [exact HK | lia | lia |].
    unfold mag_le.
    rewrite (Z.max_l 0 (ex + Zpos p)), (Z.max_r 0 (- (ex + Zpos p))) by lia.
    change (2 ^ 0) with 1. lia.
  - cbn [fst snd shr_m loc_of_shr_record round_nearest_even].
    apply pack_rounded_le; [exact HK | lia | lia | exact Hle].
Qed.

(** [mag_le] through a common scale. *)
Lemma mag_le_iff (m e K n : Z) :
  0 <= n -> 0 <= n + e ->
  (mag_le m e K <-> m * 2 ^ (n + e) <= K * 2 ^ n).
Proof.
  intros Hn Hne. unfold mag_le.
  destruct (Z.le_gt_cases 0 e) as [He|He].
  - rewrite (Z.max_r 0 e), (Z.max_l 0 (- e)) by lia. change (2 ^ 0) with 1.
    rewrite Z.pow_add_r by lia. pose proof (pow2_pos n Hn). split; intros; nia.
  - rewrite (Z.max_l 0 e), (Z.max_r 0 (- e)) by lia. change (2 ^ 0) with 1.
    replace n with ((n + e) + - e) at 2 by lia.
    rewrite (Z.pow_add_r 2 (n + e) (- e)) by lia.
    pose proof (pow2_pos (n + e) Hne). split; intros; nia.
Qed.

Lemma mag_le_mul (a b e1 e2 K1 K2 : Z) :
  0 <= a -> 0 <= b -> 0 <= K1 ->
  mag_le a e1 K1 -> mag_le b e2 K2 -> mag_le (a * b) (e1 + e2) (K1 * K2).
Proof.
  intros Ha Hb HK1 H1 H2.
  set (n1 := Z.max 0 (- e1)). set (n2 := Z.max 0 (- e2)).
  apply (mag_le_iff a e1 K1 n1) in H1; [|lia..].
  apply (mag_le_iff b e2 K2 n2) in H2; [|lia..].
  apply (mag_le_iff (a * b) (e1 + e2) (K1 * K2) (n1 + n2)); [lia..|].
  replace (n1 + n2 + (e1 + e2)) with ((n1 + e1) + (n2 + e2)) by lia.
  rewrite (Z.pow_add_r 2 (n1 + e1) (n2 + e2)), (Z.pow_add_r 2 n1 n2) by lia.
  pose proof (pow2_pos (n1 + e1) ltac:(lia)). pose proof (pow2_pos (n2 + e2) ltac:(lia)).
  pose proof (pow2_pos n1 ltac:(lia)). pose proof (pow2_pos n2 ltac:(lia)).
  assert (0 <= a * 2 ^ (n1 + e1)) by nia.
  assert (0 <= b * 2 ^ (n2 + e2)) by nia.
  replace (a * b * (2 ^ (n1 + e1) * 2 ^ (n2 + e2)))
    with (a * 2 ^ (n1 + e1) * (b * 2 ^ (n2 + e2))) by ring.
  replace (K1 * K2 * (2 ^ n1 * 2 ^ n2)) with (K1 * 2 ^ n1 * (K2 * 2 ^ n2)) by ring.
  apply Z.mul_le_mono_nonneg; lia.
Qed.

Lemma Pos_iter_xO (m d : positive) : Zpos (Pos.iter xO m d) = Zpos m * 2 ^ Zpos d.
Proof.
  induction d as [|d IH] using Pos.peano_ind.
  - cbn [Pos.iter]. change (Zpos m~0) with (2 * Zpos m). change (2 ^ 1) with 2. lia.
  - rewrite Pos.iter_succ, Pos2Z.inj_succ, Z.pow_succ_r by lia.
    change (Zpos (Pos.iter xO m d)~0) with (2 * Zpos (Pos.iter xO m d)). lia.
Qed.

Lemma digits2_pos_iter_xO (m d : positive) :
  Zpos (digits2_pos (Pos.iter xO m d)) = Zpos (digits2_pos m) + Zpos d.
Proof.
  induction d as [|d IH] using Pos.peano_ind.
  - cbn [Pos.iter digits2_pos]. lia.
  - rewrite Pos.iter_succ. cbn [digits2_pos]. lia.
Qed.

(** [shl_align] changes the representation, not the value. *)
Lemma shl_align_spec (mx : positive) (ex ex' : Z) :
  exists k, 0 <= k
    /\ Zpos (fst (shl_align mx ex ex')) = Zpos mx * 2 ^ k
    /\ snd (shl_align mx ex ex') = ex - k
    /\ k = Z.max 0 (ex - ex')
    /\ Zpos (digits2_pos (fst (shl_align mx ex ex'))) = Zpos (digits2_pos mx) + k.
Proof.
  unfold shl_align. destruct (ex' - ex) as [|d|d] eqn:E; cbn [fst snd].
  - exists 0. rewrite Z.mul_1_r. repeat split; lia.
  - exists 0. rewrite Z.mul_1_r. repeat split; lia.
  - exists (Zpos d). rewrite Pos_iter_xO, digits2_pos_iter_xO. repeat split; lia.
Qed.

Lemma mag_le_shift (m e K k : Z) :
  0 <= k -> (mag_le m e K <-> mag_le (m * 2 ^ k) (e - k) K).
Proof.
  intros Hk. set (n := Z.max 0 (k - e)).
  rewrite (mag_le_iff m e K n), (mag_le_iff (m * 2 ^ k) (e - k) K n) by lia.
  replace (n + e) with (k + (n + (e - k))) by lia.
  rewrite (Z.pow_add_r 2 k) by lia.
  split; intros; lia.
Qed.

Lemma binary_round_le (K : Z) (sx : bool) (mx : positive) (ex : Z) :
  0 < K < 2 ^ 53 -> mag_le (Zpos mx) ex K ->
  SF_le K sx (binary_round prec emax sx mx ex).
Proof.
  intros HK Hle. unfold binary_round.
  destruct (shl_align_spec mx ex (fexp prec emax (Zpos (digits2_pos mx) + ex)))
    as (k & Hk & Hm & He & _).
  destruct (shl_align mx ex _) as [mz ez]. cbn [fst snd] in Hm, He.
  apply binary_round_aux_le; [exact HK|].
  rewrite Hm, He. apply mag_le_shift; assumption.
Qed.

Lemma binary_normalize_le (K M e : Z) :
  0 < K < 2 ^ 53 -> mag_le (Z.abs M) e K ->
  SF_le K (M <? 0) (binary_normalize prec emax M e false).
Proof.
  intros HK Hle. destruct M as [|m|m]; cbn [binary_normalize Z.abs] in *.
  - exact I.
  - apply binary_round_le; assumption.
  - apply binary_round_le; assumption.
Qed.

(** A positive integer below 2^53 is rounded to itself. *)
Lemma binary_round_int (sx : bool) (z : positive) :
  Zpos z < 2 ^ 53 ->
  exists m e, binary_round prec emax sx z 0 = S754_finite sx m e
              /\ e <= 0 /\ Zpos m = Zpos z * 2 ^ (- e).
Proof.
  intros Hz. destruct (digits2_pos_bounds z) as [Hd _].
  assert (Hd53 : Zpos (digits2_pos z) <= 53).
  { destruct (Z.le_gt_cases (Zpos (digits2_pos z)) 53) as [|Hbig]; [assumption|exfalso].
    assert (2 ^ 53 <= 2 ^ (Zpos (digits2_pos z) - 1)) by (apply Z.pow_le_mono_r; lia).
    lia. }
  unfold binary_round.
  destruct (shl_align_spec z 0 (fexp prec emax (Zpos (digits2_pos z) + 0)))
    as (k & Hk & Hm & He & Hkv & Hdz).
  rewrite fexp_value in Hkv.
  destruct (shl_align z 0 _) as [mz ez]. cbn [fst snd] in Hm, He, Hdz.
  exists mz, ez.
  rewrite binary_round_aux_unfold. unfold shr_fexp.
  cbn [shr_record_of_loc Zdigits2]. rewrite fexp_value, Hdz.
  replace (Z.max (Zpos (digits2_pos z) + k + ez - 53) (-1074) - ez) with 0 by lia.
  cbn [shr fst snd shr_m loc_of_shr_record round_nearest_even].
  unfold pack_rounded, shr_fexp. cbn [shr_record_of_loc Zdigits2].
  rewrite fexp_value, Hdz.
  replace (Z.max (Zpos (digits2_pos z) + k + ez - 53) (-1074) - ez) with 0 by lia.
  cbn [shr shr_m].
  destruct (Z.leb_spec ez (emax - prec)) as [_|Hbig]; [|unfold emax, prec in Hbig; lia].
  split; [reflexivity|]. split; [lia|]. rewrite Hm. f_equal. f_equal. lia.
Qed.

(** What [double_of_Z] gives for an integer below 2^53: the integer. *)
Lemma double_of_Z_spec (z : Z) :
  Z.abs z < 2 ^ 53 ->
  match Prim2SF (double_of_Z z) with
  | S754_zero _ => z = 0
  | S754_finite s m e => s = (z <? 0) /\ e <= 0 /\ Zpos m = Z.abs z * 2 ^ (- e)
  | _ => False
  end.
Proof.
  intros Hz.
  assert (Hto : forall p : positive, Zpos p < 2 ^ 53 ->
                  Uint63.to_Z (Uint63.of_Z (Zpos p)) = Zpos p).
  { intros p Hp. rewrite Uint63.of_Z_spec. apply Z.mod_small.
    change Uint63.wB with (2 ^ 63). split; [lia|].
    apply (Z.lt_trans _ (2 ^ 53)); [exact Hp | reflexivity]. }
  destruct z as [|p|p]; cbn [double_of_Z Z.abs] in *.
  - reflexivity.
  - rewrite FloatAxioms.of_uint63_spec, (Hto p Hz). cbn [binary_normalize].
    destruct (binary_round_int false p Hz) as (m & e & -> & He & Hm).
    repeat split; assumption.
  - rewrite FloatAxioms.opp_spec, FloatAxioms.of_uint63_spec, (Hto p Hz). cbn [binary_normalize].
    destruct (binary_round_int false p Hz) as (m & e & -> & He & Hm).
    cbn [SFopp negb]. repeat split; assumption.
Qed.

Lemma SF_le_within (K : Z) (s : bool) (x : spec_float) : SF_le K s x -> SF_within K x.
Proof. destruct x; cbn; tauto. Qed.

(** The mantissa of a double has at most 53 bits. *)
Lemma finite_double (x : float) (s : bool) (m : positive) (e : Z) :
  Prim2SF x = S754_finite s m e ->
  Zpos m < 2 ^ 53 /\ -1074 <= e <= 971.
Proof.
  intros Hx. pose proof (Prim2SF_valid x) as Hv. rewrite Hx in Hv.
  cbn [valid_binary] in Hv. unfold bounded, canonical_mantissa in Hv.
  apply andb_prop in Hv as [Hc He]. apply Z.eqb_eq in Hc. apply Z.leb_le in He.
  rewrite fexp_value in Hc. unfold emax, prec in He.
  destruct (digits2_pos_bounds m) as [_ Hd].
  assert (Zpos (digits2_pos m) <= 53) by lia.
  assert (2 ^ Zpos (digits2_pos m) <= 2 ^ 53) by (apply Z.pow_le_mono_r; lia).
  lia.
Qed.

(** The fraction of a finite double keeps its sign. *)
Lemma modf_fraction_signed (u : float) (s : bool) (m : positive) (e : Z) :
  Prim2SF u = S754_finite s m e -> SF_le 1 s (Prim2SF (fst (modf u))).
Proof.
  intros Hu. unfold modf. rewrite Hu.
  destruct (Z.leb_spec 0 e) as [He|He]; cbn [fst].
  { destruct s; vm_compute; exact I. }
  destruct (finite_double u s m e Hu) as [Hm53 _].
  pose proof (pow2_pos (- e) ltac:(lia)) as Hpa.
  pose proof (Z.div_mod (Zpos m) (2 ^ (- e)) ltac:(lia)) as Hdm.
  pose proof (Z.mod_pos_bound (Zpos m) (2 ^ (- e)) Hpa) as Hrem.
  set (q := Zpos m / 2 ^ (- e)) in *. set (r := Zpos m mod 2 ^ (- e)) in *.
  assert (Hq : 0 <= q <= Zpos m) by nia.
  assert (Hz : double_to_Z u = if s then - q else q).
  { unfold double_to_Z. rewrite Hu.
    destruct (Z.leb_spec 0 e); [lia|]. reflexivity. }
  rewrite FloatAxioms.sub_spec, Hu, Hz.
  pose proof (double_of_Z_spec (if s then - q else q) ltac:(destruct s; lia)) as HI.
  destruct (Prim2SF (double_of_Z (if s then - q else q))) as [sI|sI| |sI mI eI];
    [| destruct HI | destruct HI |].
  - assert (q = 0) by (destruct s; lia).
    cbn [SF64sub SFsub SF_le]. split; [reflexivity|]. unfold mag_le.
    rewrite (Z.max_l 0 e), (Z.max_r 0 (- e)) by lia. change (2 ^ 0) with 1. nia.
  - destruct HI as (HsI & HeI & HmI).
    assert (Hq0 : 0 < q).
    { destruct (Z.eq_dec q 0) as [E|E]; [|lia]. rewrite E in HmI.
      destruct s; cbn in HmI; lia. }
    assert (HsI' : sI = s).
    { rewrite HsI. destruct s; [apply Z.ltb_lt | apply Z.ltb_ge]; lia. }
    assert (HmI' : Zpos mI = q * 2 ^ (- eI)).
    { rewrite HmI. f_equal. destruct s; lia. }
    clear HsI. subst sI. cbn [SF64sub SFsub].
    set (ez := Z.min e eI).
    destruct (shl_align_spec m e ez) as (k1 & Hk1 & HX & _ & Hk1v & _).
    destruct (shl_align_spec mI eI ez) as (k2 & Hk2 & HY & _ & Hk2v & _).
    rewrite HX, HY, HmI'.
    assert (Hk1e : k1 = e - ez) by lia. assert (Hk2e : k2 = eI - ez) by lia.
    assert (Hpow : 2 ^ (- eI) * 2 ^ k2 = 2 ^ (- e) * 2 ^ k1).
    { rewrite <- !Z.pow_add_r by lia. f_equal. lia. }
    assert (HD : Zpos m * 2 ^ k1 - q * 2 ^ (- eI) * 2 ^ k2 = r * 2 ^ k1).
    { rewrite <- Z.mul_assoc, Hpow. rewrite Hdm at 1. ring. }
    pose proof (pow2_pos k1 Hk1) as Hpk.
    set (M := cond_Zopp s (Zpos m * 2 ^ k1) - cond_Zopp s (q * 2 ^ (- eI) * 2 ^ k2)).
    assert (HM : M = cond_Zopp s (r * 2 ^ k1)).
    { unfold M. destruct s; cbn [cond_Zopp]; lia. }
    assert (Hle : mag_le (Z.abs M) ez 1).
    { assert (Habs : Z.abs M = r * 2 ^ k1) by (rewrite HM; destruct s; cbn [cond_Zopp]; nia).
      rewrite Habs. unfold mag_le.
      rewrite (Z.max_l 0 ez), (Z.max_r 0 (- ez)) by lia. change (2 ^ 0) with 1.
      replace (- ez) with (- e + k1) by lia. rewrite Z.pow_add_r by lia. nia. }
    pose proof (binary_normalize_le 1 M ez ltac:(split; reflexivity) Hle) as Hn.
    destruct (Z.eq_dec M 0) as [E|E].
    + rewrite E. exact I.
    + assert (Hs : (M <? 0) = s).
      { rewrite HM in *. destruct s; cbn [cond_Zopp] in *;
          [apply Z.ltb_lt | apply Z.ltb_ge]; nia. }
      now rewrite Hs in Hn.
Qed.

Lemma modf_fraction_within (u : float) : SF_within 1 (Prim2SF (fst (modf u))).
Proof.
  destruct (Prim2SF u) as [s|s| |s m e] eqn:Hu.
  - unfold modf. rewrite Hu. cbn [fst]. now rewrite Hu.
  - unfold modf. rewrite Hu. cbn [fst]. destruct s; vm_compute; exact I.
  - unfold modf. rewrite Hu. cbn [fst]. now rewrite Hu.
  - exact (SF_le_within 1 s _ (modf_fraction_signed u s m e Hu)).
Qed.

Lemma Prim2SF_1000 : Prim2SF 1000 = S754_finite false 8796093022208000 (-43).
Proof. vm_compute. reflexivity. Qed.

Lemma mag_le_1000 : mag_le 8796093022208000 (-43) 1000.
Proof. vm_compute. discriminate. Qed.

(** Scaling a fraction by [1e3]. *)
Lemma scaled_fraction_within (f : float) :
  SF_within 1 (Prim2SF f) -> SF_within 1000 (Prim2SF (f * 1000)).
Proof.
  intros Hf. rewrite FloatAxioms.mul_spec, Prim2SF_1000.
  destruct (Prim2SF f) as [s|s| |s m e]; cbn [SF64mul SFmul SF_within] in *;
    try exact I; try contradiction.
  apply (SF_le_within 1000 (xorb s false)).
  apply binary_round_aux_le; [lia|].
  change 1000 with (1 * 1000). rewrite Pos2Z.inj_mul.
  apply mag_le_mul; try lia; [assumption | exact mag_le_1000].
Qed.

(** [1e3 - g] for a [g] of magnitude at most [1e3]. *)
Lemma remainder_within (g : float) :
  SF_within 1000 (Prim2SF g) -> SF_nonneg_within 2000 (Prim2SF (1000 - g)).
Proof.
  intros Hg. rewrite FloatAxioms.sub_spec, Prim2SF_1000.
  destruct (Prim2SF g) as [s|s| |s m e]; cbn [SF64sub SFsub SF_within SF_nonneg_within] in *;
    try exact I; try contradiction.
  - split; [reflexivity | vm_compute; discriminate].
  - set (ez := Z.min (-43) e).
    destruct (shl_align_spec 8796093022208000 (-43) ez) as (k1 & Hk1 & HX & _ & Hk1v & _).
    destruct (shl_align_spec m e ez) as (k2 & Hk2 & HY & _ & Hk2v & _).
    assert (Hk1e : k1 = -43 - ez) by lia. assert (Hk2e : k2 = e - ez) by lia.
    assert (HXv : Zpos (fst (shl_align 8796093022208000 (-43) ez)) = 1000 * 2 ^ (- ez)).
    { rewrite HX. replace (- ez) with (43 + k1) by lia.
      rewrite Z.pow_add_r by lia. change (2 ^ 43) with 8796093022208. lia. }
    assert (HYv : Zpos (fst (shl_align m e ez)) <= 1000 * 2 ^ (- ez)).
    { rewrite HY. apply (mag_le_shift (Zpos m) e 1000 k2 Hk2) in Hg.
      replace (e - k2) with ez in Hg by lia. unfold mag_le in Hg.
      rewrite (Z.max_l 0 ez), (Z.max_r 0 (- ez)) in Hg by lia.
      change (2 ^ 0) with 1 in Hg. lia. }
    cbn [cond_Zopp]. rewrite HXv.
    set (Y := Zpos (fst (shl_align m e ez))) in *.
    assert (HYpos : 0 < Y) by (unfold Y; lia).
    set (M := 1000 * 2 ^ (- ez) - cond_Zopp s Y).
    assert (HM : 0 <= M <= 2000 * 2 ^ (- ez)).
    { unfold M. destruct s; cbn [cond_Zopp]; lia. }
    pose proof (binary_normalize_le 2000 M ez ltac:(lia)) as Hn.
    assert (Hs : (M <? 0) = false) by (apply Z.ltb_ge; lia).
    rewrite Hs in Hn.
    assert (Hle : mag_le (Z.abs M) ez 2000).
    { unfold mag_le. rewrite (Z.max_l 0 ez), (Z.max_r 0 (- ez)) by lia.
      change (2 ^ 0) with 1. lia. }
    specialize (Hn Hle).
    destruct (binary_normalize prec emax M ez false); cbn in *; tauto.
Qed.

Lemma double_to_Z_within (K : Z) (x : float) :
  0 <= K -> SF_nonneg_within K (Prim2SF x) -> 0 <= double_to_Z x <= K.
Proof.
  intros HK Hx. unfold double_to_Z.
  destruct (Prim2SF x) as [s|s| |s m e]; cbn [SF_nonneg_within] in Hx;
    try lia; try contradiction.
  destruct Hx as [-> Hle]. unfold mag_le in Hle.
  destruct (Z.leb_spec 0 e) as [He|He].
  - rewrite (Z.max_r 0 e), (Z.max_l 0 (- e)) in Hle by lia.
    change (2 ^ 0) with 1 in Hle. pose proof (pow2_pos e He). nia.
  - rewrite (Z.max_l 0 e), (Z.max_r 0 (- e)) in Hle by lia.
    change (2 ^ 0) with 1 in Hle. pose proof (pow2_pos (- e) ltac:(lia)) as Hp.
    split; [apply Z.div_pos; lia|].
    apply Z.div_le_upper_bound; lia.
Qed.

(** The sleep computed from any [unix_time_d] is at most two seconds. *)
Lemma sync_ms_delay_bounds (u : float) :
  0 <= double_to_uint32 (1000 - fst (modf u) * 1000) <= 2000.
Proof.
  unfold double_to_uint32.
  pose proof (double_to_Z_within 2000 (1000 - fst (modf u) * 1000) ltac:(lia)
                (remainder_within _ (scaled_fraction_within _ (modf_fraction_within u)))) as H.
  rewrite Z.mod_small; lia.
Qed.

Lemma scaled_fraction_signed (f : float) (s : bool) :
  SF_le 1 s (Prim2SF f) -> SF_le 1000 s (Prim2SF (f * 1000)).
Proof.
  intros Hf. rewrite FloatAxioms.mul_spec, Prim2SF_1000.
  destruct (Prim2SF f) as [s'|s'| |s' m e]; cbn [SF64mul SFmul SF_le] in *;
    try exact I; try contradiction.
  destruct Hf as [-> Hle]. rewrite <- (Bool.xorb_false_r s) at 1.
  apply binary_round_aux_le; [lia|].
  change 1000 with (1 * 1000). rewrite Pos2Z.inj_mul.
  apply mag_le_mul; try lia; [assumption | exact mag_le_1000].
Qed.

(** [1e3 - g] for a [g] between [0] and [1e3]. *)
Lemma remainder_of_positive (g : float) :
  SF_le 1000 false (Prim2SF g) -> SF_nonneg_within 1000 (Prim2SF (1000 - g)).
Proof.
  intros Hg. rewrite FloatAxioms.sub_spec, Prim2SF_1000.
  destruct (Prim2SF g) as [s|s| |s m e]; cbn [SF64sub SFsub SF_le SF_nonneg_within] in *;
    try exact I; try contradiction.
  - split; [reflexivity | exact mag_le_1000].
  - destruct Hg as [-> Hg]. set (ez := Z.min (-43) e).
    destruct (shl_align_spec 8796093022208000 (-43) ez) as (k1 & Hk1 & HX & _ & Hk1v & _).
    destruct (shl_align_spec m e ez) as (k2 & Hk2 & HY & _ & Hk2v & _).
    assert (Hk1e : k1 = -43 - ez) by lia. assert (Hk2e : k2 = e - ez) by lia.
    assert (HXv : Zpos (fst (shl_align 8796093022208000 (-43) ez)) = 1000 * 2 ^ (- ez)).
    { rewrite HX. replace (- ez) with (43 + k1) by lia.
      rewrite Z.pow_add_r by lia. change (2 ^ 43) with 8796093022208. lia. }
    assert (HYv : Zpos (fst (shl_align m e ez)) <= 1000 * 2 ^ (- ez)).
    { rewrite HY. apply (mag_le_shift (Zpos m) e 1000 k2 Hk2) in Hg.
      replace (e - k2) with ez in Hg by lia. unfold mag_le in Hg.
      rewrite (Z.max_l 0 ez), (Z.max_r 0 (- ez)) in Hg by lia.
      change (2 ^ 0) with 1 in Hg. lia. }
    cbn [cond_Zopp]. rewrite HXv.
    set (Y := Zpos (fst (shl_align m e ez))) in *.
    assert (HYpos : 0 < Y) by (unfold Y; lia).
    set (M := 1000 * 2 ^ (- ez) - Y).
    assert (HM : 0 <= M <= 1000 * 2 ^ (- ez)) by (unfold M; lia).
    pose proof (binary_normalize_le 1000 M ez ltac:(lia)) as Hn.
    assert (Hs : (M <? 0) = false) by (apply Z.ltb_ge; lia).
    rewrite Hs in Hn.
    assert (Hle : mag_le (Z.abs M) ez 1000).
    { unfold mag_le. rewrite (Z.max_l 0 ez), (Z.max_r 0 (- ez)) by lia.
      change (2 ^ 0) with 1. lia. }
    specialize (Hn Hle).
    destruct (binary_normalize prec emax M ez false); cbn in *; tauto.
Qed.

(** A positive integral part comes from a positive finite double. *)
Lemma positive_intpart (u : float) :
  0 < double_to_Z (snd (modf u)) -> exists m e, Prim2SF u = S754_finite false m e.
Proof.
  unfold modf. destruct (Prim2SF u) as [s|s| |s m e] eqn:Hu; cbn [snd].
  - unfold double_to_Z. rewrite Hu. lia.
  - unfold double_to_Z. rewrite Hu. lia.
  - unfold double_to_Z. rewrite Hu. lia.
  - destruct s; [|eauto]. intros Hv. exfalso.
    destruct (finite_double u true m e Hu) as [Hm53 _].
    destruct (Z.leb_spec 0 e) as [He|He]; cbn [snd] in Hv.
    + unfold double_to_Z in Hv. rewrite Hu in Hv.
      destruct (Z.leb_spec 0 e); [|lia]. pose proof (pow2_pos e He). nia.
    + pose proof (pow2_pos (- e) ltac:(lia)) as Hpa.
      assert (Hz : double_to_Z u = - (Zpos m / 2 ^ (- e))).
      { unfold double_to_Z. rewrite Hu. destruct (Z.leb_spec 0 e); [lia|]. reflexivity. }
      rewrite Hz in Hv.
      pose proof (Z.div_pos (Zpos m) (2 ^ (- e)) ltac:(lia) Hpa) as Hq0.
      pose proof (Z.div_le_upper_bound (Zpos m) (2 ^ (- e)) (Zpos m) Hpa ltac:(nia)) as Hqm.
      set (q := Zpos m / 2 ^ (- e)) in *.
      pose proof (double_of_Z_spec (- q) ltac:(lia)) as HI.
      unfold double_to_Z in Hv at 1.
      destruct (Prim2SF (double_of_Z (- q))) as [sI|sI| |sI mI eI]; try lia.
      destruct HI as (HsI & HeI & HmI).
      assert (Hval : 0 <= (if 0 <=? eI then Zpos mI * 2 ^ eI else Zpos mI / 2 ^ (- eI))).
      { destruct (Z.leb_spec 0 eI).
        - pose proof (pow2_pos eI ltac:(lia)). nia.
        - apply Z.div_pos; [lia|]. apply pow2_pos. lia. }
      cbv zeta in Hv. destruct sI; [lia|].
      symmetry in HsI. apply Z.ltb_ge in HsI.
      assert (q = 0) by lia. subst q. rewrite H in HmI. cbn in HmI. lia.
Qed.

(** The sleep computed from any [unix_time_d]: at most two seconds, and at
    most one when the integral part is positive. *)
Lemma sync_ms_delay_refined (u : float) :
  0 <= double_to_uint32 (1000 - fst (modf u) * 1000) <= 2000
  /\ (0 < double_to_Z (snd (modf u)) ->
      double_to_uint32 (1000 - fst (modf u) * 1000) <= 1000).
Proof.
  split; [apply sync_ms_delay_bounds|].
  intros Hv. destruct (positive_intpart u Hv) as (m & e & Hu).
  unfold double_to_uint32.
  pose proof (double_to_Z_within 1000 (1000 - fst (modf u) * 1000) ltac:(lia)
                (remainder_of_positive _
                   (scaled_fraction_signed _ false (modf_fraction_signed u false m e Hu))))
    as H.
  rewrite Z.mod_small; lia.
Qed.

End Binary64.

(** ** What [time] does around the exchange *)

Section TimeProperties.

Import NTPMessageTransport NTPClient.

(** Printing and waiting, for a continuation that needs the socket and the
    clock. *)
Lemma returns_print_quiet (t : serial_text) Q (w : World) :
  (forall w', datagram w' = datagram w -> clock_ms w' = clock_ms w -> Q tt w') ->
  returns (Serial_print t) Q w.
Proof. intros HQ. eexists; eexists; split; [reflexivity|]. now apply HQ. Qed.

Lemma returns_println_quiet (t : serial_text) Q (w : World) :
  (forall w', datagram w' = datagram w -> clock_ms w' = clock_ms w -> Q tt w') ->
  returns (Serial_println t) Q w.
Proof. intros HQ. eexists; eexists; split; [reflexivity|]. now apply HQ. Qed.

Lemma returns_delay_clock (ms : Z) Q (w : World) :
  (forall w', datagram w' = datagram w -> clock_ms w' = clock_ms w + ms -> Q tt w') ->
  returns (delay ms) Q w.
Proof. intros HQ. eexists; eexists; split; [reflexivity|]. now apply HQ. Qed.

Ltac quiet_step :=
  first
    [ apply returns_bind
    | apply returns_print_quiet; intros ? ? ?
    | apply returns_println_quiet; intros ? ? ?
    | apply returns_millis
    | apply returns_gets ].

Ltac chain_worlds :=
  repeat match goal with
         | H : datagram ?a = datagram ?b |- _ => rewrite H in *; clear H
         | H : clock_ms ?a = clock_ms ?b |- _ => rewrite H in *; clear H
         end.

Lemma time_after_exchange (h : byte_order) (fuel : nat) (tloc : ptr) (w w1 : World) :
  on_wire_exchange h fuel PTR
    (with_packet
       (set_xmt (generateTstamp64 h ((ERA_OFFSET0_1_JAN_1970 + 1637244065) mod 2 ^ 32) 0)
                (packet w)) w)
  = Some (true, w1) ->
  exists v w2,
    time h fuel tloc w = Some (v, w2)
    /\ datagram w2 = datagram w1
    /\ 0 <= clock_ms w2 - clock_ms w1 <= 2000
    /\ (0 < v -> clock_ms w2 - clock_ms w1 <= 1000).
Proof.
  intros Hx.
  change (returns (time h fuel tloc)
            (fun v w2 =>
               datagram w2 = datagram w1
               /\ 0 <= clock_ms w2 - clock_ms w1 <= 2000
               /\ (0 < v -> clock_ms w2 - clock_ms w1 <= 1000)) w).
  unfold time. cbv zeta.
  apply returns_bind. eapply returns_run; [reflexivity|].
  apply returns_bind. apply returns_millis.
  apply returns_bind. eapply returns_run; [exact Hx|]. cbn [negb].
  do 60 try quiet_step.
  apply returns_delay_clock. intros wd Hd Hc.
  match goal with |- context [modf ?u] => set (U := u) in * end.
  clearbody U. chain_worlds.
  destruct (sync_ms_delay_refined U) as [Hs Hs1].
  apply returns_bind.
  destruct tloc.
  - do 2 apply returns_ret. rewrite Hd, Hc. split; [reflexivity|]. split; [lia|].
    intros Hv. specialize (Hs1 Hv). lia.
  - eapply returns_run; [reflexivity|]. apply returns_ret.
    cbn [datagram clock_ms with_tloc]. rewrite Hd, Hc. split; [reflexivity|].
    split; [lia|]. intros Hv. specialize (Hs1 Hv). lia.
Qed.

(** The bound of two seconds is reached: for a [unix_time_d] just above -1
    the product and the difference both round up. *)
Remark sleep_reaches_two_seconds :
  double_to_uint32 (1000 - fst (modf (-0x1.fffffffffffffp-1)) * 1000) = 2000.
Proof. vm_compute. reflexivity. Qed.

(** X17: after a successful exchange [time] waits for the next full second:
    it sleeps at most two seconds, and at most one second whenever the time
    it returns is positive. *)
Theorem time_sleeps_to_the_next_second
    (h : byte_order) (fuel : nat) (tloc : ptr) (w w1 : World) :
  on_wire_exchange h fuel PTR
    (with_packet
       (set_xmt (generateTstamp64 h ((ERA_OFFSET0_1_JAN_1970 + 1637244065) mod 2 ^ 32) 0)
                (packet w)) w)
  = Some (true, w1) ->
  exists v w2,
    time h fuel tloc w = Some (v, w2)
    /\ 0 <= clock_ms w2 - clock_ms w1 <= 2000
    /\ (0 < v -> clock_ms w2 - clock_ms w1 <= 1000).
Proof.
  intros Hx.
  destruct (time_after_exchange h fuel tloc w w1 Hx) as (v & w2 & Hrun & _ & Hc & Hv).
  now exists v, w2.
Qed.

Lemma time_sleeps_to_the_next_second_witness :
  exists v w2,
    time LittleEndian 1024 PTR
      (Examples.world Examples.zero_memory
         [Some (Examples.datagram_of Examples.good_reply)])
    = Some (v, w2)
    /\ 0 <= clock_ms w2
            - clock_ms (Examples.after_exchange
                          (Examples.world Examples.zero_memory
                             [Some (Examples.datagram_of Examples.good_reply)]))
         <= 2000
    /\ (0 < v ->
        clock_ms w2
        - clock_ms (Examples.after_exchange
                      (Examples.world Examples.zero_memory
                         [Some (Examples.datagram_of Examples.good_reply)]))
        <= 1000).
Proof.
  exact (time_sleeps_to_the_next_second LittleEndian 1024 PTR
           (Examples.world Examples.zero_memory
              [Some (Examples.datagram_of Examples.good_reply)])
           (Examples.after_exchange
              (Examples.world Examples.zero_memory
                 [Some (Examples.datagram_of Examples.good_reply)]))
           ltac:(vm_compute; reflexivity)).
Defined.

Lemma time_after_failed_exchange
    (h : byte_order) (fuel : nat) (tloc : ptr) (w w1 : World) :
  on_wire_exchange h fuel PTR
    (with_packet
       (set_xmt (generateTstamp64 h ((ERA_OFFSET0_1_JAN_1970 + 1637244065) mod 2 ^ 32) 0)
                (packet w)) w)
  = Some (false, w1) ->
  exists w2, time h fuel tloc w = Some (-1, w2) /\ datagram w2 = datagram w1.
Proof.
  intros Hx. unfold time. cbv zeta.
  unfold bind at 1. unfold modify at 1.
  unfold bind at 1. unfold millis at 1. unfold gets at 1.
  rewrite (bind_run _ _ _ _ _ Hx). cbn [negb].
  eexists. split; [reflexivity|]. reflexivity.
Qed.

Lemma on_wire_exchange_sent (h : byte_order) (fuel : nat)
    (w : World) (b : bool) (w' : World) :
  on_wire_exchange h fuel PTR w = Some (b, w') ->
  udp_sent (datagram w') = udp_sent (datagram w)
  \/ udp_sent (datagram w')
     = udp_sent (datagram w)
       ++ [((server_name_str w, NTP_SERVER_PORT),
            0x23 :: repeat 0 39 ++ store h 8 (xmt (packet w)))].
Proof.
  intros Hrun. rewrite on_wire_exchange_phases in Hrun.
  destruct (packetExchange _ _ _ _ _) as [[ok w1]|] eqn:Hx; [|discriminate].
  apply packetExchange_sent in Hx. cbn [packet with_packet] in Hx.
  replace (assemble_request h (packet w))
    with (mk_packet 0x23 0 0 0 0 0 0 0 0 0 (xmt (packet w))) in Hx
    by (destruct h; reflexivity).
  rewrite request_image in Hx.
  assert (Hd : datagram w' = datagram w1).
  { destruct ok.
    - exact (check_reply_datagram _ _ _ _ Hrun).
    - inversion Hrun; subst. reflexivity. }
  rewrite Hd. exact Hx.
Qed.

(** What [time] has sent when it returns. *)
Lemma time_sent_when_returned
    (h : byte_order) (fuel : nat) (tloc : ptr) (w : World) (v : Z) (w2 : World) :
  time h fuel tloc w = Some (v, w2) ->
  udp_sent (datagram w2) = udp_sent (datagram w)
  \/ udp_sent (datagram w2)
     = udp_sent (datagram w)
       ++ [((server_name_str w, NTP_SERVER_PORT),
            0x23 :: repeat 0 39 ++ [0xE5; 0x40; 0xDB; 0x21; 0; 0; 0; 0])].
Proof.
  intros Hrun.
  set (t1 := generateTstamp64 h ((ERA_OFFSET0_1_JAN_1970 + 1637244065) mod 2 ^ 32) 0).
  destruct (on_wire_exchange h fuel PTR (with_packet (set_xmt t1 (packet w)) w))
    as [[ok w1]|] eqn:Hx.
  2: { rewrite (time_when_exchange_faults h fuel tloc w Hx) in Hrun. discriminate. }
  pose proof (on_wire_exchange_sent _ _ _ _ _ Hx) as Hsent.
  cbn [packet with_packet set_xmt xmt server_name_str datagram] in Hsent.
  replace (store h 8 t1) with [0xE5; 0x40; 0xDB; 0x21; 0; 0; 0; 0] in Hsent
    by (destruct h; reflexivity).
  destruct ok.
  - destruct (time_after_exchange h fuel tloc w w1 Hx) as (v' & w2' & Hrun' & Hd & _).
    rewrite Hrun in Hrun'. injection Hrun' as _ <-. rewrite Hd. exact Hsent.
  - destruct (time_after_failed_exchange h fuel tloc w w1 Hx) as (w2' & Hrun' & Hd).
    rewrite Hrun in Hrun'. injection Hrun' as _ <-. rewrite Hd. exact Hsent.
Qed.

Lemma time_sent
    (h : byte_order) (fuel : nat) (tloc : ptr) (w : World) :
  (1024 <= fuel)%nat ->
  (exists v w2,
      time h fuel tloc w = Some (v, w2)
      /\ (udp_sent (datagram w2) = udp_sent (datagram w)
          \/ udp_sent (datagram w2)
             = udp_sent (datagram w)
               ++ [((server_name_str w, NTP_SERVER_PORT),
                    0x23 :: repeat 0 39 ++ [0xE5; 0x40; 0xDB; 0x21; 0; 0; 0; 0])]))
  \/ (time h fuel tloc w = None
      /\ exchange_faults h fuel
           (with_packet
              (set_xmt (generateTstamp64 h
                          ((ERA_OFFSET0_1_JAN_1970 + 1637244065) mod 2 ^ 32) 0)
                       (packet w)) w)).
Proof.
  intros Hfuel.
  set (t1 := generateTstamp64 h ((ERA_OFFSET0_1_JAN_1970 + 1637244065) mod 2 ^ 32) 0).
  destruct (on_wire_exchange_returns_or_faults h fuel
              (with_packet (set_xmt t1 (packet w)) w) Hfuel)
    as [(ok & w1 & Hx)|[Hnone Hfault]].
  2: { right. split; [|exact Hfault].
       exact (time_when_exchange_faults h fuel tloc w Hnone). }
  left.
  pose proof (on_wire_exchange_sent _ _ _ _ _ Hx) as Hsent.
  cbn [packet with_packet set_xmt xmt server_name_str datagram] in Hsent.
  replace (store h 8 t1) with [0xE5; 0x40; 0xDB; 0x21; 0; 0; 0; 0] in Hsent
    by (destruct h; reflexivity).
  destruct ok.
  - destruct (time_after_exchange h fuel tloc w w1 Hx) as (v & w2 & Hrun & Hd & _).
    exists v, w2. split; [exact Hrun|]. rewrite Hd. exact Hsent.
  - destruct (time_after_failed_exchange h fuel tloc w w1 Hx) as (w2 & Hrun & Hd).
    exists (-1), w2. split; [exact Hrun|]. rewrite Hd. exact Hsent.
Qed.

(** X18: given fuel for its 1024 polls, [time] returns unless the read of a
    kiss code faults, and when it returns, whatever the clock, the caller and
    the host's byte order, it has put at most one datagram on the wire,
    always the same 48 bytes: 0x23, thirty-nine zero bytes, and the transmit
    timestamp of second 1637244065 after the Unix epoch with fraction zero,
    addressed to port 123 of the configured server. *)
Theorem time_sends_one_fixed_request
    (h : byte_order) (fuel : nat) (tloc : ptr) (w : World) :
  (1024 <= fuel)%nat ->
  (exists v w2,
      time h fuel tloc w = Some (v, w2)
      /\ (udp_sent (datagram w2) = udp_sent (datagram w)
          \/ udp_sent (datagram w2)
             = udp_sent (datagram w)
               ++ [((server_name_str w, NTP_SERVER_PORT),
                    0x23 :: repeat 0 39 ++ [0xE5; 0x40; 0xDB; 0x21; 0; 0; 0; 0])]))
  \/ (time h fuel tloc w = None
      /\ exchange_faults h fuel
           (with_packet
              (set_xmt (generateTstamp64 h
                          ((ERA_OFFSET0_1_JAN_1970 + 1637244065) mod 2 ^ 32) 0)
                       (packet w)) w)).
Proof.
  exact (time_sent h fuel tloc w).
Qed.

Lemma time_sends_one_fixed_request_witness :
  (exists v w2,
      time BigEndian 1024 NULL
        (Examples.world Examples.zero_memory
           [None; Some (Examples.datagram_of Examples.wrong_origin)])
      = Some (v, w2)
      /\ (udp_sent (datagram w2)
          = udp_sent (datagram (Examples.world Examples.zero_memory
                                  [None; Some (Examples.datagram_of Examples.wrong_origin)]))
          \/ udp_sent (datagram w2)
             = udp_sent (datagram (Examples.world Examples.zero_memory
                                     [None; Some (Examples.datagram_of Examples.wrong_origin)]))
               ++ [((server_name_str
                       (Examples.world Examples.zero_memory
                          [None; Some (Examples.datagram_of Examples.wrong_origin)]),
                     NTP_SERVER_PORT),
                    0x23 :: repeat 0 39 ++ [0xE5; 0x40; 0xDB; 0x21; 0; 0; 0; 0])]))
  \/ (time BigEndian 1024 NULL
        (Examples.world Examples.zero_memory
           [None; Some (Examples.datagram_of Examples.wrong_origin)])
      = None
      /\ exchange_faults BigEndian 1024
           (with_packet
              (set_xmt (generateTstamp64 BigEndian
                          ((ERA_OFFSET0_1_JAN_1970 + 1637244065) mod 2 ^ 32) 0)
                       (packet (Examples.world Examples.zero_memory
                                  [None; Some (Examples.datagram_of Examples.wrong_origin)])))
              (Examples.world Examples.zero_memory
                 [None; Some (Examples.datagram_of Examples.wrong_origin)]))).
Proof.
  exact (time_sends_one_fixed_request BigEndian 1024 NULL
           (Examples.world Examples.zero_memory
              [None; Some (Examples.datagram_of Examples.wrong_origin)])
           ltac:(lia)).
Defined.

(** X20: [begin] selects the server of the requests that follow: after
    [begin] the server name is the one given, or the default
    europe.pool.ntp.org for a null pointer, and any datagram a following
    [time] has sent when it returns went to port 123 of that server. *)
Theorem begin_selects_the_server
    (h : byte_order) (fuel : nat) (tloc : ptr) (name : option string)
    (w : World) (v : Z) (w2 : World) :
  time h fuel tloc
    (with_server_name (match name with
                       | Some n => n
                       | None => DEFAULT_NTP_SERVER
                       end) w)
  = Some (v, w2) ->
  begin name w = Some (tt, with_server_name (match name with
                                             | Some n => n
                                             | None => DEFAULT_NTP_SERVER
                                             end) w)
  /\ serverName (with_server_name (match name with
                                   | Some n => n
                                   | None => DEFAULT_NTP_SERVER
                                   end) w)
     = Some (match name with
             | Some n => n
             | None => DEFAULT_NTP_SERVER
             end,
             with_server_name (match name with
                               | Some n => n
                               | None => DEFAULT_NTP_SERVER
                               end) w)
  /\ (udp_sent (datagram w2) = udp_sent (datagram w)
      \/ udp_sent (datagram w2)
         = udp_sent (datagram w)
           ++ [((match name with
                 | Some n => n
                 | None => DEFAULT_NTP_SERVER
                 end, NTP_SERVER_PORT),
                0x23 :: repeat 0 39 ++ [0xE5; 0x40; 0xDB; 0x21; 0; 0; 0; 0])]).
Proof.
  set (target := match name with Some n => n | None => DEFAULT_NTP_SERVER end).
  intros Hrun.
  split; [destruct name; reflexivity|]. split; [reflexivity|].
  exact (time_sent_when_returned h fuel tloc (with_server_name target w) v w2 Hrun).
Qed.

Lemma begin_selects_the_server_witness :
  begin None (Examples.world Examples.zero_memory [])
  = Some (tt, with_server_name DEFAULT_NTP_SERVER (Examples.world Examples.zero_memory []))
  /\ serverName (with_server_name DEFAULT_NTP_SERVER
                   (Examples.world Examples.zero_memory []))
     = Some (DEFAULT_NTP_SERVER,
             with_server_name DEFAULT_NTP_SERVER (Examples.world Examples.zero_memory []))
  /\ (udp_sent (datagram (Scenarios.after_time PTR
                            (with_server_name DEFAULT_NTP_SERVER
                               (Examples.world Examples.zero_memory []))))
      = udp_sent (datagram (Examples.world Examples.zero_memory []))
      \/ udp_sent (datagram (Scenarios.after_time PTR
                               (with_server_name DEFAULT_NTP_SERVER
                                  (Examples.world Examples.zero_memory []))))
         = udp_sent (datagram (Examples.world Examples.zero_memory []))
           ++ [((DEFAULT_NTP_SERVER, NTP_SERVER_PORT),
                0x23 :: repeat 0 39 ++ [0xE5; 0x40; 0xDB; 0x21; 0; 0; 0; 0])]).
Proof.
  exact (begin_selects_the_server LittleEndian 1024 PTR None
           (Examples.world Examples.zero_memory []) (-1)
           (Scenarios.after_time PTR
              (with_server_name DEFAULT_NTP_SERVER
                 (Examples.world Examples.zero_memory [])))
           ltac:(vm_compute; reflexivity)).
Defined.

(** X21: when the exchange fails, [time] returns -1 at once, without
    sleeping, and the last thing it has printed is "Last error: " with the
    message of the reason the exchange has just set: never a reason left
    over from before the call, never none. *)
Theorem failed_time_reports_the_reason
    (h : byte_order) (fuel : nat) (tloc : ptr) (w w1 : World) :
  on_wire_exchange h fuel PTR
    (with_packet
       (set_xmt (generateTstamp64 h ((ERA_OFFSET0_1_JAN_1970 + 1637244065) mod 2 ^ 32) 0)
                (packet w)) w)
  = Some (false, w1) ->
  exists e w2,
    time h fuel tloc w = Some (-1, w2)
    /\ errno w1 = Some e /\ errno w2 = Some e
    /\ serial w2
       = serial w1
         ++ [Print (TStr (String (ascii_of_nat 10) EmptyString));
             Print (TStr "Last error: ");
             Println (TStrerror (Some e))]
    /\ clock_ms w2 = clock_ms w1.
Proof.
  intros Hx.
  destruct (on_wire_exchange_errno h fuel PTR _ _ _ Hx) as [e He].
  exists e.
  unfold time. cbv zeta.
  unfold bind at 1. unfold modify at 1.
  unfold bind at 1. unfold millis at 1. unfold gets at 1.
  rewrite (bind_run _ _ _ _ _ Hx). cbn [negb].
  eexists. split; [reflexivity|].
  cbn [errno serial clock_ms with_serial]. rewrite He, <- !app_assoc.
  repeat split.
Qed.

Lemma failed_time_reports_the_reason_witness :
  exists e w2,
    time LittleEndian 1024 PTR (Examples.world Examples.zero_memory []) = Some (-1, w2)
    /\ errno (Examples.after_exchange (Examples.world Examples.zero_memory [])) = Some e
    /\ errno w2 = Some e
    /\ serial w2
       = serial (Examples.after_exchange (Examples.world Examples.zero_memory []))
         ++ [Print (TStr (String (ascii_of_nat 10) EmptyString));
             Print (TStr "Last error: ");
             Println (TStrerror (Some e))]
    /\ clock_ms w2 = clock_ms (Examples.after_exchange
                                 (Examples.world Examples.zero_memory [])).
Proof.
  exact (failed_time_reports_the_reason LittleEndian 1024 PTR
           (Examples.world Examples.zero_memory [])
           (Examples.after_exchange (Examples.world Examples.zero_memory []))
           ltac:(vm_compute; reflexivity)).
Defined.

End TimeProperties.

(** ** The exchange from end to end *)

Section EndToEnd.

Import NTPMessageTransport NTPClient.

(** X19: with the network ready, when the image of a reply that passes every
    check arrives within the 1024 polls, [on_wire_exchange] succeeds, the
    caller's packet is that reply, [errno] is untouched, and what arrives
    later stays in the socket. *)
Theorem valid_reply_in_time_is_accepted
    (h : byte_order) (fuel k : nat) (reply : ntp_packet)
    (rest : list (option Datagram)) (w : World) :
  ready_to_send w ->
  (k < 1024)%nat -> (k < fuel)%nat ->
  udp_arrivals (datagram w)
  = repeat None k ++ Some {| dg_size := 48; dg_payload := packet_bytes h reply |} :: rest ->
  fits_packet reply ->
  Spec.first_failing_check (xmt (packet w)) reply = None ->
  exists w',
    on_wire_exchange h fuel PTR w = Some (true, w')
    /\ packet w' = reply
    /\ errno w' = errno w
    /\ udp_arrivals (datagram w') = rest.
Proof.
  intros Hready Hk Hfuel Harr Hfits Hvalid.
  set (w0 := with_packet (assemble_request h (packet w)) w).
  assert (Hready0 : ready_to_send w0) by exact Hready.
  destruct (packetExchange_when_ready h fuel TIMEOUT w0 Hready0)
    as (ws & Hx & Ha & _ & _ & _ & _); [unfold TIMEOUT; lia|].
  cbn [datagram with_packet w0] in Ha. rewrite Harr in Ha.
  destruct (receive_after_arrival h fuel k TIMEOUT
              {| dg_size := 48; dg_payload := packet_bytes h reply |} rest ws) as
    (w1 & Hrecv & Hpkt & _ & _ & Hrest & _);
    [unfold TIMEOUT, ULONG_MOD; lia | unfold TIMEOUT; lia | exact Hfuel | exact Ha
    | cbn; unfold sizeof_ntp_packet; lia |].
  cbn [dg_payload] in Hrecv, Hpkt.
  rewrite firstn_all2 in Hrecv, Hpkt by (rewrite packet_bytes_length; cbn; lia).
  rewrite packet_bytes_length in Hrecv.
  change (Z.of_nat (Z.to_nat sizeof_ntp_packet) =? sizeof_ntp_packet) with true in Hrecv.
  rewrite Hrecv in Hx.
  assert (Hp1 : packet w1 = reply).
  { rewrite Hpkt. unfold overlay.
    rewrite skipn_all2 by (rewrite !packet_bytes_length; lia).
    rewrite app_nil_r. exact (packet_of_bytes_of_image h reply Hfits). }
  pose proof (packetExchange_errno h fuel PTR TIMEOUT w0 true w1 Hx) as Herr.
  cbn [errno with_packet w0] in Herr.
  assert (Hf : kiss_code_read_faults w1 = false).
  { apply (valid_reply_does_not_fault (xmt (packet w))). rewrite Hp1, Hvalid. discriminate. }
  destruct (check_reply_first_failure (xmt (packet w)) w1 Hf) as (w' & Hc & Hsame & _).
  rewrite Hp1, Hvalid in Hc, Hsame. subst w'.
  exists w1. split; [|auto].
  rewrite on_wire_exchange_phases. fold w0. rewrite Hx. exact Hc.
Qed.

Lemma valid_reply_in_time_is_accepted_witness :
  exists w',
    on_wire_exchange LittleEndian 1024 PTR Scenarios.reply_at_third_poll = Some (true, w')
    /\ packet w' = Examples.good_reply
    /\ errno w' = errno Scenarios.reply_at_third_poll
    /\ udp_arrivals (datagram w') = [].
Proof.
  exact (valid_reply_in_time_is_accepted LittleEndian 1024 2 Examples.good_reply []
           Scenarios.reply_at_third_poll
           ltac:(vm_compute; repeat split; auto; lia)
           ltac:(lia) ltac:(lia) ltac:(reflexivity)
           ltac:(vm_compute; intuition discriminate)
           ltac:(vm_compute; reflexivity)).
Defined.

End EndToEnd.
